(** * Deal submission processor: a shallow embedding of [deal_processor.py]

    The Python program talks to four collaborators (Google Drive, Google
    Docs, Gmail and the text-generation HTTP endpoint) and to the logger.
    Pure helpers are plain functions; the methods that touch a collaborator
    live in a state-and-exception monad over a [World] that records what was
    asked of each collaborator, what Drive holds, what was delivered and what
    was logged.

    Text is [string]: one [ascii] per code point, which covers the code
    points below 256. *)

From stdpp Require Import base strings list gmap pretty.
From Stdlib Require Import Ascii.

Local Open Scope string_scope.
Local Open Scope list_scope.
#[local] Set Warnings "-register-all".

(** ** Text helpers *)

Module Text.

(** [str.isspace] / the regex class [\s] on code points below 256. *)
Definition is_space (c : ascii) : bool :=
  let n := nat_of_ascii c in
  (((9 <=? n) && (n <=? 13)) || ((28 <=? n) && (n <=? 32))
   || (n =? 133) || (n =? 160))%nat.

Definition ascii_in (cs : string) (c : ascii) : bool :=
  existsb (Ascii.eqb c) (String.list_ascii_of_string cs).

(** [sep.join(parts)]. *)
Fixpoint join (sep : string) (parts : list string) : string :=
  match parts with
  | [] => ""
  | [p] => p
  | p :: rest => p +:+ sep +:+ join sep rest
  end.

(** [re.split(cls+, text)] for a character class [cls]: the text is cut at
    every maximal run of class characters; a run at either end leaves an
    empty fragment there, and the empty text gives one empty fragment.
    [cur] is the fragment being read, [in_run] tells that the previous
    character belonged to the class. *)
Fixpoint re_split_go (cls : ascii -> bool) (text cur : string) (in_run : bool)
  : list string :=
  match text with
  | EmptyString => [cur]
  | String c rest =>
      if cls c then
        if in_run then re_split_go cls rest "" true
        else cur :: re_split_go cls rest "" true
      else re_split_go cls rest (cur +:+ String c "") false
  end.

Definition re_split (cls : ascii -> bool) (text : string) : list string :=
  re_split_go cls text "" false.

(** [re.sub(cls+, repl, text)]: every maximal run of class characters is
    replaced by [repl]. *)
Fixpoint re_sub_go (cls : ascii -> bool) (repl text : string) (in_run : bool)
  : string :=
  match text with
  | EmptyString => ""
  | String c rest =>
      if cls c then
        if in_run then re_sub_go cls repl rest true
        else repl +:+ re_sub_go cls repl rest true
      else String c (re_sub_go cls repl rest false)
  end.

Definition re_sub (cls : ascii -> bool) (repl text : string) : string :=
  re_sub_go cls repl text false.

Fixpoint lstrip (s : string) : string :=
  match s with
  | String c rest => if is_space c then lstrip rest else s
  | EmptyString => ""
  end.

Fixpoint rstrip (s : string) : string :=
  match s with
  | EmptyString => ""
  | String c rest =>
      match rstrip rest with
      | EmptyString => if is_space c then "" else String c ""
      | r => String c r
      end
  end.

(** [s.strip()]. *)
Definition strip (s : string) : string := rstrip (lstrip s).

Fixpoint starts_with (p s : string) : bool :=
  match p, s with
  | EmptyString, _ => true
  | String a p', String b s' => Ascii.eqb a b && starts_with p' s'
  | String _ _, EmptyString => false
  end.

(** [needle in hay]: [needle] occurs in [hay] as a contiguous substring. *)
Fixpoint contains (hay needle : string) : bool :=
  starts_with needle hay ||
  match hay with
  | EmptyString => false
  | String _ hay' => contains hay' needle
  end.

(** [text.split(chr(10))]. *)
Fixpoint lines_go (text cur : string) : list string :=
  match text with
  | EmptyString => [cur]
  | String c rest =>
      if Ascii.eqb c "010"%char then cur :: lines_go rest ""
      else lines_go rest (cur +:+ String c "")
  end.

Definition lines (text : string) : list string := lines_go text "".

Definition nonempty (s : string) : bool :=
  match s with EmptyString => false | _ => true end.

Definition dq : string := String (ascii_of_nat 34) "".
Definition nl : string := String (ascii_of_nat 10) "".

End Text.

(** ** [GoogleWorkspaceManager._clean_text_for_search] *)

(** The character class of the pattern: whitespace and [- . , ; : | / _]. *)
Definition search_separator (c : ascii) : bool :=
  Text.is_space c || Text.ascii_in "-.,;:|/_" c.

Definition _clean_text_for_search (text : string) : string :=
  let words := Text.re_split search_separator text in
  Text.join "," (filter (λ word, Is_true (Text.nonempty word)) words).

(** ** Data model *)

Record DealSubmission := {
  email : string;
  first_name : string;
  project_name : string;
  document_file : string;
  submission_id : option string;
  created_at : option string;
}.

Record ProcessingResult := {
  project_folder_id : string;
  underwrite_doc_id : string;
  kiq_doc_id : string;
  duplicate_detected : bool;
}.

(** The configuration dictionary the pipeline reads, with the value types of
    [create_sample_config]. *)
Record Config := {
  anthropic_api_key : string;
  google_credentials_path : string;
  base_folder_id : string;
  from_email : string;
  internal_notification_emails : list string;
  company_name : string;
  signature_name : string;
  signature_title : string;
  phone_number : string;
  support_url : string;
}.

(** A raised exception: its class and [str(e)]. *)
Record Exn := { exn_type : string; exn_text : string }.

Inductive Level := INFO | WARNING | ERROR.

Record LogRecord := { level : Level; message : string }.

Record Mail := {
  mail_to : string;
  mail_from : string;
  mail_subject : string;
  mail_body : string;
}.

Inductive MimeType := Folder | UploadedFile (convert : bool) | Document.

Record DriveFile := {
  file_id : string;
  file_name : string;
  file_parents : list string;
  file_mime : MimeType;
  file_text : string;
}.

(** ** The collaborators *)

(** What the program asks of a collaborator, one constructor per call in the
    source. A request is recorded when it is attempted, also when it
    raises. *)
Inductive Request :=
  | DriveList (term parent : string)
  | DriveCreateFolder (name parent : string)
  | FileOpen (path : string)
  | DriveCreateFile (name parent : string) (convert : bool)
  | DriveGet (id : string)
  | HttpGet (url : string)
  | DriveUpdate (id add_parents remove_parents : string)
  | DocsCreate (title : string)
  | DocsBatchUpdate (id text : string)
  | GmailSend (m : Mail)
  | AnthropicPost (api_key prompt : string).

(** How the collaborators answer. Requests are numbered in the order the
    program makes them; [n] is the number of the request being answered.
    A [*_raises n = Some e] stands for anything that makes the call raise
    inside the method's [try]: transport error, error status, or an answer
    without the field the code reads. *)
Record Env := {
  (** Drive's [name contains 'term'] on a file name; how Drive matches is
      not in the source *)
  name_contains : string -> string -> bool;
  drive_raises : nat -> option Exn;
  docs_raises : nat -> option Exn;
  gmail_raises : nat -> option Exn;
  open_raises : nat -> option Exn;
  (** the ['id'] / ['documentId'] of the answer to a creating request *)
  new_id : nat -> string;
  (** [exportLinks.get('text/plain')] of the metadata answer *)
  export_link : nat -> option string;
  (** [requests.get(link)] with [raise_for_status], then [response.text] *)
  http_get : nat -> string -> Exn + string;
  (** [requests.post], [raise_for_status], [json()['content'][0]['text']],
      a string when it is there *)
  anthropic_post : nat -> string -> Exn + string;
}.

Record World := {
  drive : list DriveFile;
  outbox : list Mail;
  log : list LogRecord;
  trace : list Request;
}.

Definition with_drive (d : list DriveFile) (w : World) : World :=
  {| drive := d; outbox := outbox w; log := log w; trace := trace w |}.
Definition with_outbox (o : list Mail) (w : World) : World :=
  {| drive := drive w; outbox := o; log := log w; trace := trace w |}.
Definition with_log (l : list LogRecord) (w : World) : World :=
  {| drive := drive w; outbox := outbox w; log := l; trace := trace w |}.
Definition with_trace (t : list Request) (w : World) : World :=
  {| drive := drive w; outbox := outbox w; log := log w; trace := t |}.

(** ** State and exceptions *)

(** A computation either returns or raises; what it did to the world stays
    done in both cases. *)
Definition M (A : Type) : Type := World -> (Exn + A) * World.

#[global] Instance M_ret : MRet M := λ A a w, (inr a, w).

#[global] Instance M_bind : MBind M := λ A B f m w,
  match m w with
  | (inl e, w') => (inl e, w')
  | (inr a, w') => f a w'
  end.

Definition raise {A} (e : Exn) : M A := λ w, (inl e, w).

(** [try: body except Exception as e: handler e]. *)
Definition try_except {A} (body : M A) (handler : Exn -> M A) : M A := λ w,
  match body w with
  | (inl e, w') => handler e w'
  | (inr a, w') => (inr a, w')
  end.

Definition logger (lv : Level) (msg : string) : M unit := λ w,
  (inr (), with_log (log w ++ [{| level := lv; message := msg |}]) w).

(** Record request [r], numbered [n], and let [answer n] decide the
    outcome. *)
Definition call {A} (r : Request) (answer : nat -> World -> (Exn + A) * World)
  : M A := λ w,
  answer (length (trace w)) (with_trace (trace w ++ [r]) w).

Definition answer_unit (raises : nat -> option Exn) (n : nat) : M unit :=
  match raises n with
  | Some e => raise e
  | None => mret ()
  end.

Definition update_files (f : DriveFile -> DriveFile) (id : string) : M unit :=
  λ w, (inr (),
        with_drive (map (λ x, if String.eqb (file_id x) id then f x else x)
                        (drive w)) w).

Section Collaborators.
Variable env : Env.

(** [drive_service.files().list(q=...)]: the files of [parent] whose name
    matches [term]. *)
Definition drive_files_list (term parent : string) : M (list DriveFile) :=
  call (DriveList term parent) (λ n w,
    match drive_raises env n with
    | Some e => (inl e, w)
    | None =>
        (inr (filter (λ f, Is_true (name_contains env (file_name f) term)
                            ∧ parent ∈ file_parents f) (drive w)), w)
    end).

(** [drive_service.files().create(body=...)], answering the new id. *)
Definition drive_files_create (r : Request) (name parent : string)
    (mime : MimeType) : M string :=
  call r (λ n w,
    match drive_raises env n with
    | Some e => (inl e, w)
    | None =>
        (inr (new_id env n),
         with_drive (drive w ++ [{| file_id := new_id env n; file_name := name;
                                    file_parents := [parent]; file_mime := mime;
                                    file_text := "" |}]) w)
    end).

Definition file_open (path : string) : M unit :=
  call (FileOpen path) (answer_unit (open_raises env)).

(** [drive_service.files().get(fileId=..., fields="exportLinks,mimeType")],
    answering the plain-text export link. *)
Definition drive_files_get (id : string) : M (option string) :=
  call (DriveGet id) (λ n w,
    match drive_raises env n with
    | Some e => (inl e, w)
    | None => (inr (export_link env n), w)
    end).

Definition requests_get (url : string) : M string :=
  call (HttpGet url) (λ n w, (http_get env n url, w)).

(** [drive_service.files().update(fileId, addParents, removeParents)]. *)
Definition drive_files_update (id add_parents remove_parents : string)
  : M unit :=
  call (DriveUpdate id add_parents remove_parents) (λ n,
    answer_unit (drive_raises env) n;;
    update_files (λ f,
      {| file_id := file_id f; file_name := file_name f;
         file_parents :=
           filter (λ p, p ≠ remove_parents) (file_parents f) ++ [add_parents];
         file_mime := file_mime f; file_text := file_text f |}) id).

(** [docs_service.documents().create(body={'title': title})]: the new
    document sits in the root folder. *)
Definition docs_documents_create (title : string) : M string :=
  call (DocsCreate title) (λ n w,
    match docs_raises env n with
    | Some e => (inl e, w)
    | None =>
        (inr (new_id env n),
         with_drive (drive w ++ [{| file_id := new_id env n; file_name := title;
                                    file_parents := ["root"];
                                    file_mime := Document;
                                    file_text := "" |}]) w)
    end).

(** [documents().batchUpdate] with one [insertText] at index 1, the start of
    the body. *)
Definition docs_documents_batchUpdate (id text : string) : M unit :=
  call (DocsBatchUpdate id text) (λ n,
    answer_unit (docs_raises env) n;;
    update_files (λ f,
      {| file_id := file_id f; file_name := file_name f;
         file_parents := file_parents f; file_mime := file_mime f;
         file_text := text +:+ file_text f |}) id).

(** Encoding the message ([_create_message_raw]) and
    [gmail_service.users().messages().send]. *)
Definition gmail_send (m : Mail) : M unit :=
  call (GmailSend m) (λ n w,
    match gmail_raises env n with
    | Some e => (inl e, w)
    | None => (inr (), with_outbox (outbox w ++ [m]) w)
    end).

Definition requests_post (api_key prompt : string) : M string :=
  call (AnthropicPost api_key prompt) (λ n w, (anthropic_post env n prompt, w)).

End Collaborators.

(** ** [AnthropicAPI] *)

Record AnthropicAPI := { api_key : string; base_url : string }.

Definition AnthropicAPI_init (api_key : string) : AnthropicAPI :=
  {| api_key := api_key; base_url := "https://api.anthropic.com/v1/messages" |}.

Module Prompt.

Definition underwrite (document_text : string) : string :=
  "As an industry expert conducting initial pre-due diligence screening, provide only a direct structured analysis without any introductory sentences for the following investment opportunity. Begin immediately with the analysis sections using the information from these quotations and your comprehensive market knowledge:

" +:+ document_text +:+ "

1. LACK OF DURABLE COMPETITIVE ADVANTAGES

Technological Differentiation
- [Point 1]
- [Point 2]
- [Point 3]

Market Position
- [Point 1]
- [Point 2]
- [Point 3]

Economic Moat Factors
- [Point 1]
- [Point 2]
- [Point 3]

Revenue Security
- [Point 1]
- [Point 2]
- [Point 3]

Regulatory & Environmental
- [Point 1]
- [Point 2]
- [Point 3]

2. INVESTOR RED FLAGS

Investment Structure
- [Point 1]
- [Point 2]
- [Point 3]

Management & Execution
- [Point 1]
- [Point 2]
- [Point 3]

Financial Considerations
- [Point 1]
- [Point 2]
- [Point 3]

Market & Competition
- [Point 1]
- [Point 2]
- [Point 3]

Due Diligence Priorities
- [Point 1]
- [Point 2]
- [Point 3]

CONCLUSION

Provide a 2-3 sentence conclusion highlighting primary competitive vulnerabilities, most critical investor concerns, and recommendation on proceeding with full due diligence. Format as a single paragraph without bullet points.

Formatting Rules:
- Use consistent hyphen (-) for all bullet points
- Leave one blank line between major sections
- No asterisks or other bullet point styles
- No indentation for bullet points
- Capitalize all major section headers
- Use one blank line between subsections
- Format conclusion as a single paragraph without bullets".

Definition kiq (underwrite_text : string) : string :=
  "Based on the following pre-due diligence analysis findings:

" +:+ underwrite_text +:+ "

Generate exactly 15 due diligence questions, including the two mandatory questions below. Each question should be followed by an 'A:' line for responses. Begin with these mandatory questions:

1. What are they offering as compensation for the contribution of our efforts, networks and capital introduction sources?
A:

2. Does the company have any open litigation, or threats of litigation for any unresolved open matters as disputes with counter parts on agreements?
A:

Generate the remaining 13 questions following this distribution:

WEAKNESSES INVESTIGATION (3 questions)
- Questions targeting competitive disadvantages identified in the analysis
- Queries about gaps in market positioning
- Questions about operational vulnerabilities

COMPETITIVE ADVANTAGE VERIFICATION (3 questions)
- Questions challenging claimed market differentiators
- Queries about sustainability of advantages
- Questions about defensive moat strength

FINANCIAL SCRUTINY (3 questions)
- Questions about projection assumptions
- Queries about capital structure decisions
- Questions about revenue model sustainability

RISK MITIGATION (2 questions)
- Questions about identified risk factors
- Questions about risk management strategies

DUE DILIGENCE GAPS (2 questions)
- Questions about missing critical information
- Questions about verification needs

Format all 15 questions as a single numbered list (1-15), each followed by 'A:' on a new line. Begin immediately with questions without any introduction or context statements.".

End Prompt.

Section AnthropicAPI.
Variable env : Env.

Definition generate_underwrite_analysis (self : AnthropicAPI)
    (document_text : string) : M string :=
  let prompt := Prompt.underwrite document_text in
  try_except
    (requests_post env (api_key self) prompt)
    (λ e,
      logger ERROR ("Underwrite analysis failed: " +:+ exn_text e);;
      mret "Analysis generation failed - please review manually.").

Definition generate_kiq_questions (self : AnthropicAPI)
    (underwrite_text : string) : M string :=
  let prompt := Prompt.kiq underwrite_text in
  try_except
    (requests_post env (api_key self) prompt)
    (λ e,
      logger ERROR ("KIQ generation failed: " +:+ exn_text e);;
      mret "Question generation failed - please create manually.").

End AnthropicAPI.

(** ** [os.path] *)

Module Path.

(** [os.path.basename]: what follows the last slash. *)
Fixpoint basename_go (p cur : string) : string :=
  match p with
  | EmptyString => cur
  | String c rest =>
      if Ascii.eqb c "/"%char then basename_go rest ""
      else basename_go rest (cur +:+ String c "")
  end.

Definition basename (p : string) : string := basename_go p "".

(** The extension of file name [b]: from its last dot on, provided a
    character other than a dot comes before that dot. [seen] tells that such
    a character was read already. *)
Fixpoint ext_go (b : string) (seen : bool) : option string :=
  match b with
  | EmptyString => None
  | String c rest =>
      let dot := Ascii.eqb c "."%char in
      match ext_go rest (seen || negb dot) with
      | Some ext => Some ext
      | None => if dot && seen then Some b else None
      end
  end.

(** The second component of [os.path.splitext]. *)
Definition splitext_ext (p : string) : string :=
  default "" (ext_go (basename p) false).

Definition lower_ascii (c : ascii) : ascii :=
  let n := nat_of_ascii c in
  if ((65 <=? n) && (n <=? 90))%nat then ascii_of_nat (n + 32) else c.

Fixpoint lower (s : string) : string :=
  match s with
  | EmptyString => ""
  | String c rest => String (lower_ascii c) (lower rest)
  end.

End Path.

(** ** [GoogleWorkspaceManager] *)

Record GoogleWorkspaceManager := {
  gw_base_folder_id : string;
  config : Config;
}.

Definition project_folder_name (submission : DealSubmission) : string :=
  email submission +:+ " - " +:+ project_name submission.

Module Body.

Definition client (self : GoogleWorkspaceManager) (submission : DealSubmission)
    (underwrite_link kiq_link : string) : string :=
  "Hi " +:+ first_name submission +:+ ",

Thank you for your submission. I'd like to provide you with two important documents which were built by our Project Optimization Modules for your review and consideration:

The first attachment is our " +:+ Text.dq +:+ company_name (config self) +:+ " Underwrite" +:+ Text.dq +:+ " document, which presents a hyper-critical analysis of your submitted project. We've specifically designed this analysis to mirror the scrutinizing perspective that potential investors would likely take when evaluating your deal. This thorough examination should provide valuable insights into how your project might be perceived by investment stakeholders.

Additionally, you'll find the " +:+ Text.dq +:+ "KIQ_1" +:+ Text.dq +:+ " document which contains essential questions for your team to address regarding the deal. 

Once you've completed the KIQ (Key Investor Questions) worksheet, if you're interested in learning more about our services and potentially engaging with our full suite of Project Optimization Modules, we would be happy to schedule a call to discuss next steps.

" +:+ company_name (config self) +:+ " Underwrite Analysis: " +:+ underwrite_link +:+ "

Key Investor Questions (KIQ_1): " +:+ kiq_link +:+ "

Best regards,

" +:+ signature_name (config self) +:+ " | " +:+ signature_title (config self) +:+ " | " +:+ company_name (config self) +:+ "
" +:+ phone_number (config self).

Definition internal (submission : DealSubmission)
    (project_link underwrite_link kiq_link : string) : string :=
  "New Deal Submission from: " +:+ email submission +:+ "

Project Name: " +:+ project_name submission +:+ "

Underwriting Report: " +:+ underwrite_link +:+ "

KIQ's: " +:+ kiq_link +:+ "

Project Folder: " +:+ project_link.

Definition duplicate (self : GoogleWorkspaceManager)
    (submission : DealSubmission) : string :=
  "Dear " +:+ first_name submission +:+ ",

We've detected that you've already submitted a project with this name. To maintain accurate records in our system, please submit each project only once.

If you believe this is an error or need to submit an updated version, please contact our support team at " +:+ support_url (config self) +:+ ".

Best regards,

" +:+ company_name (config self).

End Body.

(** The characters removed first by [extract_document_text]: newline,
    carriage return, tab, backslash and double quote. *)
Definition extract_noise (c : ascii) : bool :=
  let n := nat_of_ascii c in
  ((n =? 10) || (n =? 13) || (n =? 9) || (n =? 92) || (n =? 34))%nat.

Section GoogleWorkspaceManager.
Variable env : Env.

Definition check_duplicate_project (self : GoogleWorkspaceManager)
    (email project_name : string) : M bool :=
  try_except
    (let clean_name := _clean_text_for_search project_name in
     let search_term := email +:+ "," +:+ clean_name in
     files ← drive_files_list env search_term (gw_base_folder_id self);
     mret (0 <? length files)%nat)
    (λ e,
      logger ERROR ("Duplicate check failed: " +:+ exn_text e);;
      mret false).

Definition create_project_structure (self : GoogleWorkspaceManager)
    (submission : DealSubmission) : M (string * string * string) :=
  try_except
    (let name := project_folder_name submission in
     project_folder_id ←
       drive_files_create env
         (DriveCreateFolder name (gw_base_folder_id self))
         name (gw_base_folder_id self) Folder;
     preunderwrite_folder_id ←
       drive_files_create env
         (DriveCreateFolder "PRE-UNDERWRITE" project_folder_id)
         "PRE-UNDERWRITE" project_folder_id Folder;
     kiq_folder_id ←
       drive_files_create env
         (DriveCreateFolder "KIQ SUBMISSIONS" project_folder_id)
         "KIQ SUBMISSIONS" project_folder_id Folder;
     logger INFO
       ("Created project structure for " +:+ project_name submission);;
     mret (project_folder_id, preunderwrite_folder_id, kiq_folder_id))
    (λ e,
      logger ERROR ("Failed to create project structure: " +:+ exn_text e);;
      raise e).

Definition upload_document (self : GoogleWorkspaceManager)
    (file_path folder_id : string) (filename : option string) : M string :=
  try_except
    (let filename :=
       match filename with
       | Some f => if Text.nonempty f then f else Path.basename file_path
       | None => Path.basename file_path
       end in
     let ext := Path.splitext_ext filename in
     let convert :=
       bool_decide (Path.lower ext ∈ [".docx"; ".doc"]) in
     file_open env file_path;;
     drive_files_create env (DriveCreateFile filename folder_id convert)
       filename folder_id (UploadedFile convert))
    (λ e,
      logger ERROR ("Failed to upload document: " +:+ exn_text e);;
      raise e).

Definition create_document (self : GoogleWorkspaceManager)
    (title content folder_id : string) : M string :=
  try_except
    (doc_id ← docs_documents_create env title;
     docs_documents_batchUpdate env doc_id content;;
     drive_files_update env doc_id folder_id "root";;
     mret doc_id)
    (λ e,
      logger ERROR ("Failed to create document: " +:+ exn_text e);;
      raise e).

Definition extract_document_text (self : GoogleWorkspaceManager)
    (file_id : string) : M string :=
  try_except
    (text_link ← drive_files_get env file_id;
     match text_link with
     | Some (String c l) =>
         text ← requests_get env (String c l);
         let cleaned_text := Text.re_sub extract_noise " " text in
         let cleaned_text := Text.strip (Text.re_sub Text.is_space " " cleaned_text) in
         mret cleaned_text
     | _ =>
         logger WARNING "Could not extract text from document";;
         mret "Document text extraction failed"
     end)
    (λ e,
      logger ERROR ("Text extraction failed: " +:+ exn_text e);;
      mret "Text extraction error").

Definition send_client_email (self : GoogleWorkspaceManager)
    (submission : DealSubmission) (underwrite_link kiq_link : string)
  : M unit :=
  try_except
    (let subject := "Your " +:+ company_name (config self) +:+ " Deal Submission" in
     let body := Body.client self submission underwrite_link kiq_link in
     gmail_send env {| mail_to := email submission;
                       mail_from := from_email (config self);
                       mail_subject := subject; mail_body := body |};;
     logger INFO ("Sent client email to " +:+ email submission))
    (λ e, logger ERROR ("Failed to send client email: " +:+ exn_text e)).

(** The [for email in internal_emails] loop. *)
Fixpoint send_each (from subject body : string) (internal_emails : list string)
  : M unit :=
  match internal_emails with
  | [] => mret ()
  | email :: rest =>
      gmail_send env {| mail_to := email; mail_from := from;
                        mail_subject := subject; mail_body := body |};;
      send_each from subject body rest
  end.

Definition send_internal_notification (self : GoogleWorkspaceManager)
    (submission : DealSubmission)
    (project_link underwrite_link kiq_link : string) : M unit :=
  try_except
    (let subject := "NEW DEAL SUBMITTED" in
     let body := Body.internal submission project_link underwrite_link kiq_link in
     let internal_emails := internal_notification_emails (config self) in
     send_each (from_email (config self)) subject body internal_emails;;
     logger INFO "Sent internal notifications")
    (λ e, logger ERROR ("Failed to send internal notification: " +:+ exn_text e)).

Definition send_duplicate_notification (self : GoogleWorkspaceManager)
    (submission : DealSubmission) : M unit :=
  try_except
    (let subject :=
       "Duplicate Project Submission Detected - " +:+ company_name (config self) in
     let body := Body.duplicate self submission in
     gmail_send env {| mail_to := email submission;
                       mail_from := from_email (config self);
                       mail_subject := subject; mail_body := body |};;
     logger INFO ("Sent duplicate notification to " +:+ email submission))
    (λ e, logger ERROR ("Failed to send duplicate notification: " +:+ exn_text e)).

End GoogleWorkspaceManager.

(** ** [DealProcessor] *)

(** A value read from the JSON configuration file, or produced by
    [os.getenv] ([JStr]) or by a missing key ([JNull], Python's [None]).
    Numbers are the integers. *)
Inductive JVal :=
  | JNull
  | JBool (b : bool)
  | JNum (n : Z)
  | JStr (s : string)
  | JArr (items : list JVal)
  | JObj (members : list (string * JVal)).

(** Python truth value: what [not v] negates. *)
Definition truthy (v : JVal) : bool :=
  match v with
  | JNull => false
  | JBool b => b
  | JNum n => negb (n =? 0)%Z
  | JStr s => Text.nonempty s
  | JArr items => match items with [] => false | _ => true end
  | JObj members => match members with [] => false | _ => true end
  end.

(** The configuration file at [config_path]: absent, present but such that
    reading it raises (unreadable, not JSON, or not a JSON object), or
    holding an object. *)
Inductive ConfigFile :=
  | NoFile
  | BadFile (e : Exn)
  | JsonObject (members : gmap string JVal).

(** [dict.get(key, default)]. *)
Definition dict_get (d : gmap string JVal) (key : string) (default : JVal)
  : JVal :=
  match d !! key with
  | Some v => v
  | None => default
  end.

(** [os.getenv(name, default)]. *)
Definition getenv (environ : gmap string string) (name : string)
    (default : JVal) : JVal :=
  match environ !! name with
  | Some v => JStr v
  | None => default
  end.

Definition required_fields : list string :=
  ["anthropic_api_key"; "base_folder_id"; "from_email"].

(** [str(keys)] for a list of the key names above. *)
Definition repr_keys (keys : list string) : string :=
  "[" +:+ Text.join ", " (map (λ k, "'" +:+ k +:+ "'") keys) +:+ "]".

Definition final_config_of (config : gmap string JVal)
    (environ : gmap string string) : gmap string JVal :=
  list_to_map [
    ("anthropic_api_key",
      getenv environ "ANTHROPIC_API_KEY" (dict_get config "anthropic_api_key" JNull));
    ("google_credentials_path",
      getenv environ "GOOGLE_CREDENTIALS_PATH"
        (dict_get config "google_credentials_path" (JStr "credentials.json")));
    ("base_folder_id",
      getenv environ "BASE_FOLDER_ID" (dict_get config "base_folder_id" JNull));
    ("from_email",
      getenv environ "FROM_EMAIL" (dict_get config "from_email" JNull));
    ("internal_notification_emails",
      dict_get config "internal_notification_emails" (JArr []));
    ("company_name", dict_get config "company_name" (JStr "Your Company"));
    ("signature_name", dict_get config "signature_name" (JStr "Your Name"));
    ("signature_title", dict_get config "signature_title" (JStr "Your Title"));
    ("phone_number", dict_get config "phone_number" (JStr "Your Phone Number"));
    ("support_url",
      dict_get config "support_url" (JStr "https://your-website.com/contact"))
  ].

Definition _load_config (file : ConfigFile) (environ : gmap string string)
  : Exn + gmap string JVal :=
  match
    match file with
    | NoFile => inr ∅
    | BadFile e => inl e
    | JsonObject members => inr members
    end
  with
  | inl e => inl e
  | inr config =>
      let final_config := final_config_of config environ in
      let missing :=
        filter (λ key, Is_true (negb (truthy (dict_get final_config key JNull))))
               required_fields in
      match missing with
      | _ :: _ =>
          inl {| exn_type := "ValueError";
                 exn_text := "Missing required configuration: "
                             +:+ repr_keys missing |}
      | [] => inr final_config
      end
  end.

(** [main] once [--setup] is ruled out. [ready] stands for what the [try]
    block does with the loaded configuration: building the collaborators
    and, under [--test], running the test submission. *)
Definition main (file : ConfigFile) (environ : gmap string string)
    (ready : gmap string JVal -> M unit) : M unit :=
  try_except
    (match _load_config file environ with
     | inl e => raise e
     | inr final_config => ready final_config
     end)
    (λ e, logger ERROR ("Application error: " +:+ exn_text e)).

Record DealProcessor := {
  dp_config : Config;
  anthropic : AnthropicAPI;
  workspace : GoogleWorkspaceManager;
}.

Definition DealProcessor_of (final_config : Config) : DealProcessor :=
  {| dp_config := final_config;
     anthropic := AnthropicAPI_init (anthropic_api_key final_config);
     workspace := {| gw_base_folder_id := base_folder_id final_config;
                     config := final_config |} |}.

Section DealProcessor.
Variable env : Env.

Definition process_submission (self : DealProcessor)
    (submission : DealSubmission) (document_path : string)
  : M ProcessingResult :=
  try_except
    (logger INFO ("Processing submission for " +:+ project_name submission);;
     duplicate ← check_duplicate_project env (workspace self)
                   (email submission) (project_name submission);
     if duplicate : bool then
       logger INFO ("Duplicate detected for " +:+ project_name submission);;
       send_duplicate_notification env (workspace self) submission;;
       mret {| project_folder_id := ""; underwrite_doc_id := "";
               kiq_doc_id := ""; duplicate_detected := true |}
     else
       '(project_folder_id, preunderwrite_folder_id, kiq_folder_id) ←
         create_project_structure env (workspace self) submission;
       uploaded_doc_id ←
         upload_document env (workspace self) document_path
           preunderwrite_folder_id
           (Some (email submission +:+ " - " +:+ project_name submission
                  +:+ " - Original"));
       logger INFO "Extracting document text...";;
       document_text ←
         extract_document_text env (workspace self) uploaded_doc_id;
       logger INFO "Generating underwriting analysis...";;
       underwrite_analysis ←
         generate_underwrite_analysis env (anthropic self) document_text;
       let underwrite_title :=
         email submission +:+ " - " +:+ project_name submission +:+ " - "
         +:+ company_name (dp_config self) +:+ " Underwrite" in
       underwrite_doc_id ←
         create_document env (workspace self) underwrite_title
           underwrite_analysis preunderwrite_folder_id;
       logger INFO "Generating KIQ questions...";;
       kiq_questions ←
         generate_kiq_questions env (anthropic self) underwrite_analysis;
       let kiq_title :=
         email submission +:+ " - " +:+ project_name submission
         +:+ " - KIQ_1" in
       kiq_doc_id ←
         create_document env (workspace self) kiq_title kiq_questions
           kiq_folder_id;
       let project_link :=
         "https://drive.google.com/drive/folders/" +:+ project_folder_id in
       let underwrite_link :=
         "https://docs.google.com/document/d/" +:+ underwrite_doc_id in
       let kiq_link :=
         "https://docs.google.com/document/d/" +:+ kiq_doc_id in
       send_client_email env (workspace self) submission underwrite_link
         kiq_link;;
       send_internal_notification env (workspace self) submission
         project_link underwrite_link kiq_link;;
       logger INFO
         ("Successfully processed submission for "
          +:+ project_name submission);;
       mret {| project_folder_id := project_folder_id;
               underwrite_doc_id := underwrite_doc_id;
               kiq_doc_id := kiq_doc_id;
               duplicate_detected := false |})
    (λ e,
      logger ERROR ("Failed to process submission: " +:+ exn_text e);;
      raise e).

End DealProcessor.

(** * Vocabulary of the statements *)

(** The world after one more log record, and after one more request. *)
Definition logged (lv : Level) (msg : string) (w : World) : World :=
  with_log (log w ++ [{| level := lv; message := msg |}]) w.

Definition requested (r : Request) (w : World) : World :=
  with_trace (trace w ++ [r]) w.

Definition error_of {A} (res : Exn + A) : option Exn :=
  match res with inl e => Some e | inr _ => None end.

(** The text a generation stage hands on: the answer, or [fallback] when the
    call failed. *)
Definition generated_or (fallback : string) (answer : Exn + string) : string :=
  match answer with inr text => text | inl _ => fallback end.

Definition search_term (submission : DealSubmission) : string :=
  email submission +:+ "," +:+ _clean_text_for_search (project_name submission).

(** The files a duplicate check of [submission] finds in [w]. *)
Definition matching_files (env : Env) (ws : GoogleWorkspaceManager)
    (submission : DealSubmission) (w : World) : list DriveFile :=
  filter (λ f, Is_true (name_contains env (file_name f) (search_term submission))
               ∧ gw_base_folder_id ws ∈ file_parents f) (drive w).

(** A folder as [create_project_structure] makes it. *)
Definition folder (id name parent : string) : DriveFile :=
  {| file_id := id; file_name := name; file_parents := [parent];
     file_mime := Folder; file_text := "" |}.

Definition upload_name (submission : DealSubmission) : string :=
  email submission +:+ " - " +:+ project_name submission +:+ " - Original".

Definition upload_convert (submission : DealSubmission) : bool :=
  bool_decide (Path.lower (Path.splitext_ext (upload_name submission))
               ∈ [".docx"; ".doc"]).

Definition underwrite_title (self : DealProcessor) (submission : DealSubmission)
  : string :=
  email submission +:+ " - " +:+ project_name submission +:+ " - "
  +:+ company_name (dp_config self) +:+ " Underwrite".

Definition kiq_title (submission : DealSubmission) : string :=
  email submission +:+ " - " +:+ project_name submission +:+ " - KIQ_1".

Definition client_mail (ws : GoogleWorkspaceManager) (submission : DealSubmission)
    (underwrite_link kiq_link : string) : Mail :=
  {| mail_to := email submission; mail_from := from_email (config ws);
     mail_subject := "Your " +:+ company_name (config ws) +:+ " Deal Submission";
     mail_body := Body.client ws submission underwrite_link kiq_link |}.

Definition internal_mail (ws : GoogleWorkspaceManager)
    (submission : DealSubmission)
    (project_link underwrite_link kiq_link to : string) : Mail :=
  {| mail_to := to; mail_from := from_email (config ws);
     mail_subject := "NEW DEAL SUBMITTED";
     mail_body := Body.internal submission project_link underwrite_link kiq_link |}.

Definition duplicate_mail (ws : GoogleWorkspaceManager)
    (submission : DealSubmission) : Mail :=
  {| mail_to := email submission; mail_from := from_email (config ws);
     mail_subject :=
       "Duplicate Project Submission Detected - " +:+ company_name (config ws);
     mail_body := Body.duplicate ws submission |}.

Definition duplicate_result : ProcessingResult :=
  {| project_folder_id := ""; underwrite_doc_id := ""; kiq_doc_id := "";
     duplicate_detected := true |}.

(** The stages whose errors [process_submission] lets through. *)
Inductive Stage := StructureCreation | Upload | DocumentCreation.

Definition stage_of (r : Request) : option Stage :=
  match r with
  | DriveCreateFolder _ _ => Some StructureCreation
  | FileOpen _ | DriveCreateFile _ _ _ => Some Upload
  | DocsCreate _ | DocsBatchUpdate _ _ | DriveUpdate _ _ _ =>
      Some DocumentCreation
  | _ => None
  end.

(** What the method of a stage logs before it re-raises. *)
Definition stage_message (s : Stage) : string :=
  match s with
  | StructureCreation => "Failed to create project structure: "
  | Upload => "Failed to upload document: "
  | DocumentCreation => "Failed to create document: "
  end.

(** The error the collaborator answers request [r], numbered [n], with. *)
Definition raised (env : Env) (n : nat) (r : Request) : option Exn :=
  match r with
  | DriveList _ _ | DriveCreateFolder _ _ | DriveCreateFile _ _ _
  | DriveGet _ | DriveUpdate _ _ _ => drive_raises env n
  | FileOpen _ => open_raises env n
  | DocsCreate _ | DocsBatchUpdate _ _ => docs_raises env n
  | GmailSend _ => gmail_raises env n
  | HttpGet url => error_of (http_get env n url)
  | AnthropicPost _ prompt => error_of (anthropic_post env n prompt)
  end.

(** None of the requests [rs], numbered from [n0] on, belongs to a stage and
    was answered with an error. *)
Definition stages_succeed (env : Env) (n0 : nat) (rs : list Request) : Prop :=
  ∀ i r, rs !! i = Some r → is_Some (stage_of r) → raised env (n0 + i) r = None.

(** The same collaborators, with Gmail failing as [g] says. *)
Definition with_gmail (g : nat -> option Exn) (env : Env) : Env :=
  {| name_contains := name_contains env; drive_raises := drive_raises env;
     docs_raises := docs_raises env; gmail_raises := g;
     open_raises := open_raises env; new_id := new_id env;
     export_link := export_link env; http_get := http_get env;
     anthropic_post := anthropic_post env |}.

(** The outcomes of [process_submission], by the method results that lead
    to them. *)
Section Run.
Context (env : Env) (self : DealProcessor) (submission : DealSubmission)
        (document_path : string).

Definition started (w : World) : World :=
  logged INFO ("Processing submission for " +:+ project_name submission) w.

Definition failed (e : Exn) (w : World) : World :=
  logged ERROR ("Failed to process submission: " +:+ exn_text e) w.

Inductive Run (w : World) : Exn + ProcessingResult -> World -> Prop :=
  | Run_duplicate w1 w2 :
      check_duplicate_project env (workspace self) (email submission)
        (project_name submission) (started w) = (inr true, w1) ->
      send_duplicate_notification env (workspace self) submission
        (logged INFO ("Duplicate detected for " +:+ project_name submission) w1)
        = (inr (), w2) ->
      Run w (inr duplicate_result) w2
  | Run_structure_failed w1 e w2 :
      check_duplicate_project env (workspace self) (email submission)
        (project_name submission) (started w) = (inr false, w1) ->
      create_project_structure env (workspace self) submission w1 = (inl e, w2) ->
      Run w (inl e) (failed e w2)
  | Run_upload_failed w1 F P K w2 e w3 :
      check_duplicate_project env (workspace self) (email submission)
        (project_name submission) (started w) = (inr false, w1) ->
      create_project_structure env (workspace self) submission w1 = (inr (F, P, K), w2) ->
      upload_document env (workspace self) document_path P
        (Some (upload_name submission)) w2 = (inl e, w3) ->
      Run w (inl e) (failed e w3)
  | Run_underwrite_failed w1 F P K w2 up w3 text w4 analysis w5 e w6 :
      check_duplicate_project env (workspace self) (email submission)
        (project_name submission) (started w) = (inr false, w1) ->
      create_project_structure env (workspace self) submission w1 = (inr (F, P, K), w2) ->
      upload_document env (workspace self) document_path P
        (Some (upload_name submission)) w2 = (inr up, w3) ->
      extract_document_text env (workspace self) up
        (logged INFO "Extracting document text..." w3) = (inr text, w4) ->
      generate_underwrite_analysis env (anthropic self) text
        (logged INFO "Generating underwriting analysis..." w4)
        = (inr analysis, w5) ->
      create_document env (workspace self) (underwrite_title self submission) analysis P w5
        = (inl e, w6) ->
      Run w (inl e) (failed e w6)
  | Run_kiq_failed w1 F P K w2 up w3 text w4 analysis w5 U w6 questions w7 e w8 :
      check_duplicate_project env (workspace self) (email submission)
        (project_name submission) (started w) = (inr false, w1) ->
      create_project_structure env (workspace self) submission w1 = (inr (F, P, K), w2) ->
      upload_document env (workspace self) document_path P
        (Some (upload_name submission)) w2 = (inr up, w3) ->
      extract_document_text env (workspace self) up
        (logged INFO "Extracting document text..." w3) = (inr text, w4) ->
      generate_underwrite_analysis env (anthropic self) text
        (logged INFO "Generating underwriting analysis..." w4)
        = (inr analysis, w5) ->
      create_document env (workspace self) (underwrite_title self submission) analysis P w5
        = (inr U, w6) ->
      generate_kiq_questions env (anthropic self) analysis
        (logged INFO "Generating KIQ questions..." w6) = (inr questions, w7) ->
      create_document env (workspace self) (kiq_title submission) questions K w7
        = (inl e, w8) ->
      Run w (inl e) (failed e w8)
  | Run_done w1 F P K w2 up w3 text w4 analysis w5 U w6 questions w7 Q w8 w9 w10 :
      check_duplicate_project env (workspace self) (email submission)
        (project_name submission) (started w) = (inr false, w1) ->
      create_project_structure env (workspace self) submission w1 = (inr (F, P, K), w2) ->
      upload_document env (workspace self) document_path P
        (Some (upload_name submission)) w2 = (inr up, w3) ->
      extract_document_text env (workspace self) up
        (logged INFO "Extracting document text..." w3) = (inr text, w4) ->
      generate_underwrite_analysis env (anthropic self) text
        (logged INFO "Generating underwriting analysis..." w4)
        = (inr analysis, w5) ->
      create_document env (workspace self) (underwrite_title self submission) analysis P w5
        = (inr U, w6) ->
      generate_kiq_questions env (anthropic self) analysis
        (logged INFO "Generating KIQ questions..." w6) = (inr questions, w7) ->
      create_document env (workspace self) (kiq_title submission) questions K w7
        = (inr Q, w8) ->
      send_client_email env (workspace self) submission
        ("https://docs.google.com/document/d/" +:+ U)
        ("https://docs.google.com/document/d/" +:+ Q) w8 = (inr (), w9) ->
      send_internal_notification env (workspace self) submission
        ("https://drive.google.com/drive/folders/" +:+ F)
        ("https://docs.google.com/document/d/" +:+ U)
        ("https://docs.google.com/document/d/" +:+ Q) w9 = (inr (), w10) ->
      Run w
        (inr {| project_folder_id := F; underwrite_doc_id := U;
                kiq_doc_id := Q; duplicate_detected := false |})
        (logged INFO
           ("Successfully processed submission for "
            +:+ project_name submission) w10).

End Run.

(** A run from [w] to [w'] whose stage requests all succeeded ([None]), or
    that ended on a stage request answered with [e], logged by the stage's
    method. *)
Definition propagates (env : Env) (w : World) (err : option Exn) (w' : World)
  : Prop :=
  ∃ suffix, trace w' = trace w ++ suffix ∧
    match err with
    | None => stages_succeed env (length (trace w)) suffix
    | Some e =>
        ∃ pre r stage l,
          suffix = pre ++ [r]
          ∧ stages_succeed env (length (trace w)) pre
          ∧ stage_of r = Some stage
          ∧ raised env (length (trace w) + length pre) r = Some e
          ∧ log w' = l ++ [{| level := ERROR;
                              message := stage_message stage +:+ exn_text e |}]
    end.

(** ** Project names as words and separators *)

Fixpoint all_chars (p : ascii -> bool) (s : string) : bool :=
  match s with
  | EmptyString => true
  | String c rest => p c && all_chars p rest
  end.

(** A non-empty text without separator characters. *)
Definition is_word (w : string) : Prop :=
  w ≠ "" ∧ all_chars (λ c, negb (search_separator c)) w = true.

Definition is_separator_run (s : string) : Prop :=
  all_chars search_separator s = true.

(** A name written as words, each followed by a run of separators. *)
Fixpoint spell (parts : list (string * string)) : string :=
  match parts with
  | [] => ""
  | (word, sep) :: rest => word +:+ sep +:+ spell rest
  end.

(** Only the last word may go without a separator after it. *)
Fixpoint well_separated (parts : list (string * string)) : Prop :=
  match parts with
  | [] => True
  | (word, sep) :: rest =>
      is_word word ∧ is_separator_run sep ∧ (rest ≠ [] → sep ≠ "")
      ∧ well_separated rest
  end.

(** ** Required settings *)

(** The value of a required key once the environment variable, when set,
    has replaced the entry of the file. *)
Definition setting (config : gmap string JVal) (environ : gmap string string)
    (key var : string) : JVal :=
  match environ !! var with
  | Some v => JStr v
  | None => match config !! key with Some v => v | None => JNull end
  end.

(** The required keys, each with the environment variable that overrides
    it. *)
Definition required : list (string * string) :=
  [("anthropic_api_key", "ANTHROPIC_API_KEY");
   ("base_folder_id", "BASE_FOLDER_ID");
   ("from_email", "FROM_EMAIL")].

(** The required keys that are missing or empty. *)
Definition missing_keys (config : gmap string JVal)
    (environ : gmap string string) : list string :=
  (filter (λ kv, truthy (setting config environ kv.1 kv.2) = false) required).*1.

Definition file_config (file : ConfigFile) : gmap string JVal :=
  match file with
  | JsonObject members => members
  | _ => ∅
  end.

(** ** Question sheets *)

Definition is_digit (c : ascii) : bool :=
  let n := nat_of_ascii c in ((48 <=? n) && (n <=? 57))%nat.

Fixpoint drop_digits (s : string) : string :=
  match s with
  | String c rest => if is_digit c then drop_digits rest else s
  | EmptyString => ""
  end.

(** A line that opens with a number and a full stop. *)
Definition numbered_entry (line : string) : bool :=
  match line with
  | String c _ => is_digit c && Text.starts_with "." (drop_digits line)
  | EmptyString => false
  end.

Definition numbered_entries (body : string) : list string :=
  filter (λ line, Is_true (numbered_entry line)) (Text.lines body).

Definition mandatory_compensation : string :=
  "1. What are they offering as compensation for the contribution of our efforts, networks and capital introduction sources?".

Definition mandatory_litigation : string :=
  "2. Does the company have any open litigation, or threats of litigation for any unresolved open matters as disputes with counter parts on agreements?".

(** Exactly 15 numbered entries, the first two being the mandatory
    questions verbatim. *)
Definition fifteen_entries (body : string) : Prop :=
  length (numbered_entries body) = 15
  ∧ take 2 (numbered_entries body) = [mandatory_compensation; mandatory_litigation].

(** The prompts of the generation requests among [rs], in order. *)
Definition generation_prompts (rs : list Request) : list string :=
  omap (λ r, match r with AnthropicPost _ prompt => Some prompt | _ => None end) rs.

(** The requests of a run from [w] to [w']. *)
Definition requests_since (w w' : World) : list Request :=
  drop (length (trace w)) (trace w').

(** ** Sample data *)

Module Sample.

(** Modelled from the spec: Drive's matching of [name contains] is not part
    of the source; the spec gives the store's query as
    [findByNameContaining(parent, substring)], so a name matches a term that
    occurs in it. *)
Definition substring_match (name term : string) : bool :=
  Text.contains name term.

Definition boom : Exn :=
  {| exn_type := "HttpError"; exn_text := "503 Service Unavailable" |}.

(** A store that looks for words instead: a name matches a term when every
    word of the term is a word of the name. *)
Definition word_match (name term : string) : bool :=
  let words text :=
    filter (λ word, Is_true (Text.nonempty word))
           (Text.re_split search_separator text) in
  forallb (λ word, bool_decide (word ∈ words name)) (words term).

(** Ids as the store hands them out; the three of a first run read [F1],
    [U1] and [K1]. *)
Definition ids (n : nat) : string :=
  match n with
  | 1 => "F1"
  | 9 => "U1"
  | 13 => "K1"
  | _ => "id" +:+ pretty n
  end.

(** Every collaborator answers. *)
Definition env : Env :=
  {| name_contains := substring_match;
     drive_raises := λ _, None; docs_raises := λ _, None;
     gmail_raises := λ _, None; open_raises := λ _, None;
     new_id := ids;
     export_link := λ _, Some "https://export.example/txt";
     http_get := λ _ _, inr ("Seed  round," +:+ Text.nl +:+ " 2M ask ");
     anthropic_post := λ n _, inr ("generated " +:+ pretty n) |}.

Definition with_anthropic (answer : nat -> string -> Exn + string) (e : Env)
  : Env :=
  {| name_contains := name_contains e; drive_raises := drive_raises e;
     docs_raises := docs_raises e; gmail_raises := gmail_raises e;
     open_raises := open_raises e; new_id := new_id e;
     export_link := export_link e; http_get := http_get e;
     anthropic_post := answer |}.

Definition with_drive_raises (raises : nat -> option Exn) (e : Env) : Env :=
  {| name_contains := name_contains e; drive_raises := raises;
     docs_raises := docs_raises e; gmail_raises := gmail_raises e;
     open_raises := open_raises e; new_id := new_id e;
     export_link := export_link e; http_get := http_get e;
     anthropic_post := anthropic_post e |}.

Definition with_name_contains (matches : string -> string -> bool) (e : Env)
  : Env :=
  {| name_contains := matches; drive_raises := drive_raises e;
     docs_raises := docs_raises e; gmail_raises := gmail_raises e;
     open_raises := open_raises e; new_id := new_id e;
     export_link := export_link e; http_get := http_get e;
     anthropic_post := anthropic_post e |}.

(** The same collaborators over a store that matches by words. *)
Definition env_words : Env := with_name_contains word_match env.

(** The generation service is down. *)
Definition env_no_generation : Env := with_anthropic (λ _ _, inl boom) env.

(** Only the underwriting analysis fails. *)
Definition env_no_analysis : Env :=
  with_anthropic
    (λ n prompt, if Text.starts_with "As an industry expert" prompt
                 then inl boom else inr ("generated " +:+ pretty n)) env.

(** A question sheet as the prompt asks for it: fifteen numbered questions,
    each followed by an answer line. *)
Definition sheet : string :=
  Text.join Text.nl
    (concat
       (map (λ question, [question; "A:"; ""])
            ([mandatory_compensation; mandatory_litigation]
             ++ map (λ n, pretty n +:+ ". What supports assumption " +:+ pretty n
                          +:+ "?")
                    (seq 3 13)))).

(** The generation service answers the KIQ request with the sheet. *)
Definition env_sheet : Env :=
  with_anthropic
    (λ n prompt, if Text.starts_with "Based on" prompt
                 then inr sheet else inr ("generated " +:+ pretty n)) env.

(** The generation service answers, but not with a question sheet. *)
Definition env_terse : Env := with_anthropic (λ _ _, inr "No questions.") env.

(** Drive fails at request [n]. *)
Definition env_drive_fails_at (n : nat) : Env :=
  with_drive_raises (λ m, if (m =? n)%nat then Some boom else None) env.

Definition config : Config :=
  {| anthropic_api_key := "sk-test";
     google_credentials_path := "credentials.json";
     base_folder_id := "ROOT"; from_email := "deals@acme.example";
     internal_notification_emails := ["team@acme.example"; "manager@acme.example"];
     company_name := "ACME"; signature_name := "Sam"; signature_title := "Partner";
     phone_number := "555-0100"; support_url := "https://acme.example/contact" |}.

Definition processor : DealProcessor := DealProcessor_of config.

Definition submission : DealSubmission :=
  {| email := "a@b.com"; first_name := "Ann"; project_name := "Foo Bar";
     document_file := "deck.pdf"; submission_id := None; created_at := None |}.

Definition empty : World :=
  {| drive := []; outbox := []; log := []; trace := [] |}.

(** A store that already holds a folder the duplicate check matches. *)
Definition seen : World :=
  {| drive := [{| file_id := "old"; file_name := "a@b.com,Foo,Bar";
                  file_parents := ["ROOT"]; file_mime := Folder;
                  file_text := "" |}];
     outbox := []; log := []; trace := [] |}.

Definition run (e : Env) (w : World) : (Exn + ProcessingResult) * World :=
  process_submission e processor submission "/tmp/deck.pdf" w.

End Sample.

(** ** The claims the code does not meet, as stated *)

(** The raised error tells the stage that failed: the stage of the request a
    failed run ended on can be read off the error. *)
Definition error_names_stage : Prop :=
  ∃ stage_named : Exn -> Stage,
    ∀ env self submission document_path w e w' pre r,
      process_submission env self submission document_path w = (inl e, w') ->
      trace w' = pre ++ [r] ->
      stage_of r = Some (stage_named e).

(** Whatever the generation service answers, the body written to the KIQ
    document has the fifteen entries, or is the failure placeholder. *)
Definition kiq_body_well_formed (env : Env) (self : DealProcessor)
    (submission : DealSubmission) (document_path : string) (w : World) : Prop :=
  ∀ r w' body,
    process_submission env self submission document_path w = (inr r, w') ->
    DocsBatchUpdate (kiq_doc_id r) body ∈ requests_since w w' ->
    fifteen_entries body
    ∨ body = "Question generation failed - please create manually.".


(** * More of the program *)

(** ** [DealProcessor.process_jotform_webhook] *)

Module JotForm.



End JotForm.





(** ** [create_sample_config] *)

(** The dictionary [create_sample_config] dumps to [config.json]. *)
Definition sample_config : gmap string JVal :=
  list_to_map [
    ("anthropic_api_key", JStr "your_anthropic_key");
    ("google_credentials_path", JStr "credentials.json");
    ("base_folder_id", JStr "your_drive_folder_id");
    ("from_email", JStr "your-email@company.com");
    ("internal_notification_emails",
      JArr [JStr "team@company.com"; JStr "manager@company.com"]);
    ("company_name", JStr "Your Company Name");
    ("signature_name", JStr "Your Name");
    ("signature_title", JStr "Your Title");
    ("phone_number", JStr "Your Phone Number");
    ("support_url", JStr "https://your-website.com/contact")
  ].

(** * More vocabulary *)

(** ** Extracted text *)

(** [extract_document_text] on the text of the export, once downloaded. *)
Definition cleaned (text : string) : string :=
  Text.strip (Text.re_sub Text.is_space " " (Text.re_sub extract_noise " " text)).

Definition first_is_space (s : string) : bool :=
  match s with String c _ => Text.is_space c | EmptyString => false end.

Fixpoint last_is_space (s : string) : bool :=
  match s with
  | EmptyString => false
  | String c EmptyString => Text.is_space c
  | String _ rest => last_is_space rest
  end.

(** No two whitespace characters in a row. *)
Fixpoint no_space_run (s : string) : bool :=
  match s with
  | EmptyString => true
  | String c rest =>
      negb (Text.is_space c && first_is_space rest) && no_space_run rest
  end.

(** Neither newline, carriage return, tab, backslash or double quote, nor
    any whitespace but the space. *)
Definition plain (c : ascii) : bool :=
  negb (extract_noise c) && (negb (Text.is_space c) || Ascii.eqb c " ").

(** Plain characters, words one space apart, no space at either end. *)
Definition tidy (s : string) : bool :=
  all_chars plain s && no_space_run s
  && negb (first_is_space s) && negb (last_is_space s).

(** ** Documents *)

(** A document as [create_document] leaves it. *)
Definition document (id title : string) (parents : list string) (text : string)
  : DriveFile :=
  {| file_id := id; file_name := title; file_parents := parents;
     file_mime := Document; file_text := text |}.

(** ** Collaborators that fail *)

Module Faults.

Definition with_docs_raises (raises : nat -> option Exn) (e : Env) : Env :=
  {| name_contains := name_contains e; drive_raises := drive_raises e;
     docs_raises := raises; gmail_raises := gmail_raises e;
     open_raises := open_raises e; new_id := new_id e;
     export_link := export_link e; http_get := http_get e;
     anthropic_post := anthropic_post e |}.

Definition with_open_raises (raises : nat -> option Exn) (e : Env) : Env :=
  {| name_contains := name_contains e; drive_raises := drive_raises e;
     docs_raises := docs_raises e; gmail_raises := gmail_raises e;
     open_raises := raises; new_id := new_id e;
     export_link := export_link e; http_get := http_get e;
     anthropic_post := anthropic_post e |}.

Definition only_at (n : nat) : nat -> option Exn :=
  λ m, if (m =? n)%nat then Some Sample.boom else None.

(** Docs fails at request [n]. *)
Definition env_docs_fail_at (n : nat) : Env :=
  with_docs_raises (only_at n) Sample.env.

(** Gmail fails at request [n]. *)
Definition env_gmail_fails_at (n : nat) : Env :=
  with_gmail (only_at n) Sample.env.

(** The file cannot be opened at request [n]. *)
Definition env_open_fails_at (n : nat) : Env :=
  with_open_raises (only_at n) Sample.env.

(** Drive answers the query of the export links without a plain-text
    link. *)
Definition env_no_export : Env :=
  {| name_contains := name_contains Sample.env;
     drive_raises := drive_raises Sample.env;
     docs_raises := docs_raises Sample.env;
     gmail_raises := gmail_raises Sample.env;
     open_raises := open_raises Sample.env; new_id := new_id Sample.env;
     export_link := λ _, None; http_get := http_get Sample.env;
     anthropic_post := anthropic_post Sample.env |}.

(** A store that numbers its files, and does not offer a text export. *)
Definition env_numbered : Env :=
  {| name_contains := name_contains Sample.env;
     drive_raises := drive_raises Sample.env;
     docs_raises := docs_raises Sample.env;
     gmail_raises := gmail_raises Sample.env;
     open_raises := open_raises Sample.env;
     new_id := λ n, "id" +:+ pretty n;
     export_link := λ _, None; http_get := http_get Sample.env;
     anthropic_post := anthropic_post Sample.env |}.

(** A store that holds the folder of another project. *)
Definition archive : World :=
  {| drive := [folder "old" "z@y.com - Archive" "ROOT"];
     outbox := []; log := []; trace := [] |}.

(** The generation service fails once, at request [n], and answers every
    other request. *)
Definition env_generation_fails_at (n : nat) : Env :=
  Sample.with_anthropic
    (λ m _, if (m =? n)%nat then inl Sample.boom
            else inr ("generated " +:+ pretty m)) Sample.env.

End Faults.

(** ** What a run asks for *)

(** The requests a run of [process_submission] for [submission] and
    [document_path] makes: which folder it searches, which file it opens,
    under which names it creates files, whose key it sends, whom it
    mails. *)
Definition expected (env : Env) (self : DealProcessor)
    (submission : DealSubmission) (document_path : string) (r : Request)
  : Prop :=
  let ws := workspace self in
  match r with
  | DriveList term parent =>
      term = search_term submission ∧ parent = gw_base_folder_id ws
  | DriveCreateFolder name parent =>
      (name = project_folder_name submission ∧ parent = gw_base_folder_id ws)
      ∨ name = "PRE-UNDERWRITE" ∨ name = "KIQ SUBMISSIONS"
  | FileOpen path => path = document_path
  | DriveCreateFile name _ convert =>
      name = upload_name submission ∧ convert = false
  | DriveGet _ => True
  | HttpGet url => ∃ n, export_link env n = Some url
  | DocsCreate title =>
      title = underwrite_title self submission ∨ title = kiq_title submission
  | DocsBatchUpdate _ _ => True
  | DriveUpdate _ _ remove_parents => remove_parents = "root"
  | GmailSend m =>
      mail_from m = from_email (config ws)
      ∧ (mail_to m = email submission
         ∨ mail_to m ∈ internal_notification_emails (config ws))
  | AnthropicPost key _ => key = api_key (anthropic self)
  end.

(** [P], and not a mail. *)
Definition quiet (P : Request -> Prop) (r : Request) : Prop :=
  P r ∧ match r with GmailSend _ => False | _ => True end.

(** From [w] to [w'], every request made and every mail delivered is as
    [P] says. *)
Definition footprint (P : Request -> Prop) (w w' : World) : Prop :=
  ∃ rs mails,
    trace w' = trace w ++ rs ∧ Forall P rs
    ∧ outbox w' = outbox w ++ mails ∧ Forall (λ m, P (GmailSend m)) mails.

(** ** What extraction hands on *)

(** The text [extract_document_text] returns when its query of the export
    links is request [n]: the cleaned export, or one of the two
    notices. *)
Definition extracted (env : Env) (n : nat) : string :=
  match drive_raises env n with
  | Some _ => "Text extraction error"
  | None =>
      match export_link env n with
      | Some (String c l) =>
          match http_get env (S n) (String c l) with
          | inr raw => cleaned raw
          | inl _ => "Text extraction error"
          end
      | _ => "Document text extraction failed"
      end
  end.

(** ** Uploads *)

(** A file as [upload_document] leaves it when it does not ask for a
    conversion. *)
Definition uploaded (id name parent : string) : DriveFile :=
  {| file_id := id; file_name := name; file_parents := [parent];
     file_mime := UploadedFile false; file_text := "" |}.

(** ** The requests of an extraction *)

(** The number of requests [extract_document_text] makes after its query
    of the export links, when that query is request [n]: the download of
    the export, when Drive answers with a link. *)
Definition export_requests (env : Env) (n : nat) : nat :=
  match drive_raises env n with
  | Some _ => 0
  | None =>
      match export_link env n with
      | Some (String _ _) => 1
      | _ => 0
      end
  end.

(** ** A loop of sends *)

(** The first error among the answers to [count] requests numbered from
    [n] on, if any. *)
Fixpoint first_raised (raises : nat -> option Exn) (n count : nat)
  : option Exn :=
  match count with
  | 0 => None
  | S count' =>
      match raises n with
      | Some e => Some e
      | None => first_raised raises (S n) count'
      end
  end.

(** ** A webhook that goes through *)


(** * Proofs *)

(** ** Normalization of project names *)

Section CleanText.
#[local] Arguments String.append !_ _ / : simpl nomatch.

Lemma append_assoc (a b c : string) : (a +:+ b) +:+ c = a +:+ b +:+ c.
Proof. induction a; cbn; congruence. Qed.

Lemma append_empty_r (a : string) : a +:+ "" = a.
Proof. induction a; cbn; congruence. Qed.

Lemma re_split_go_word w rest cur b :
  all_chars (λ c, negb (search_separator c)) w = true →
  Text.re_split_go search_separator (w +:+ rest) cur b
  = Text.re_split_go search_separator rest (cur +:+ w)
      (match w with EmptyString => b | _ => false end).
Proof.
  revert cur b. induction w as [|c w IH]; intros cur b Hw; cbn.
  - by rewrite append_empty_r.
  - cbn in Hw. apply andb_true_iff in Hw as [Hc Hw].
    apply negb_true_iff in Hc. rewrite Hc, IH by done.
    rewrite append_assoc. cbn. by destruct w.
Qed.

Lemma re_split_go_in_run s rest :
  is_separator_run s →
  Text.re_split_go search_separator (s +:+ rest) "" true
  = Text.re_split_go search_separator rest "" true.
Proof.
  unfold is_separator_run. induction s as [|c s IH]; cbn; [done|].
  intros [Hc Hs]%andb_true_iff. rewrite Hc. by apply IH.
Qed.

Lemma re_split_go_run c s rest cur :
  is_separator_run (String c s) →
  Text.re_split_go search_separator (String c s +:+ rest) cur false
  = cur :: Text.re_split_go search_separator rest "" true.
Proof.
  unfold is_separator_run. cbn. intros [Hc Hs]%andb_true_iff.
  rewrite Hc. f_equal. by apply re_split_go_in_run.
Qed.

Lemma words_of_spelling parts b :
  well_separated parts →
  filter (λ word, Is_true (Text.nonempty word))
    (Text.re_split_go search_separator (spell parts) "" b)
  = parts.*1.
Proof.
  revert b. induction parts as [|[word sep] rest IH]; intros b; cbn; [done|].
  intros ([Hne Hword] & Hsep & Hlast & Hrest).
  rewrite re_split_go_word by done. cbn.
  destruct word as [|c word]; [done|]. destruct sep as [|d sep].
  - destruct rest; [|by destruct Hlast]. cbn. done.
  - rewrite re_split_go_run by done.
    rewrite filter_cons_True by done. f_equal. by apply IH.
Qed.

Lemma spelling_exists text :
  ∃ lead parts,
    text = lead +:+ spell parts ∧ is_separator_run lead ∧ well_separated parts.
Proof.
  induction text as [|c text (lead & parts & -> & Hlead & Hparts)].
  - by exists "", [].
  - destruct (search_separator c) eqn:Hc.
    + exists (String c lead), parts. split_and!; try done.
      unfold is_separator_run. cbn. by rewrite Hc.
    + assert (Hw : is_word (String c "")).
      { split; [done|]. cbn. by rewrite Hc. }
      destruct lead as [|d lead].
      * destruct parts as [|[word sep] rest].
        -- exists "", [(String c "", "")]. by split_and!.
        -- exists "", ((String c word, sep) :: rest). cbn in *.
           destruct Hparts as ([_ Hword] & ? & ? & ?).
           split_and!; try done. split; [done|]. cbn. by rewrite Hc.
      * exists "", ((String c "", String d lead) :: parts). cbn.
        by split_and!.
Qed.

End CleanText.


#[local] Arguments String.append : simpl never.
#[local] Arguments Prompt.underwrite : simpl never.
#[local] Arguments Prompt.kiq : simpl never.
#[local] Arguments Body.client : simpl never.
#[local] Arguments Body.internal : simpl never.
#[local] Arguments Body.duplicate : simpl never.
#[local] Arguments _clean_text_for_search : simpl never.
#[local] Arguments Text.re_sub : simpl never.
#[local] Arguments Text.strip : simpl never.
#[local] Arguments Path.splitext_ext : simpl never.
#[local] Arguments Path.lower : simpl never.

(** ** Running monadic code *)

Ltac unfold_m :=
  unfold try_except, mbind, M_bind, mret, M_ret, raise, logger, call,
    answer_unit, update_files.

(** ** The methods that never raise *)

Section Methods.
Context (env : Env) (ws : GoogleWorkspaceManager).

Lemma check_duplicate_project_run (submission : DealSubmission) w :
  check_duplicate_project env ws (email submission) (project_name submission) w =
    match drive_raises env (length (trace w)) with
    | Some e =>
        (inr false,
         logged ERROR ("Duplicate check failed: " +:+ exn_text e)
           (requested (DriveList (search_term submission) (gw_base_folder_id ws)) w))
    | None =>
        (inr (0 <? length (matching_files env ws submission w))%nat,
         requested (DriveList (search_term submission) (gw_base_folder_id ws)) w)
    end.
Proof.
  unfold check_duplicate_project, drive_files_list. unfold_m. cbn.
  by destruct (drive_raises env _).
Qed.

Lemma extract_document_text_run id w :
  ∃ text rs w',
    extract_document_text env ws id w = (inr text, w')
    ∧ trace w' = trace w ++ DriveGet id :: rs
    ∧ (rs = [] ∨ ∃ url, rs = [HttpGet url])
    ∧ drive w' = drive w ∧ outbox w' = outbox w.
Proof.
  unfold extract_document_text, drive_files_get, requests_get. unfold_m. cbn.
  destruct (drive_raises env _); [eexists _, [], _; by split_and!; eauto|].
  cbn. destruct (export_link env _) as [[|c l]|];
    try (eexists _, [], _; by split_and!; eauto).
  cbn. destruct (http_get env _ _);
    eexists _, [HttpGet _], _; cbn; rewrite <- app_assoc; split_and!; eauto.
Qed.

(** The same, with the text and the number of requests read off the
    answers of the collaborators. *)
Lemma extract_document_text_exact id w :
  ∃ rs w',
    extract_document_text env ws id w
      = (inr (extracted env (length (trace w))), w')
    ∧ trace w' = trace w ++ DriveGet id :: rs
    ∧ (rs = [] ∨ ∃ url, rs = [HttpGet url])
    ∧ length rs = export_requests env (length (trace w))
    ∧ drive w' = drive w ∧ outbox w' = outbox w.
Proof.
  unfold extract_document_text, extracted, export_requests, cleaned,
    drive_files_get, requests_get.
  unfold_m. cbn.
  destruct (drive_raises env _); [eexists [], _; by split_and!; eauto|].
  cbn. destruct (export_link env _) as [[|c l]|];
    try (eexists [], _; by split_and!; eauto).
  cbn. rewrite length_app. cbn [length]. rewrite Nat.add_1_r.
  destruct (http_get env _ _);
    eexists [HttpGet _], _; cbn; rewrite <- app_assoc; split_and!; eauto.
Qed.

Lemma generate_underwrite_analysis_run api text w :
  generate_underwrite_analysis env api text w =
    let answer := anthropic_post env (length (trace w)) (Prompt.underwrite text) in
    (inr (generated_or "Analysis generation failed - please review manually." answer),
     let w' := requested (AnthropicPost (api_key api) (Prompt.underwrite text)) w in
     match answer with
     | inl e => logged ERROR ("Underwrite analysis failed: " +:+ exn_text e) w'
     | inr _ => w'
     end).
Proof.
  unfold generate_underwrite_analysis, requests_post. unfold_m. cbn.
  by destruct (anthropic_post env _ _).
Qed.

Lemma generate_kiq_questions_run api text w :
  generate_kiq_questions env api text w =
    let answer := anthropic_post env (length (trace w)) (Prompt.kiq text) in
    (inr (generated_or "Question generation failed - please create manually." answer),
     let w' := requested (AnthropicPost (api_key api) (Prompt.kiq text)) w in
     match answer with
     | inl e => logged ERROR ("KIQ generation failed: " +:+ exn_text e) w'
     | inr _ => w'
     end).
Proof.
  unfold generate_kiq_questions, requests_post. unfold_m. cbn.
  by destruct (anthropic_post env _ _).
Qed.

Lemma send_client_email_run submission ul kl w :
  send_client_email env ws submission ul kl w =
    (inr (),
     let w' := requested (GmailSend (client_mail ws submission ul kl)) w in
     match gmail_raises env (length (trace w)) with
     | Some e => logged ERROR ("Failed to send client email: " +:+ exn_text e) w'
     | None =>
         logged INFO ("Sent client email to " +:+ email submission)
           (with_outbox (outbox w ++ [client_mail ws submission ul kl]) w')
     end).
Proof.
  unfold send_client_email, gmail_send. unfold_m. cbn.
  by destruct (gmail_raises env _).
Qed.

Lemma send_duplicate_notification_run submission w :
  send_duplicate_notification env ws submission w =
    (inr (),
     let w' := requested (GmailSend (duplicate_mail ws submission)) w in
     match gmail_raises env (length (trace w)) with
     | Some e =>
         logged ERROR ("Failed to send duplicate notification: " +:+ exn_text e) w'
     | None =>
         logged INFO ("Sent duplicate notification to " +:+ email submission)
           (with_outbox (outbox w ++ [duplicate_mail ws submission]) w')
     end).
Proof.
  unfold send_duplicate_notification, gmail_send. unfold_m. cbn.
  by destruct (gmail_raises env _).
Qed.

(** The loop stops at the first addressee whose send raises: [k] sends were
    attempted, and all of them when Gmail never raises. *)
Lemma send_each_run from subject body tos w :
  ∃ res w' k,
    send_each env from subject body tos w = (res, w')
    ∧ trace w' = trace w ++
        map (λ to, GmailSend {| mail_to := to; mail_from := from;
                                mail_subject := subject; mail_body := body |})
            (take k tos)
    ∧ drive w' = drive w ∧ log w' = log w
    ∧ ((∀ n, gmail_raises env n = None) → k = length tos ∧ res = inr ())
    ∧ (∀ e, res = inl e → ∃ n, gmail_raises env n = Some e).
Proof.
  revert w. induction tos as [|to tos IH]; intros w.
  - eexists _, _, 0. cbn. rewrite app_nil_r. split_and!; eauto. discriminate.
  - cbn [send_each]. unfold gmail_send at 1. unfold_m. cbn.
    destruct (gmail_raises env (length (trace w))) as [e|] eqn:Hg.
    + eexists _, _, 1. cbn. split_and!; eauto.
      * intros H. by rewrite H in Hg.
      * intros e' [= <-]. eauto.
    + match goal with |- context [send_each _ _ _ _ _ ?w1] =>
        destruct (IH w1) as (res & w' & k & -> & Ht & Hd & Hl & Hall & He) end.
      eexists _, _, (S k). cbn in *. rewrite Ht, <- app_assoc.
      split_and!; eauto.
      intros H. destruct (Hall H) as [-> ->]. done.
Qed.

(** The loop raises the first error Gmail answers with, and returns when
    there is none; it logs nothing. *)
Lemma send_each_first_raised from subject body tos w :
  ∃ w',
    send_each env from subject body tos w
      = (match first_raised (gmail_raises env) (length (trace w)) (length tos)
         with
         | Some e => inl e
         | None => inr ()
         end, w')
    ∧ log w' = log w.
Proof.
  revert w. induction tos as [|to tos IH]; intros w; [by eexists|].
  cbn [send_each length first_raised]. unfold gmail_send at 1. unfold_m. cbn.
  destruct (gmail_raises env (length (trace w))) as [e|]; [by eexists|].
  match goal with |- context [send_each _ _ _ _ _ ?w1] =>
    destruct (IH w1) as (w' & -> & Hl) end.
  cbn in *. rewrite length_app. cbn [length]. rewrite Nat.add_1_r.
  by exists w'.
Qed.

(** [send_internal_notification] returns in both cases, with one record
    more in the log: the error of the first send that failed, or that the
    notifications were sent. *)
Lemma send_internal_notification_log submission pl ul kl w :
  ∃ w',
    send_internal_notification env ws submission pl ul kl w = (inr (), w')
    ∧ log w' = log w ++
        [match first_raised (gmail_raises env) (length (trace w))
                 (length (internal_notification_emails (config ws)))
         with
         | Some e =>
             {| level := ERROR;
                message := "Failed to send internal notification: "
                           +:+ exn_text e |}
         | None =>
             {| level := INFO; message := "Sent internal notifications" |}
         end].
Proof.
  unfold send_internal_notification. unfold_m.
  destruct (send_each_first_raised (from_email (config ws)) "NEW DEAL SUBMITTED"
              (Body.internal submission pl ul kl)
              (internal_notification_emails (config ws)) w)
    as (w' & -> & Hl).
  destruct (first_raised _ _ _); eexists; cbn; by rewrite Hl.
Qed.

Lemma send_internal_notification_run submission pl ul kl w :
  ∃ w' k record,
    send_internal_notification env ws submission pl ul kl w = (inr (), w')
    ∧ trace w' = trace w ++
        map (λ to, GmailSend (internal_mail ws submission pl ul kl to))
            (take k (internal_notification_emails (config ws)))
    ∧ drive w' = drive w
    ∧ ((∀ n, gmail_raises env n = None) →
       k = length (internal_notification_emails (config ws)))
    ∧ log w' = log w ++ [record]
    ∧ (record = {| level := INFO; message := "Sent internal notifications" |}
       ∨ ∃ e n, gmail_raises env n = Some e
           ∧ record = {| level := ERROR;
                         message := "Failed to send internal notification: "
                                    +:+ exn_text e |}).
Proof.
  unfold send_internal_notification. unfold_m.
  destruct (send_each_run (from_email (config ws)) "NEW DEAL SUBMITTED"
              (Body.internal submission pl ul kl)
              (internal_notification_emails (config ws)) w)
    as (res & w' & k & -> & Ht & Hd & Hl & Hall & He).
  destruct res as [e|[]]; eexists _, k, _; cbn; rewrite Hl;
    (split; [reflexivity|]); (split; [exact Ht|]); (split; [exact Hd|]);
    (split; [intros Hg; by destruct (Hall Hg)|]); (split; [reflexivity|]).
  - right. destruct (He e eq_refl) as [n Hn]. eauto.
  - by left.
Qed.

End Methods.

(** ** The methods of the three stages *)

Lemma nonempty_app_r a b : Text.nonempty b = true → Text.nonempty (a +:+ b) = true.
Proof. destruct a, b; done. Qed.

Lemma upload_name_nonempty submission : Text.nonempty (upload_name submission) = true.
Proof. unfold upload_name. by do 3 apply nonempty_app_r. Qed.

Lemma stages_succeed_nil env n : stages_succeed env n [].
Proof. intros i r. by rewrite lookup_nil. Qed.

Lemma stages_succeed_cons env n r rs :
  (is_Some (stage_of r) → raised env n r = None) →
  stages_succeed env (S n) rs → stages_succeed env n (r :: rs).
Proof.
  intros Hr Hrs [|i] r'; cbn.
  - intros [= <-]. by rewrite Nat.add_0_r.
  - intros. rewrite Nat.add_succ_r. by apply Hrs.
Qed.

Lemma stages_succeed_app env n rs1 rs2 :
  stages_succeed env n rs1 → stages_succeed env (n + length rs1) rs2 →
  stages_succeed env n (rs1 ++ rs2).
Proof.
  intros H1 H2 i r Hi Hs. apply lookup_app_Some in Hi as [Hi|[Hle Hi]].
  - by apply H1.
  - specialize (H2 _ _ Hi Hs). by replace (n + i) with (n + length rs1 + (i - length rs1)) by lia.
Qed.

Lemma stages_succeed_no_stage env n rs :
  Forall (λ r, stage_of r = None) rs → stages_succeed env n rs.
Proof.
  intros H i r Hi [s Hs]. eapply Forall_lookup_1 in H; [|done]. congruence.
Qed.

Lemma propagates_quiet env w w' rs :
  trace w' = trace w ++ rs → Forall (λ r, stage_of r = None) rs →
  propagates env w None w'.
Proof. intros H Hrs. exists rs. split; [done|]. by apply stages_succeed_no_stage. Qed.

Lemma propagates_trans env w w1 err w2 :
  propagates env w None w1 → propagates env w1 err w2 → propagates env w err w2.
Proof.
  intros (s1 & Ht1 & H1) (s2 & Ht2 & H2). exists (s1 ++ s2).
  rewrite Ht2, Ht1, <- app_assoc. split; [done|].
  rewrite Ht1, length_app in H2. destruct err as [e|].
  - destruct H2 as (pre & r & stage & l & -> & Hpre & Hst & Hr & Hl).
    exists (s1 ++ pre), r, stage, l. rewrite <- app_assoc, length_app.
    split_and!; try done.
    + by apply stages_succeed_app.
    + by rewrite Nat.add_assoc.
  - by apply stages_succeed_app.
Qed.

Lemma propagates_logged env w err w' lv msg :
  propagates env (logged lv msg w) err w' → propagates env w err w'.
Proof. done. Qed.

Ltac stages_ok :=
  repeat (apply stages_succeed_cons; [by (intros; cbn in *)|]);
  apply stages_succeed_nil.

Section Stages.
Context (env : Env) (ws : GoogleWorkspaceManager).

Lemma create_project_structure_outcome submission w :
  ∀ res w', create_project_structure env ws submission w = (res, w') →
    propagates env w (error_of res) w'.
Proof.
  unfold create_project_structure, drive_files_create. unfold_m. cbn.
  destruct (drive_raises env (length (trace w))) as [e|] eqn:H0; cbn.
  { intros ?? [= <- <-]. eexists [_]. split; [done|].
    eexists [], _, StructureCreation, _. cbn. rewrite Nat.add_0_r.
    split_and!; try done; stages_ok. }
  rewrite length_app. cbn [length]. rewrite Nat.add_1_r.
  destruct (drive_raises env (S (length (trace w)))) as [e|] eqn:H1; cbn.
  { intros ?? [= <- <-]. eexists [_; _]. rewrite <- app_assoc. split; [done|].
    eexists [_], _, StructureCreation, _. cbn. rewrite Nat.add_1_r.
    split_and!; try done; stages_ok. }
  rewrite !length_app. cbn [length]. rewrite !Nat.add_1_r.
  destruct (drive_raises env (S (S (length (trace w))))) as [e|] eqn:H2; cbn.
  { intros ?? [= <- <-]. eexists [_; _; _]. rewrite <- !app_assoc. split; [done|].
    eexists [_; _], _, StructureCreation, _. cbn.
    rewrite Nat.add_succ_r, Nat.add_1_r.
    split_and!; try done; stages_ok. }
  intros ?? [= <- <-]. eexists [_; _; _]. cbn. rewrite <- !app_assoc.
  split; [done|]. stages_ok.
Qed.

Lemma upload_document_outcome path folder_id submission w :
  ∀ res w',
    upload_document env ws path folder_id (Some (upload_name submission)) w
      = (res, w') →
    propagates env w (error_of res) w'.
Proof.
  unfold upload_document, file_open, drive_files_create.
  rewrite upload_name_nonempty. unfold_m. cbn.
  destruct (open_raises env (length (trace w))) as [e|] eqn:H0; cbn.
  { intros ?? [= <- <-]. eexists [_]. split; [done|].
    eexists [], _, Upload, _. cbn. rewrite Nat.add_0_r.
    split_and!; try done; stages_ok. }
  rewrite length_app. cbn [length]. rewrite Nat.add_1_r.
  destruct (drive_raises env (S (length (trace w)))) as [e|] eqn:H1; cbn.
  { intros ?? [= <- <-]. eexists [_; _]. rewrite <- app_assoc. split; [done|].
    eexists [_], _, Upload, _. cbn. rewrite Nat.add_1_r.
    split_and!; try done; stages_ok. }
  intros ?? [= <- <-]. eexists [_; _]. cbn. rewrite <- !app_assoc.
  split; [done|]. stages_ok.
Qed.

Lemma create_document_outcome title content folder_id w :
  ∀ res w', create_document env ws title content folder_id w = (res, w') →
    propagates env w (error_of res) w'.
Proof.
  unfold create_document, docs_documents_create, docs_documents_batchUpdate,
    drive_files_update.
  unfold_m. cbn.
  destruct (docs_raises env (length (trace w))) as [e|] eqn:H0; cbn.
  { intros ?? [= <- <-]. eexists [_]. split; [done|].
    eexists [], _, DocumentCreation, _. cbn. rewrite Nat.add_0_r.
    split_and!; try done; stages_ok. }
  rewrite length_app. cbn [length]. rewrite Nat.add_1_r.
  destruct (docs_raises env (S (length (trace w)))) as [e|] eqn:H1; cbn.
  { intros ?? [= <- <-]. eexists [_; _]. rewrite <- app_assoc. split; [done|].
    eexists [_], _, DocumentCreation, _. cbn. rewrite Nat.add_1_r.
    split_and!; try done; stages_ok. }
  rewrite !length_app. cbn [length]. rewrite !Nat.add_1_r.
  destruct (drive_raises env (S (S (length (trace w))))) as [e|] eqn:H2; cbn.
  { intros ?? [= <- <-]. eexists [_; _; _]. rewrite <- !app_assoc. split; [done|].
    eexists [_; _], _, DocumentCreation, _. cbn.
    rewrite Nat.add_succ_r, Nat.add_1_r.
    split_and!; try done; stages_ok. }
  intros ?? [= <- <-]. eexists [_; _; _]. cbn. rewrite <- !app_assoc.
  split; [done|]. stages_ok.
Qed.

(** With Drive, Docs and the file system answering, the stages return the
    new ids. *)
Context (Hdrive : ∀ n, drive_raises env n = None)
        (Hdocs : ∀ n, docs_raises env n = None)
        (Hopen : ∀ n, open_raises env n = None).

Lemma create_project_structure_ok submission w :
  let n := length (trace w) in
  ∃ w',
    create_project_structure env ws submission w
      = (inr (new_id env n, new_id env (S n), new_id env (S (S n))), w')
    ∧ trace w' = trace w ++
        [DriveCreateFolder (project_folder_name submission) (gw_base_folder_id ws);
         DriveCreateFolder "PRE-UNDERWRITE" (new_id env n);
         DriveCreateFolder "KIQ SUBMISSIONS" (new_id env n)]
    ∧ drive w' = drive w ++
        [folder (new_id env n) (project_folder_name submission)
           (gw_base_folder_id ws);
         folder (new_id env (S n)) "PRE-UNDERWRITE" (new_id env n);
         folder (new_id env (S (S n))) "KIQ SUBMISSIONS" (new_id env n)].
Proof.
  unfold create_project_structure, drive_files_create. unfold_m. cbn.
  repeat (rewrite Hdrive; cbn). rewrite !length_app. cbn. rewrite !Nat.add_1_r.
  eexists. split; [done|]. cbn. by rewrite <- !app_assoc.
Qed.

Lemma upload_document_ok path folder_id submission w :
  ∃ w',
    upload_document env ws path folder_id (Some (upload_name submission)) w
      = (inr (new_id env (S (length (trace w)))), w')
    ∧ trace w' = trace w ++
        [FileOpen path;
         DriveCreateFile (upload_name submission) folder_id
           (upload_convert submission)]
    ∧ ∃ uploaded, drive w' = drive w ++ [uploaded].
Proof.
  unfold upload_document, file_open, drive_files_create.
  rewrite upload_name_nonempty. unfold_m. cbn.
  rewrite Hopen. cbn. rewrite Hdrive. cbn. rewrite !length_app. cbn.
  rewrite !Nat.add_1_r.
  eexists. split; [done|]. cbn. rewrite <- !app_assoc. eauto.
Qed.

Lemma create_document_ok title content folder_id w :
  let id := new_id env (length (trace w)) in
  ∃ w',
    create_document env ws title content folder_id w = (inr id, w')
    ∧ trace w' = trace w ++
        [DocsCreate title; DocsBatchUpdate id content;
         DriveUpdate id folder_id "root"]
    ∧ ∀ f, f ∈ drive w → file_id f ≠ id → f ∈ drive w'.
Proof.
  unfold create_document, docs_documents_create, docs_documents_batchUpdate,
    drive_files_update.
  unfold_m. cbn.
  rewrite Hdocs. cbn. rewrite Hdocs. cbn. rewrite Hdrive. cbn.
  eexists. split; [done|]. cbn. split; [by rewrite <- !app_assoc|].
  intros f Hf Hid. rewrite <- list_fmap_compose.
  apply list_elem_of_fmap. exists f. split; [|apply elem_of_app; by left].
  cbn. apply String.eqb_neq in Hid. rewrite Hid. by rewrite Hid.
Qed.

End Stages.

(** ** Every run of [process_submission] is one of the six outcomes *)

#[local] Arguments check_duplicate_project : simpl never.
#[local] Arguments create_project_structure : simpl never.
#[local] Arguments upload_document : simpl never.
#[local] Arguments extract_document_text : simpl never.
#[local] Arguments create_document : simpl never.
#[local] Arguments generate_underwrite_analysis : simpl never.
#[local] Arguments generate_kiq_questions : simpl never.
#[local] Arguments send_client_email : simpl never.
#[local] Arguments send_internal_notification : simpl never.
#[local] Arguments send_duplicate_notification : simpl never.

Section Outcomes.
Context (env : Env) (self : DealProcessor) (submission : DealSubmission)
        (document_path : string).

Lemma check_duplicate_project_returns ws w :
  ∃ b w', check_duplicate_project env ws (email submission)
            (project_name submission) w = (inr b, w').
Proof.
  rewrite check_duplicate_project_run. destruct (drive_raises env _); eauto.
Qed.

Lemma process_submission_Run w :
  Run env self submission document_path w
    (process_submission env self submission document_path w).1
    (process_submission env self submission document_path w).2.
Proof.
  unfold process_submission. unfold_m. cbn.
  destruct (check_duplicate_project_returns (workspace self)
              (started submission w)) as (duplicate & w1 & Hcheck).
  unfold started, logged in Hcheck. rewrite Hcheck.
  destruct duplicate.
  { rewrite send_duplicate_notification_run. cbn.
    eapply Run_duplicate; [exact Hcheck|].
    by rewrite send_duplicate_notification_run. }
  destruct (create_project_structure _ _ _ _) as [[e|[[F P] K]] w2] eqn:Hcps.
  { cbn. eapply Run_structure_failed; eauto. }
  destruct (upload_document _ _ _ _ _ _) as [[e|up] w3] eqn:Hup.
  { cbn. eapply Run_upload_failed; eauto. }
  destruct (extract_document_text_run env (workspace self) up
              (logged INFO "Extracting document text..." w3))
    as (text & rs & w4 & Hext & _).
  unfold logged in Hext. rewrite Hext.
  destruct (generate_underwrite_analysis _ _ _ _) as [res5 w5] eqn:Hgen1.
  pose proof Hgen1 as Hgen1'.
  rewrite generate_underwrite_analysis_run in Hgen1'. cbn zeta in Hgen1'.
  injection Hgen1' as <- _. 
  destruct (create_document _ _ _ _ _ _) as [[e|U] w6] eqn:Hdoc1.
  { cbn. eapply Run_underwrite_failed; eauto. }
  destruct (generate_kiq_questions _ _ _ _) as [res7 w7] eqn:Hgen2.
  pose proof Hgen2 as Hgen2'.
  rewrite generate_kiq_questions_run in Hgen2'. cbn zeta in Hgen2'.
  injection Hgen2' as <- _.
  destruct (create_document _ _ _ _ _ w7) as [[e|Q] w8] eqn:Hdoc2.
  { cbn. eapply Run_kiq_failed; eauto. }
  rewrite send_client_email_run.
  match goal with |- context [send_internal_notification ?a ?b ?c ?d ?e ?f ?w9] =>
    destruct (send_internal_notification_run a b c d e f w9)
      as (w10 & k & record & Hint & _) end.
  rewrite Hint. cbn.
  eapply Run_done; eauto. by rewrite send_client_email_run.
Qed.

End Outcomes.

Section Forward.
Context (env : Env) (self : DealProcessor) (submission : DealSubmission)
        (document_path : string).

(** Each of the six outcomes is, in turn, what the function computes. *)
Lemma Run_process_submission w res w' :
  Run env self submission document_path w res w' →
  process_submission env self submission document_path w = (res, w').
Proof.
  destruct 1;
    unfold started, failed, logged, underwrite_title, kiq_title, upload_name in *;
    unfold process_submission; unfold_m; cbn in *;
    repeat match goal with
           | H : _ = _ |- _ => rewrite H; clear H; cbn
           end; reflexivity.
Qed.

Lemma matching_files_logged ws lv msg w :
  matching_files env ws submission (logged lv msg w)
  = matching_files env ws submission w.
Proof. reflexivity. Qed.

(** A run that finds no matching folder, with Drive, Docs and the file
    system answering: the result and the requests made, whatever the text
    export, the generation service and Gmail do. [text] is the extracted
    text, [rs] the download of the export, if any, and [k] the number of
    internal addressees a send was attempted for. *)
Lemma process_submission_fresh_at w :
  (∀ n, drive_raises env n = None) →
  (∀ n, docs_raises env n = None) →
  (∀ n, open_raises env n = None) →
  matching_files env (workspace self) submission w = [] →
  ∃ rs k w',
    let ws := workspace self in
    let n := length (trace w) in
    let text := extracted env (n + 6) in
    let n1 := n + 7 + length rs in
    let n2 := n1 + 4 in
    let F := new_id env (n + 1) in
    let P := new_id env (n + 2) in
    let K := new_id env (n + 3) in
    let analysis :=
      generated_or "Analysis generation failed - please review manually."
        (anthropic_post env n1 (Prompt.underwrite text)) in
    let questions :=
      generated_or "Question generation failed - please create manually."
        (anthropic_post env n2 (Prompt.kiq analysis)) in
    let U := new_id env (n1 + 1) in
    let Q := new_id env (n2 + 1) in
    process_submission env self submission document_path w
      = (inr {| project_folder_id := F; underwrite_doc_id := U;
                kiq_doc_id := Q; duplicate_detected := false |}, w')
    ∧ length rs = export_requests env (n + 6)
    ∧ (rs = [] ∨ ∃ url, rs = [HttpGet url])
    ∧ trace w' = trace w ++
        [DriveList (search_term submission) (gw_base_folder_id ws);
         DriveCreateFolder (project_folder_name submission) (gw_base_folder_id ws);
         DriveCreateFolder "PRE-UNDERWRITE" F;
         DriveCreateFolder "KIQ SUBMISSIONS" F;
         FileOpen document_path;
         DriveCreateFile (upload_name submission) P (upload_convert submission);
         DriveGet (new_id env (n + 5))] ++ rs ++
        [AnthropicPost (api_key (anthropic self)) (Prompt.underwrite text);
         DocsCreate (underwrite_title self submission);
         DocsBatchUpdate U analysis;
         DriveUpdate U P "root";
         AnthropicPost (api_key (anthropic self)) (Prompt.kiq analysis);
         DocsCreate (kiq_title submission);
         DocsBatchUpdate Q questions;
         DriveUpdate Q K "root";
         GmailSend (client_mail ws submission
                      ("https://docs.google.com/document/d/" +:+ U)
                      ("https://docs.google.com/document/d/" +:+ Q))] ++
        map (λ to, GmailSend (internal_mail ws submission
                      ("https://drive.google.com/drive/folders/" +:+ F)
                      ("https://docs.google.com/document/d/" +:+ U)
                      ("https://docs.google.com/document/d/" +:+ Q) to))
            (take k (internal_notification_emails (config ws)))
    ∧ ((∀ n, gmail_raises env n = None) →
       k = length (internal_notification_emails (config ws)))
    ∧ (∀ f,
         f ∈ drive w ++
             [folder F (project_folder_name submission) (gw_base_folder_id ws)] →
         file_id f ≠ U → file_id f ≠ Q → f ∈ drive w').
Proof.
  intros Hdrive Hdocs Hopen Hfresh.
  pose proof (check_duplicate_project_run env (workspace self) submission
                (started submission w)) as Hcheck.
  rewrite Hdrive in Hcheck. unfold started in Hcheck at 2.
  rewrite matching_files_logged, Hfresh in Hcheck. cbn [length Nat.ltb Nat.leb] in Hcheck.
  set (w1 := requested _ _) in Hcheck.
  destruct (create_project_structure_ok env (workspace self) Hdrive submission w1)
    as (w2 & Hcps & Ht2 & Hd2).
  destruct (upload_document_ok env (workspace self) Hdrive Hopen document_path
              (new_id env (S (length (trace w1)))) submission w2)
    as (w3 & Hup & Ht3 & uploaded & Hd3).
  destruct (extract_document_text_exact env (workspace self)
              (new_id env (S (length (trace w2))))
              (logged INFO "Extracting document text..." w3))
    as (rs & w4 & Hext & Ht4 & Hrs & Hlen & Hd4 & _).
  change (length (trace (logged INFO "Extracting document text..." w3)))
    with (length (trace w3)) in Hext, Hlen.
  set (text := extracted env _) in Hext.
  pose proof (generate_underwrite_analysis_run env (anthropic self) text
                (logged INFO "Generating underwriting analysis..." w4)) as Hgen1.
  cbn zeta in Hgen1.
  set (analysis := generated_or _ _) in Hgen1.
  set (w5 := match anthropic_post _ _ _ with inl _ => _ | inr _ => _ end) in Hgen1.
  assert (Ht5 : trace w5 = trace w4 ++
            [AnthropicPost (api_key (anthropic self)) (Prompt.underwrite text)]).
  { subst w5. by destruct (anthropic_post env _ (Prompt.underwrite text)). }
  assert (Hd5 : drive w5 = drive w4).
  { subst w5. by destruct (anthropic_post env _ (Prompt.underwrite text)). }
  destruct (create_document_ok env (workspace self) Hdrive Hdocs
              (underwrite_title self submission) analysis
              (new_id env (S (length (trace w1)))) w5)
    as (w6 & Hdoc1 & Ht6 & Hd6).
  pose proof (generate_kiq_questions_run env (anthropic self) analysis
                (logged INFO "Generating KIQ questions..." w6)) as Hgen2.
  cbn zeta in Hgen2.
  set (questions := generated_or _ _) in Hgen2.
  set (w7 := match anthropic_post _ _ _ with inl _ => _ | inr _ => _ end) in Hgen2.
  assert (Ht7 : trace w7 = trace w6 ++
            [AnthropicPost (api_key (anthropic self)) (Prompt.kiq analysis)]).
  { subst w7. by destruct (anthropic_post env _ (Prompt.kiq analysis)). }
  assert (Hd7 : drive w7 = drive w6).
  { subst w7. by destruct (anthropic_post env _ (Prompt.kiq analysis)). }
  destruct (create_document_ok env (workspace self) Hdrive Hdocs
              (kiq_title submission) questions
              (new_id env (S (S (length (trace w1))))) w7)
    as (w8 & Hdoc2 & Ht8 & Hd8).
  pose proof (send_client_email_run env (workspace self) submission
                ("https://docs.google.com/document/d/" +:+ new_id env (length (trace w5)))
                ("https://docs.google.com/document/d/" +:+ new_id env (length (trace w7)))
                w8) as Hclient.
  cbn zeta in Hclient.
  set (w9 := match gmail_raises _ _ with Some _ => _ | None => _ end) in Hclient.
  assert (Ht9 : trace w9 = trace w8 ++
            [GmailSend (client_mail (workspace self) submission
               ("https://docs.google.com/document/d/" +:+ new_id env (length (trace w5)))
               ("https://docs.google.com/document/d/" +:+ new_id env (length (trace w7))))]).
  { subst w9. by destruct (gmail_raises _ _). }
  assert (Hd9 : drive w9 = drive w8).
  { subst w9. by destruct (gmail_raises _ _). }
  destruct (send_internal_notification_run env (workspace self) submission
              ("https://drive.google.com/drive/folders/" +:+ new_id env (length (trace w1)))
              ("https://docs.google.com/document/d/" +:+ new_id env (length (trace w5)))
              ("https://docs.google.com/document/d/" +:+ new_id env (length (trace w7)))
              w9) as (w10 & k & record & Hint & Ht10 & Hd10 & Hk & _).
  pose proof (Run_process_submission w _ _
    (Run_done env self submission document_path w _ _ _ _ _ _ _ _ _ _ _ _ _ _ _ _ _ _ _
       Hcheck Hcps Hup Hext Hgen1 Hdoc1 Hgen2 Hdoc2 Hclient Hint)) as Hrun.
  clear Hcheck Hcps Hup Hext Hgen1 Hdoc1 Hgen2 Hdoc2 Hclient Hint.
  subst w1. cbn [trace requested started logged with_trace with_log] in *.
  rewrite length_app in *. cbn [length] in *.
  assert (Hl2 : length (trace w2) = length (trace w) + 4).
  { rewrite Ht2, !length_app. cbn. lia. }
  assert (Hl3 : length (trace w3) = length (trace w) + 6).
  { rewrite Ht3, !length_app, Hl2. cbn. lia. }
  assert (Hl4 : length (trace w4) = length (trace w) + 7 + length rs).
  { rewrite Ht4, Ht3, !length_app, Hl2. cbn. lia. }
  assert (Hl5 : length (trace w5) = length (trace w) + 7 + length rs + 1).
  { rewrite Ht5, length_app, Hl4. cbn. lia. }
  assert (Hl6 : length (trace w6) = length (trace w) + 7 + length rs + 4).
  { rewrite Ht6, length_app, Hl5. cbn. lia. }
  assert (Hl7 : length (trace w7) = length (trace w) + 7 + length rs + 4 + 1).
  { rewrite Ht7, length_app, Hl6. cbn. lia. }
  rewrite Hl2 in *. rewrite Hl5 in *. rewrite Hl7 in *.
  replace (S (length (trace w) + 1)) with (length (trace w) + 2) in * by lia.
  replace (S (length (trace w) + 2)) with (length (trace w) + 3) in * by lia.
  replace (S (length (trace w) + 4)) with (length (trace w) + 5) in * by lia.
  subst text. rewrite Hl3 in *.
  exists rs, k, (logged INFO ("Successfully processed submission for "
                              +:+ project_name submission) w10).
  cbn zeta. split_and!; [done|done|done| |done|].
  - cbn [trace logged with_log].
    rewrite Ht10, Ht9, Ht8, Ht7, Ht6, Ht5, Ht4, Ht3, Ht2.
    subst analysis questions. rewrite Hl4, Hl6, ?Hl3.
    rewrite <- !app_assoc. cbn [app]. reflexivity.
  - intros f Hf HU HQ. cbn [drive logged with_log].
    rewrite Hd10, Hd9. apply Hd8; [|done]. rewrite Hd7.
    apply Hd6; [|done]. rewrite Hd5, Hd4. cbn [drive logged with_log].
    rewrite Hd3, Hd2. cbn [drive requested with_trace].
    apply elem_of_app in Hf as [Hf|Hf%list_elem_of_singleton].
    + do 2 (apply elem_of_app; left). done.
    + subst f. apply elem_of_app; left. apply elem_of_app; right.
      apply list_elem_of_here.
Qed.

(** The same, for some text. *)
Lemma process_submission_fresh w :
  (∀ n, drive_raises env n = None) →
  (∀ n, docs_raises env n = None) →
  (∀ n, open_raises env n = None) →
  matching_files env (workspace self) submission w = [] →
  ∃ text rs k w',
    let ws := workspace self in
    let n := length (trace w) in
    let n1 := n + 7 + length rs in
    let n2 := n1 + 4 in
    let F := new_id env (n + 1) in
    let P := new_id env (n + 2) in
    let K := new_id env (n + 3) in
    let analysis :=
      generated_or "Analysis generation failed - please review manually."
        (anthropic_post env n1 (Prompt.underwrite text)) in
    let questions :=
      generated_or "Question generation failed - please create manually."
        (anthropic_post env n2 (Prompt.kiq analysis)) in
    let U := new_id env (n1 + 1) in
    let Q := new_id env (n2 + 1) in
    process_submission env self submission document_path w
      = (inr {| project_folder_id := F; underwrite_doc_id := U;
                kiq_doc_id := Q; duplicate_detected := false |}, w')
    ∧ (rs = [] ∨ ∃ url, rs = [HttpGet url])
    ∧ trace w' = trace w ++
        [DriveList (search_term submission) (gw_base_folder_id ws);
         DriveCreateFolder (project_folder_name submission) (gw_base_folder_id ws);
         DriveCreateFolder "PRE-UNDERWRITE" F;
         DriveCreateFolder "KIQ SUBMISSIONS" F;
         FileOpen document_path;
         DriveCreateFile (upload_name submission) P (upload_convert submission);
         DriveGet (new_id env (n + 5))] ++ rs ++
        [AnthropicPost (api_key (anthropic self)) (Prompt.underwrite text);
         DocsCreate (underwrite_title self submission);
         DocsBatchUpdate U analysis;
         DriveUpdate U P "root";
         AnthropicPost (api_key (anthropic self)) (Prompt.kiq analysis);
         DocsCreate (kiq_title submission);
         DocsBatchUpdate Q questions;
         DriveUpdate Q K "root";
         GmailSend (client_mail ws submission
                      ("https://docs.google.com/document/d/" +:+ U)
                      ("https://docs.google.com/document/d/" +:+ Q))] ++
        map (λ to, GmailSend (internal_mail ws submission
                      ("https://drive.google.com/drive/folders/" +:+ F)
                      ("https://docs.google.com/document/d/" +:+ U)
                      ("https://docs.google.com/document/d/" +:+ Q) to))
            (take k (internal_notification_emails (config ws)))
    ∧ ((∀ n, gmail_raises env n = None) →
       k = length (internal_notification_emails (config ws)))
    ∧ (∀ f,
         f ∈ drive w ++
             [folder F (project_folder_name submission) (gw_base_folder_id ws)] →
         file_id f ≠ U → file_id f ≠ Q → f ∈ drive w').
Proof.
  intros Hdrive Hdocs Hopen Hfresh.
  destruct (process_submission_fresh_at w Hdrive Hdocs Hopen Hfresh)
    as (rs & k & w' & Hrun & _ & Hrest).
  by exists (extracted env (length (trace w) + 6)), rs, k, w'.
Qed.

End Forward.

(** ** What a run asks of the stages *)

Section Propagation.
Context (env : Env) (ws : GoogleWorkspaceManager).

Lemma check_duplicate_project_quiet submission w res w' :
  check_duplicate_project env ws (email submission) (project_name submission) w
    = (res, w') →
  propagates env w (error_of res) w'.
Proof.
  rewrite check_duplicate_project_run.
  destruct (drive_raises env _); intros [= <- <-];
    by eapply (propagates_quiet _ _ _ [DriveList _ _]); [|repeat constructor].
Qed.

Lemma extract_document_text_quiet id w res w' :
  extract_document_text env ws id w = (res, w') →
  propagates env w (error_of res) w'.
Proof.
  destruct (extract_document_text_run env ws id w)
    as (text & rs & w1 & -> & Ht & Hrs & _).
  intros [= <- <-]. eapply propagates_quiet; [exact Ht|].
  destruct Hrs as [->|[url ->]]; by repeat constructor.
Qed.

Lemma generate_underwrite_analysis_quiet api text w res w' :
  generate_underwrite_analysis env api text w = (res, w') →
  propagates env w (error_of res) w'.
Proof.
  rewrite generate_underwrite_analysis_run. cbn zeta. intros [= <- <-].
  eapply (propagates_quiet _ _ _ [AnthropicPost _ _]); [|by repeat constructor].
  by destruct (anthropic_post env _ _).
Qed.

Lemma generate_kiq_questions_quiet api text w res w' :
  generate_kiq_questions env api text w = (res, w') →
  propagates env w (error_of res) w'.
Proof.
  rewrite generate_kiq_questions_run. cbn zeta. intros [= <- <-].
  eapply (propagates_quiet _ _ _ [AnthropicPost _ _]); [|by repeat constructor].
  by destruct (anthropic_post env _ _).
Qed.

Lemma send_client_email_quiet submission ul kl w res w' :
  send_client_email env ws submission ul kl w = (res, w') →
  propagates env w (error_of res) w'.
Proof.
  rewrite send_client_email_run. cbn zeta. intros [= <- <-].
  eapply (propagates_quiet _ _ _ [GmailSend _]); [|by repeat constructor].
  by destruct (gmail_raises env _).
Qed.

Lemma send_duplicate_notification_quiet submission w res w' :
  send_duplicate_notification env ws submission w = (res, w') →
  propagates env w (error_of res) w'.
Proof.
  rewrite send_duplicate_notification_run. cbn zeta. intros [= <- <-].
  eapply (propagates_quiet _ _ _ [GmailSend _]); [|by repeat constructor].
  by destruct (gmail_raises env _).
Qed.

Lemma send_internal_notification_quiet submission pl ul kl w res w' :
  send_internal_notification env ws submission pl ul kl w = (res, w') →
  propagates env w (error_of res) w'.
Proof.
  destruct (send_internal_notification_run env ws submission pl ul kl w)
    as (w1 & k & record & -> & Ht & _).
  intros [= <- <-]. eapply propagates_quiet; [exact Ht|].
  apply Forall_map, Forall_true. done.
Qed.

End Propagation.

Lemma propagates_logged_r env w w' lv msg :
  propagates env w None w' → propagates env w None (logged lv msg w').
Proof. done. Qed.

(** A run keeps to the stages: it returns when each of their requests
    succeeded, and otherwise stops at the first one that failed. *)
Lemma Run_propagates env self submission document_path w res w' :
  Run env self submission document_path w res w' →
  ∃ w'',
    propagates env w (error_of res) w''
    ∧ w' = match res with inl e => failed e w'' | inr _ => w'' end.
Proof.
  destruct 1 as
    [w1 w2 Hc Hd
    |w1 e w2 Hc Hs
    |w1 F P K w2 e w3 Hc Hs Hu
    |w1 F P K w2 up w3 text w4 analysis w5 e w6 Hc Hs Hu Hx Hg1 Hd1
    |w1 F P K w2 up w3 text w4 analysis w5 U w6 questions w7 e w8
       Hc Hs Hu Hx Hg1 Hd1 Hg2 Hd2
    |w1 F P K w2 up w3 text w4 analysis w5 U w6 questions w7 Q w8 w9 w10
       Hc Hs Hu Hx Hg1 Hd1 Hg2 Hd2 Hm1 Hm2];
    eexists; (split; [|reflexivity]); cbn [error_of];
    apply check_duplicate_project_quiet in Hc;
    apply (propagates_logged env w) in Hc;
    try apply create_project_structure_outcome in Hs;
    try apply upload_document_outcome in Hu;
    try (apply extract_document_text_quiet, propagates_logged in Hx);
    try (apply generate_underwrite_analysis_quiet, propagates_logged in Hg1);
    try apply create_document_outcome in Hd1;
    try (apply generate_kiq_questions_quiet, propagates_logged in Hg2);
    try apply create_document_outcome in Hd2;
    cbn [error_of] in *.
  - apply send_duplicate_notification_quiet, propagates_logged in Hd.
    eauto using propagates_trans.
  - eauto using propagates_trans.
  - eauto using propagates_trans.
  - eauto 10 using propagates_trans.
  - eauto 10 using propagates_trans.
  - apply send_client_email_quiet in Hm1.
    apply send_internal_notification_quiet in Hm2.
    apply propagates_logged_r.
    eauto 12 using propagates_trans.
Qed.

(** ** The requests of a run *)

Lemma requests_since_app w w' rs :
  trace w' = trace w ++ rs → requests_since w w' = rs.
Proof. intros H. unfold requests_since. rewrite H. apply drop_app_length. Qed.

Lemma generation_prompts_app rs1 rs2 :
  generation_prompts (rs1 ++ rs2)
  = generation_prompts rs1 ++ generation_prompts rs2.
Proof. apply omap_app. Qed.

Lemma generation_prompts_mails {A} (mail : A → Mail) (tos : list A) :
  generation_prompts (map (λ to, GmailSend (mail to)) tos) = [].
Proof. by induction tos. Qed.

Lemma contains_app_r a b needle :
  Text.contains b needle = true → Text.contains (a +:+ b) needle = true.
Proof.
  intros H. induction a as [|c a IH]; [done|].
  change (String c a +:+ b) with (String c (a +:+ b)).
  cbn [Text.contains]. rewrite IH. apply orb_true_r.
Qed.

Lemma lookup_after {A} (l0 l1 l2 l3 : list A) x n :
  n = length l0 + length l1 + length l2 →
  (l0 ++ l1 ++ l2 ++ x :: l3) !! n = Some x.
Proof.
  intros ->. rewrite !app_assoc. apply list_lookup_middle.
  rewrite !length_app. lia.
Qed.

(** ** Runs that differ in what Gmail does *)

Lemma send_internal_notification_drive env ws submission pl ul kl w :
  ∃ w', send_internal_notification env ws submission pl ul kl w = (inr (), w')
        ∧ drive w' = drive w.
Proof.
  destruct (send_internal_notification_run env ws submission pl ul kl w)
    as (w' & k & record & H & _ & Hd & _). eauto.
Qed.

Lemma send_client_email_drive env ws submission ul kl w :
  ∃ w', send_client_email env ws submission ul kl w = (inr (), w')
        ∧ drive w' = drive w.
Proof.
  rewrite send_client_email_run. eexists. split; [done|].
  cbn zeta. by destruct (gmail_raises env _).
Qed.

Lemma send_duplicate_notification_drive env ws submission w :
  ∃ w', send_duplicate_notification env ws submission w = (inr (), w')
        ∧ drive w' = drive w.
Proof.
  rewrite send_duplicate_notification_run. eexists. split; [done|].
  cbn zeta. by destruct (gmail_raises env _).
Qed.

Lemma Run_with_gmail env g self submission document_path w res w' :
  Run env self submission document_path w res w' →
  ∃ w'', Run (with_gmail g env) self submission document_path w res w''
         ∧ drive w'' = drive w'.
Proof.
  destruct 1 as
    [w1 w2 Hc Hd
    |w1 e w2 Hc Hs
    |w1 F P K w2 e w3 Hc Hs Hu
    |w1 F P K w2 up w3 text w4 analysis w5 e w6 Hc Hs Hu Hx Hg1 Hd1
    |w1 F P K w2 up w3 text w4 analysis w5 U w6 questions w7 e w8
       Hc Hs Hu Hx Hg1 Hd1 Hg2 Hd2
    |w1 F P K w2 up w3 text w4 analysis w5 U w6 questions w7 Q w8 w9 w10
       Hc Hs Hu Hx Hg1 Hd1 Hg2 Hd2 Hm1 Hm2].
  - destruct (send_duplicate_notification_drive (with_gmail g env)
                (workspace self) submission
                (logged INFO ("Duplicate detected for "
                              +:+ project_name submission) w1))
      as (w2' & Hd' & Hdrive').
    destruct (send_duplicate_notification_drive env (workspace self) submission
                (logged INFO ("Duplicate detected for "
                              +:+ project_name submission) w1))
      as (w2'' & Hd'' & Hdrive'').
    rewrite Hd'' in Hd. injection Hd as <-.
    exists w2'. split; [|congruence].
    eapply Run_duplicate; [exact Hc|exact Hd'].
  - eexists. split; [|reflexivity].
    eapply Run_structure_failed; [exact Hc|exact Hs].
  - eexists. split; [|reflexivity].
    eapply Run_upload_failed; [exact Hc|exact Hs|exact Hu].
  - eexists. split; [|reflexivity].
    eapply Run_underwrite_failed;
      [exact Hc|exact Hs|exact Hu|exact Hx|exact Hg1|exact Hd1].
  - eexists. split; [|reflexivity].
    eapply Run_kiq_failed;
      [exact Hc|exact Hs|exact Hu|exact Hx|exact Hg1|exact Hd1|exact Hg2
      |exact Hd2].
  - destruct (send_client_email_drive env (workspace self) submission
                ("https://docs.google.com/document/d/" +:+ U)
                ("https://docs.google.com/document/d/" +:+ Q) w8)
      as (w9' & Hm1' & Hdrive9).
    rewrite Hm1' in Hm1. injection Hm1 as ->.
    destruct (send_internal_notification_drive env (workspace self) submission
                ("https://drive.google.com/drive/folders/" +:+ F)
                ("https://docs.google.com/document/d/" +:+ U)
                ("https://docs.google.com/document/d/" +:+ Q) w9)
      as (w10' & Hm2' & Hdrive10).
    rewrite Hm2' in Hm2. injection Hm2 as ->.
    destruct (send_client_email_drive (with_gmail g env) (workspace self)
                submission
                ("https://docs.google.com/document/d/" +:+ U)
                ("https://docs.google.com/document/d/" +:+ Q) w8)
      as (v9 & Hn1 & Hv9).
    destruct (send_internal_notification_drive (with_gmail g env)
                (workspace self) submission
                ("https://drive.google.com/drive/folders/" +:+ F)
                ("https://docs.google.com/document/d/" +:+ U)
                ("https://docs.google.com/document/d/" +:+ Q) v9)
      as (v10 & Hn2 & Hv10).
    eexists. split.
    + eapply Run_done;
        [exact Hc|exact Hs|exact Hu|exact Hx|exact Hg1|exact Hd1|exact Hg2
        |exact Hd2|exact Hn1|exact Hn2].
    + cbn. congruence.
Qed.

(** ** Duplicates *)

Section Duplicates.
Context (env : Env) (self : DealProcessor) (submission : DealSubmission)
        (document_path : string).

Lemma duplicate_run w :
  (check_duplicate_project env (workspace self) (email submission)
     (project_name submission) w).1 = inr true →
  ∃ w',
    process_submission env self submission document_path w
      = (inr duplicate_result, w')
    ∧ requests_since w w'
      = [DriveList (search_term submission) (gw_base_folder_id (workspace self));
         GmailSend (duplicate_mail (workspace self) submission)]
    ∧ drive w' = drive w
    ∧ outbox w' = outbox w ++
        match gmail_raises env (S (length (trace w))) with
        | Some _ => []
        | None => [duplicate_mail (workspace self) submission]
        end.
Proof.
  rewrite check_duplicate_project_run.
  destruct (drive_raises env (length (trace w))) eqn:Hdrive; [done|].
  cbn [fst]. intros [= Hfound].
  pose proof (check_duplicate_project_run env (workspace self) submission
                (started submission w)) as Hcheck.
  change (trace (started submission w)) with (trace w) in Hcheck.
  rewrite Hdrive in Hcheck. unfold started in Hcheck at 2.
  rewrite matching_files_logged, Hfound in Hcheck.
  eexists. split.
  { apply Run_process_submission. eapply Run_duplicate; [exact Hcheck|].
    apply send_duplicate_notification_run. }
  cbn zeta.
  match goal with |- context [gmail_raises env ?n] =>
    replace n with (S (length (trace w)))
      by (cbn; rewrite length_app; cbn; lia) end.
  destruct (gmail_raises env (S (length (trace w))));
    (split_and!; [|done|by rewrite ?app_nil_r]);
    unfold requests_since; cbn; by rewrite <- app_assoc, drop_app_length.
Qed.

Lemma flagged_result_is_empty w r w' :
  process_submission env self submission document_path w = (inr r, w') →
  duplicate_detected r = true → r = duplicate_result.
Proof.
  intros Hrun Hflag.
  pose proof (process_submission_Run env self submission document_path w) as HR.
  rewrite Hrun in HR. cbn [fst snd] in HR.
  inversion HR; subst; done.
Qed.


End Duplicates.

(** * The claims *)






(** C2. With Drive, Docs and the file system answering and no matching
    folder, [process_submission] returns whatever the generation service
    does: the flag is clear, the three identifiers are those the store
    answered (non-empty when the store's ids are), and the body written to
    each document is the answer of its generation request, or, when that
    request failed, the placeholder of its task; the two placeholders
    differ. [n1] and [n2] are the numbers of the two generation requests. *)
Theorem generation_failure_tolerated env self submission document_path w :
  (∀ n, drive_raises env n = None) →
  (∀ n, docs_raises env n = None) →
  (∀ n, open_raises env n = None) →
  matching_files env (workspace self) submission w = [] →
  (∀ n, new_id env n ≠ "") →
  ∃ text n1 n2 r w',
    let first := anthropic_post env n1 (Prompt.underwrite text) in
    let analysis :=
      match first with
      | inl _ => "Analysis generation failed - please review manually."
      | inr generated => generated
      end in
    let second := anthropic_post env n2 (Prompt.kiq analysis) in
    let questions :=
      match second with
      | inl _ => "Question generation failed - please create manually."
      | inr generated => generated
      end in
    process_submission env self submission document_path w = (inr r, w')
    ∧ duplicate_detected r = false
    ∧ project_folder_id r ≠ "" ∧ underwrite_doc_id r ≠ "" ∧ kiq_doc_id r ≠ ""
    ∧ trace w' !! n1
      = Some (AnthropicPost (api_key (anthropic self)) (Prompt.underwrite text))
    ∧ trace w' !! n2
      = Some (AnthropicPost (api_key (anthropic self)) (Prompt.kiq analysis))
    ∧ DocsBatchUpdate (underwrite_doc_id r) analysis ∈ requests_since w w'
    ∧ DocsBatchUpdate (kiq_doc_id r) questions ∈ requests_since w w'
    ∧ "Analysis generation failed - please review manually."
      ≠ "Question generation failed - please create manually.".
Proof.
  intros Hdrive Hdocs Hopen Hfresh Hids.
  destruct (process_submission_fresh env self submission document_path w
              Hdrive Hdocs Hopen Hfresh)
    as (text & rs & k & w' & Hrun & Hrs & Htrace & Hk & _).
  cbn zeta in *.
  exists text, (length (trace w) + 7 + length rs),
    (length (trace w) + 7 + length rs + 4). eexists _, w'.
  cbn zeta. split; [exact Hrun|]. cbn [duplicate_detected project_folder_id
    underwrite_doc_id kiq_doc_id].
  split_and!; try done.
  - rewrite Htrace. by apply lookup_after.
  - rewrite Htrace.
    match goal with
    | |- (_ ++ ?l7 ++ _ ++ (?a :: ?b :: ?c :: ?d :: ?e :: ?t) ++ ?m) !! _ = _ =>
        change ((a :: b :: c :: d :: e :: t) ++ m)
          with ([a; b; c; d] ++ e :: (t ++ m))
    end.
    rewrite (app_assoc rs). apply lookup_after.
    rewrite !length_app. cbn. lia.
  - rewrite (requests_since_app _ _ _ Htrace).
    do 2 (apply elem_of_app; right). apply elem_of_app; left.
    repeat constructor.
  - rewrite (requests_since_app _ _ _ Htrace).
    do 2 (apply elem_of_app; right). apply elem_of_app; left.
    repeat constructor.
Qed.

Lemma generation_failure_tolerated_witness :
  ∃ r w',
    Sample.run Sample.env_no_generation Sample.empty = (inr r, w')
    ∧ duplicate_detected r = false
    ∧ project_folder_id r ≠ "" ∧ underwrite_doc_id r ≠ "" ∧ kiq_doc_id r ≠ ""
    ∧ DocsBatchUpdate (underwrite_doc_id r)
        "Analysis generation failed - please review manually."
      ∈ requests_since Sample.empty w'
    ∧ DocsBatchUpdate (kiq_doc_id r)
        "Question generation failed - please create manually."
      ∈ requests_since Sample.empty w'.
Proof.
  destruct (generation_failure_tolerated Sample.env_no_generation
              Sample.processor Sample.submission "/tmp/deck.pdf" Sample.empty)
    as (text & n1 & n2 & r & w' & Hrun & Hflag & HF & HU & HK & _ & _ & H1 & H2 & _);
    try (intros n; reflexivity).
  - reflexivity.
  - intros n.
    destruct n as [|[|[|[|[|[|[|[|[|[|[|[|[|[|n]]]]]]]]]]]]]]; discriminate.
  - exists r, w'. cbn [generated_or] in H1, H2.
    split; [exact Hrun|]. split; [exact Hflag|]. split; [exact HF|].
    split; [exact HU|]. split; [exact HK|]. split; [exact H1|exact H2].
Defined.

(** C3. When the duplicate check finds a match, the run returns the
    duplicate flag set and the three identifiers empty; its only requests
    are the query and one duplicate notice to the submitter, delivered
    unless Gmail fails; Drive is left as it was. And whenever a run returns
    the flag set, the three identifiers are empty. *)
Theorem duplicate_is_terminal env self submission document_path w :
  ((check_duplicate_project env (workspace self) (email submission)
      (project_name submission) w).1 = inr true →
   ∃ w',
     process_submission env self submission document_path w
       = (inr {| project_folder_id := ""; underwrite_doc_id := "";
                 kiq_doc_id := ""; duplicate_detected := true |}, w')
     ∧ requests_since w w'
       = [DriveList (search_term submission) (gw_base_folder_id (workspace self));
          GmailSend (duplicate_mail (workspace self) submission)]
     ∧ drive w' = drive w
     ∧ outbox w' = outbox w ++
         match gmail_raises env (S (length (trace w))) with
         | Some _ => []
         | None => [duplicate_mail (workspace self) submission]
         end)
  ∧ (∀ r w',
       process_submission env self submission document_path w = (inr r, w') →
       duplicate_detected r = true →
       project_folder_id r = "" ∧ underwrite_doc_id r = "" ∧ kiq_doc_id r = "").
Proof.
  split.
  - apply duplicate_run.
  - intros r w' Hrun Hflag.
    by rewrite (flagged_result_is_empty _ _ _ _ _ _ _ Hrun Hflag).
Qed.

Lemma duplicate_is_terminal_witness :
  ∃ w',
    Sample.run Sample.env Sample.seen
      = (inr {| project_folder_id := ""; underwrite_doc_id := "";
                kiq_doc_id := ""; duplicate_detected := true |}, w')
    ∧ requests_since Sample.seen w'
      = [DriveList "a@b.com,Foo,Bar" "ROOT";
         GmailSend (duplicate_mail (workspace Sample.processor) Sample.submission)]
    ∧ drive w' = drive Sample.seen
    ∧ outbox w' = [duplicate_mail (workspace Sample.processor) Sample.submission].
Proof.
  apply (proj1 (duplicate_is_terminal Sample.env Sample.processor
                  Sample.submission "/tmp/deck.pdf" Sample.seen)).
  vm_compute. reflexivity.
Defined.

(** C4. Normalization keeps the words of a project name and nothing of how
    they are separated: every name is a spelling of words, each followed by
    a run of separators (whitespace and [- . , ; : | / _]), after a leading
    run; and the key of a spelling is its words joined by commas, whatever
    the runs are. So ["Alpha Beta"], ["Alpha-Beta"], ["Alpha.Beta"] and
    ["Alpha_Beta"] all have the key ["Alpha,Beta"]. *)
Theorem clean_text_separator_invariant :
  (∀ text, ∃ lead parts,
     text = lead +:+ spell parts ∧ is_separator_run lead ∧ well_separated parts)
  ∧ (∀ lead parts,
       is_separator_run lead → well_separated parts →
       _clean_text_for_search (lead +:+ spell parts) = Text.join "," parts.*1)
  ∧ _clean_text_for_search "Alpha Beta" = "Alpha,Beta"
  ∧ _clean_text_for_search "Alpha-Beta" = "Alpha,Beta"
  ∧ _clean_text_for_search "Alpha.Beta" = "Alpha,Beta"
  ∧ _clean_text_for_search "Alpha_Beta" = "Alpha,Beta".
Proof.
  split; [exact spelling_exists|]. split; [|by split_and!].
  intros lead parts Hlead Hparts.
  unfold _clean_text_for_search, Text.re_split. f_equal.
  destruct lead as [|c lead].
  - by apply words_of_spelling.
  - rewrite re_split_go_run by done. rewrite filter_cons_False by (cbn; tauto).
    by apply words_of_spelling.
Qed.

Lemma clean_text_separator_invariant_witness :
  _clean_text_for_search ("_ " +:+ spell [("Alpha", " - "); ("Beta", "/")])
  = Text.join "," ["Alpha"; "Beta"].
Proof.
  apply (proj1 (proj2 clean_text_separator_invariant) "_ "
           [("Alpha", " - "); ("Beta", "/")]).
  - reflexivity.
  - repeat split; try discriminate; try reflexivity.
Defined.

(** C5, as stated, fails: the service answers ["No questions."], the call
    succeeds, and that text is the body of the KIQ document. *)
Lemma kiq_body_not_validated :
  ¬ kiq_body_well_formed Sample.env_terse Sample.processor Sample.submission
      "/tmp/deck.pdf" Sample.empty.
Proof.
  intros H.
  destruct (H {| project_folder_id := "F1"; underwrite_doc_id := "U1";
                 kiq_doc_id := "K1"; duplicate_detected := false |}
              (Sample.run Sample.env_terse Sample.empty).2 "No questions.")
    as [[Hcount _]|Hbody].
  - vm_compute. reflexivity.
  - vm_compute. repeat constructor.
  - vm_compute in Hcount. discriminate.
  - discriminate.
Qed.

Example sheet_has_fifteen_entries : fifteen_entries Sample.sheet.
Proof. split; vm_compute; reflexivity. Qed.

Example sheet_is_written :
  ∃ w', Sample.run Sample.env_sheet Sample.empty
        = (inr {| project_folder_id := "F1"; underwrite_doc_id := "U1";
                  kiq_doc_id := "K1"; duplicate_detected := false |}, w')
        ∧ DocsBatchUpdate "K1" Sample.sheet ∈ requests_since Sample.empty w'.
Proof.
  eexists. split; [vm_compute; reflexivity|]. vm_compute. repeat constructor.
Qed.

(** C5, amended. With Drive, Docs and the file system answering and no
    matching folder, the body written to the KIQ document is what the
    second generation request answered, as it is, or the placeholder
    ["Question generation failed - please create manually."] when that
    request failed. The prompt of the request holds the two
    mandatory questions verbatim and asks for exactly 15 questions; the
    answer is not checked against it. *)
Theorem kiq_body_is_service_answer env self submission document_path w :
  (∀ n, drive_raises env n = None) →
  (∀ n, docs_raises env n = None) →
  (∀ n, open_raises env n = None) →
  matching_files env (workspace self) submission w = [] →
  ∃ analysis n2 r w',
    let prompt := Prompt.kiq analysis in
    process_submission env self submission document_path w = (inr r, w')
    ∧ trace w' !! n2 = Some (AnthropicPost (api_key (anthropic self)) prompt)
    ∧ DocsBatchUpdate (kiq_doc_id r)
        match anthropic_post env n2 prompt with
        | inr answer => answer
        | inl _ => "Question generation failed - please create manually."
        end
      ∈ requests_since w w'
    ∧ Text.contains prompt mandatory_compensation = true
    ∧ Text.contains prompt mandatory_litigation = true
    ∧ Text.contains prompt "Generate exactly 15 due diligence questions" = true.
Proof.
  intros Hdrive Hdocs Hopen Hfresh.
  destruct (process_submission_fresh env self submission document_path w
              Hdrive Hdocs Hopen Hfresh)
    as (text & rs & k & w' & Hrun & Hrs & Htrace & Hk & _).
  cbn zeta in *.
  eexists _, (length (trace w) + 7 + length rs + 4). eexists _, w'.
  cbn zeta. split; [exact Hrun|]. cbn [kiq_doc_id]. split_and!.
  - rewrite Htrace.
    match goal with
    | |- (_ ++ ?l7 ++ _ ++ (?a :: ?b :: ?c :: ?d :: ?e :: ?t) ++ ?m) !! _ = _ =>
        change ((a :: b :: c :: d :: e :: t) ++ m)
          with ([a; b; c; d] ++ e :: (t ++ m))
    end.
    rewrite (app_assoc rs). apply lookup_after.
    rewrite !length_app. cbn. lia.
  - rewrite (requests_since_app _ _ _ Htrace).
    do 2 (apply elem_of_app; right). apply elem_of_app; left.
    unfold generated_or. repeat constructor.
  - unfold Prompt.kiq. by do 2 apply contains_app_r.
  - unfold Prompt.kiq. by do 2 apply contains_app_r.
  - unfold Prompt.kiq. by do 2 apply contains_app_r.
Qed.

Lemma kiq_body_is_service_answer_witness :
  ∃ r w',
    Sample.run Sample.env_terse Sample.empty = (inr r, w')
    ∧ DocsBatchUpdate (kiq_doc_id r) "No questions."
      ∈ requests_since Sample.empty w'.
Proof.
  destruct (kiq_body_is_service_answer Sample.env_terse Sample.processor
              Sample.submission "/tmp/deck.pdf" Sample.empty)
    as (analysis & n2 & r & w' & Hrun & _ & Hbody & _);
    try (intros n; reflexivity).
  - reflexivity.
  - exists r, w'. split; [exact Hrun|exact Hbody].
Defined.

(** C6, as stated, fails: Drive answers the creation of the project folder
    in one run, and the upload in another, with the same error; both runs
    raise that error, so it cannot tell the stage. *)
Lemma raised_error_hides_stage : ¬ error_names_stage.
Proof.
  intros [stage_named H].
  pose proof (H (Sample.env_drive_fails_at 1) Sample.processor
                Sample.submission "/tmp/deck.pdf" Sample.empty Sample.boom
                (Sample.run (Sample.env_drive_fails_at 1) Sample.empty).2
                [DriveList "a@b.com,Foo,Bar" "ROOT"]
                (DriveCreateFolder "a@b.com - Foo Bar" "ROOT")) as H1.
  pose proof (H (Sample.env_drive_fails_at 5) Sample.processor
                Sample.submission "/tmp/deck.pdf" Sample.empty Sample.boom
                (Sample.run (Sample.env_drive_fails_at 5) Sample.empty).2
                [DriveList "a@b.com,Foo,Bar" "ROOT";
                 DriveCreateFolder "a@b.com - Foo Bar" "ROOT";
                 DriveCreateFolder "PRE-UNDERWRITE" "F1";
                 DriveCreateFolder "KIQ SUBMISSIONS" "F1";
                 FileOpen "/tmp/deck.pdf"]
                (DriveCreateFile "a@b.com - Foo Bar - Original" "id2" false))
    as H2.
  assert (Some StructureCreation = Some (stage_named Sample.boom)) as E1.
  { apply H1; vm_compute; reflexivity. }
  assert (Some Upload = Some (stage_named Sample.boom)) as E2.
  { apply H2; vm_compute; reflexivity. }
  congruence.
Qed.

(** C6, amended. A run raises exactly when a request of structure
    creation, upload or document creation is answered with an error: it
    returns only if all of them succeeded, and otherwise stops at the first
    that failed and raises the collaborator's own error, unchanged. The
    stage is named in the log, not in the error: the last two records are
    the message of the stage's method and ["Failed to process submission:"],
    each followed by the text of the error. *)
Theorem process_submission_reraises env self submission document_path w :
  let run := process_submission env self submission document_path w in
  ∃ suffix,
    trace run.2 = trace w ++ suffix ∧
    match run.1 with
    | inr _ => stages_succeed env (length (trace w)) suffix
    | inl e =>
        ∃ pre r stage l,
          suffix = pre ++ [r]
          ∧ stages_succeed env (length (trace w)) pre
          ∧ stage_of r = Some stage
          ∧ raised env (length (trace w) + length pre) r = Some e
          ∧ log run.2 = l ++
              [{| level := ERROR;
                  message := stage_message stage +:+ exn_text e |};
               {| level := ERROR;
                  message := "Failed to process submission: " +:+ exn_text e |}]
    end.
Proof.
  intros run.
  destruct (Run_propagates _ _ _ _ _ _ _
              (process_submission_Run env self submission document_path w))
    as (w'' & (suffix & Htrace & Hout) & Hw').
  fold run in Hout, Hw'. exists suffix. rewrite Hw'.
  destruct (run.1) as [e|r]; cbn [error_of] in Hout; [|done].
  split; [done|].
  destruct Hout as (pre & r & stage & l & -> & Hpre & Hstage & Hraised & Hlog).
  exists pre, r, stage, l. split_and!; try done.
  cbn. by rewrite Hlog, <- app_assoc.
Qed.

(** C7. What Gmail does to a send changes neither the result of
    [process_submission] nor what it leaves in Drive; and each of the three
    sending methods returns normally whatever Gmail does, with one record
    more in the log: the failure when a send failed (for the internal
    notification, that of the first addressee whose send failed), and the
    success only when none did. *)
Theorem notification_failures_swallowed env g self submission document_path w :
  let ws := workspace self in
  let quiet := process_submission env self submission document_path w in
  let noisy :=
    process_submission (with_gmail g env) self submission document_path w in
  noisy.1 = quiet.1
  ∧ drive noisy.2 = drive quiet.2
  ∧ (∀ ul kl w1,
       ∃ w2, send_client_email env ws submission ul kl w1 = (inr (), w2)
         ∧ log w2 = log w1 ++
             [match gmail_raises env (length (trace w1)) with
              | Some e =>
                  {| level := ERROR;
                     message := "Failed to send client email: " +:+ exn_text e |}
              | None =>
                  {| level := INFO;
                     message := "Sent client email to " +:+ email submission |}
              end])
  ∧ (∀ pl ul kl w1,
       ∃ w2,
         send_internal_notification env ws submission pl ul kl w1 = (inr (), w2)
         ∧ log w2 = log w1 ++
             [match first_raised (gmail_raises env) (length (trace w1))
                      (length (internal_notification_emails (config ws)))
              with
              | Some e =>
                  {| level := ERROR;
                     message := "Failed to send internal notification: "
                                +:+ exn_text e |}
              | None =>
                  {| level := INFO; message := "Sent internal notifications" |}
              end])
  ∧ (∀ w1,
       ∃ w2, send_duplicate_notification env ws submission w1 = (inr (), w2)
         ∧ log w2 = log w1 ++
             [match gmail_raises env (length (trace w1)) with
              | Some e =>
                  {| level := ERROR;
                     message := "Failed to send duplicate notification: "
                                +:+ exn_text e |}
              | None =>
                  {| level := INFO;
                     message := "Sent duplicate notification to "
                                +:+ email submission |}
              end]).
Proof.
  intros ws quiet noisy.
  destruct (Run_with_gmail env g self submission document_path w _ _
              (process_submission_Run env self submission document_path w))
    as (w'' & HR & Hdrive).
  apply Run_process_submission in HR. fold noisy in HR. fold quiet in HR, Hdrive.
  rewrite HR. cbn [fst snd]. split_and!; try done.
  - intros ul kl w1. rewrite send_client_email_run. eexists. split; [done|].
    cbn zeta. by destruct (gmail_raises env _).
  - intros pl ul kl w1.
    apply send_internal_notification_log.
  - intros w1. rewrite send_duplicate_notification_run. eexists.
    split; [done|]. cbn zeta. by destruct (gmail_raises env _).
Qed.

(** C8. A configuration file that is absent or holds an object, with the
    environment applied on top: when a required key is missing or empty,
    loading raises a [ValueError] whose text names every such key, and
    [main] logs it and does nothing else; when the three are present,
    loading returns the configuration, in which the required keys have
    their settings and each display field has the value of the file, or
    its default when the file has none. *)
Theorem load_config_required file environ :
  (∀ e, file ≠ BadFile e) →
  let config := file_config file in
  match missing_keys config environ with
  | (_ :: _) as missing =>
      ∃ text,
        _load_config file environ
          = inl {| exn_type := "ValueError"; exn_text := text |}
        ∧ text = "Missing required configuration: " +:+ repr_keys missing
        ∧ Forall (λ key, Text.contains text key = true) missing
        ∧ ∀ ready w,
            main file environ ready w
            = (inr (), logged ERROR ("Application error: " +:+ text) w)
  | [] =>
      ∃ final_config,
        _load_config file environ = inr final_config
        ∧ Forall (λ kv, final_config !! kv.1
                        = Some (setting config environ kv.1 kv.2)
                        ∧ truthy (setting config environ kv.1 kv.2) = true)
                 required
        ∧ final_config !! "company_name"
          = Some (default (JStr "Your Company") (config !! "company_name"))
        ∧ final_config !! "signature_name"
          = Some (default (JStr "Your Name") (config !! "signature_name"))
        ∧ final_config !! "signature_title"
          = Some (default (JStr "Your Title") (config !! "signature_title"))
        ∧ final_config !! "phone_number"
          = Some (default (JStr "Your Phone Number") (config !! "phone_number"))
        ∧ final_config !! "support_url"
          = Some (default (JStr "https://your-website.com/contact")
                    (config !! "support_url"))
        ∧ final_config !! "internal_notification_emails"
          = Some (default (JArr []) (config !! "internal_notification_emails"))
  end.
Proof.
  intros Hfile config.
  assert (Hload : _load_config file environ =
    let final_config := final_config_of config environ in
    let missing :=
      filter (λ key, Is_true (negb (truthy (dict_get final_config key JNull))))
             required_fields in
    match missing with
    | _ :: _ =>
        inl {| exn_type := "ValueError";
               exn_text := "Missing required configuration: "
                           +:+ repr_keys missing |}
    | [] => inr final_config
    end).
  { subst config. destruct file; [done|by destruct (Hfile e)|done]. }
  unfold main, try_except. rewrite Hload. clear Hload.
  unfold missing_keys, required, required_fields.
  rewrite !filter_cons, filter_nil.
  change (dict_get (final_config_of config environ) "anthropic_api_key" JNull)
    with (setting config environ "anthropic_api_key" "ANTHROPIC_API_KEY").
  change (dict_get (final_config_of config environ) "base_folder_id" JNull)
    with (setting config environ "base_folder_id" "BASE_FOLDER_ID").
  change (dict_get (final_config_of config environ) "from_email" JNull)
    with (setting config environ "from_email" "FROM_EMAIL").
  cbn [fst snd].
  destruct (truthy (setting config environ "anthropic_api_key" _)) eqn:H1;
  destruct (truthy (setting config environ "base_folder_id" _)) eqn:H2;
  destruct (truthy (setting config environ "from_email" _)) eqn:H3;
  cbn -[final_config_of setting];
  repeat (case_decide; try done; try tauto);
  cbn -[final_config_of setting];
  try (eexists; split_and!; [reflexivity|reflexivity| |reflexivity];
       by repeat constructor).
  eexists. split; [reflexivity|].
  split; [by repeat constructor|]. by split_and!.
Qed.

Lemma load_config_required_witness :
  ∃ text,
    _load_config (JsonObject {["from_email" := JStr "deals@acme.example"]})
      {["ANTHROPIC_API_KEY" := ""; "BASE_FOLDER_ID" := "ROOT"]}
    = inl {| exn_type := "ValueError"; exn_text := text |}
    ∧ text = "Missing required configuration: ['anthropic_api_key']".
Proof.
  pose proof (load_config_required
                (JsonObject {["from_email" := JStr "deals@acme.example"]})
                {["ANTHROPIC_API_KEY" := ""; "BASE_FOLDER_ID" := "ROOT"]}
                ltac:(discriminate)) as H.
  vm_compute in H. destruct H as (text & H1 & H2 & _).
  exists text. split; [exact H1|exact H2].
Defined.

(** C9. In a run that returns identifiers [F1], [U1] and [K1], the mails
    are built from the links
    [https://drive.google.com/drive/folders/F1],
    [https://docs.google.com/document/d/U1] and
    [https://docs.google.com/document/d/K1]: the run ends on the mail to
    the submitter, carrying the two document links, and the mails to the
    first [k] internal addressees, carrying all three; [k] is all of them
    when Gmail does not fail. *)
Theorem links_assembled env self submission document_path w r w' :
  process_submission env self submission document_path w = (inr r, w') →
  duplicate_detected r = false →
  let project_link :=
    "https://drive.google.com/drive/folders/" +:+ project_folder_id r in
  let underwrite_link :=
    "https://docs.google.com/document/d/" +:+ underwrite_doc_id r in
  let kiq_link := "https://docs.google.com/document/d/" +:+ kiq_doc_id r in
  ∃ pre k,
    requests_since w w' = pre ++
      GmailSend (client_mail (workspace self) submission underwrite_link kiq_link)
      :: map (λ to, GmailSend (internal_mail (workspace self) submission
                                 project_link underwrite_link kiq_link to))
             (take k (internal_notification_emails (config (workspace self))))
    ∧ ((∀ n, gmail_raises env n = None) →
       k = length (internal_notification_emails (config (workspace self)))).
Proof.
  intros Hrun Hflag.
  pose proof (process_submission_Run env self submission document_path w) as HR.
  rewrite Hrun in HR. cbn [fst snd] in HR.
  inversion HR as
    [w1 w2 Hc Hd
    | | | |
    |w1 F P K w2 up w3 text w4 analysis w5 U w6 questions w7 Q w8 w9 w10
       Hc Hs Hu Hx Hg1 Hd1 Hg2 Hd2 Hm1 Hm2 Hr Hw];
    [by subst r|]. cbn.
  apply check_duplicate_project_quiet, (propagates_logged env w) in Hc.
  apply create_project_structure_outcome in Hs.
  apply upload_document_outcome in Hu.
  apply extract_document_text_quiet, propagates_logged in Hx.
  apply generate_underwrite_analysis_quiet, propagates_logged in Hg1.
  apply create_document_outcome in Hd1.
  apply generate_kiq_questions_quiet, propagates_logged in Hg2.
  apply create_document_outcome in Hd2. cbn [error_of] in *.
  assert (propagates env w None w8) as (pre & Hpre & _)
    by eauto 10 using propagates_trans.
  rewrite send_client_email_run in Hm1. cbn zeta in Hm1.
  injection Hm1 as Hw9.
  assert (Ht9 : trace w9 = trace w8 ++
    [GmailSend (client_mail (workspace self) submission
       ("https://docs.google.com/document/d/" +:+ U)
       ("https://docs.google.com/document/d/" +:+ Q))]).
  { rewrite <- Hw9. by destruct (gmail_raises env _). }
  destruct (send_internal_notification_run env (workspace self) submission
              ("https://drive.google.com/drive/folders/" +:+ F)
              ("https://docs.google.com/document/d/" +:+ U)
              ("https://docs.google.com/document/d/" +:+ Q) w9)
    as (w10' & k & record & Hm2' & Ht10 & _ & Hk & _).
  rewrite Hm2' in Hm2. injection Hm2 as ->.
  exists pre, k. split; [|done].
  apply requests_since_app. cbn [trace logged with_log].
  by rewrite Ht10, Ht9, Hpre, <- !app_assoc.
Qed.

Lemma links_assembled_witness :
  ∃ pre,
    requests_since Sample.empty (Sample.run Sample.env Sample.empty).2 = pre ++
      [GmailSend (client_mail (workspace Sample.processor) Sample.submission
                    "https://docs.google.com/document/d/U1"
                    "https://docs.google.com/document/d/K1");
       GmailSend (internal_mail (workspace Sample.processor) Sample.submission
                    "https://drive.google.com/drive/folders/F1"
                    "https://docs.google.com/document/d/U1"
                    "https://docs.google.com/document/d/K1"
                    "team@acme.example");
       GmailSend (internal_mail (workspace Sample.processor) Sample.submission
                    "https://drive.google.com/drive/folders/F1"
                    "https://docs.google.com/document/d/U1"
                    "https://docs.google.com/document/d/K1"
                    "manager@acme.example")].
Proof.
  destruct (links_assembled Sample.env Sample.processor Sample.submission
              "/tmp/deck.pdf" Sample.empty
              {| project_folder_id := "F1"; underwrite_doc_id := "U1";
                 kiq_doc_id := "K1"; duplicate_detected := false |}
              (Sample.run Sample.env Sample.empty).2)
    as (pre & k & Hreq & Hk).
  - vm_compute. reflexivity.
  - reflexivity.
  - exists pre. rewrite (Hk (λ n, eq_refl)) in Hreq. exact Hreq.
Defined.

(** C10. When the request for the underwriting analysis fails, that one
    request, whatever the service answers to any other: the text
    ["Analysis generation failed - please review manually."] is written to
    the underwrite document, and the run makes exactly two generation
    requests: the one that failed, built from the extracted text, and the
    KIQ request built from that placeholder. The underwriting request
    follows the seven requests up to the query of the export links and the
    download of the export, if there is one. *)
Theorem underwrite_failure_feeds_placeholder
    env self submission document_path w e :
  (∀ n, drive_raises env n = None) →
  (∀ n, docs_raises env n = None) →
  (∀ n, open_raises env n = None) →
  matching_files env (workspace self) submission w = [] →
  let n := length (trace w) in
  let text := extracted env (n + 6) in
  anthropic_post env (n + 7 + export_requests env (n + 6))
    (Prompt.underwrite text) = inl e →
  ∃ r w',
    process_submission env self submission document_path w = (inr r, w')
    ∧ DocsCreate (underwrite_title self submission) ∈ requests_since w w'
    ∧ DocsBatchUpdate (underwrite_doc_id r)
        "Analysis generation failed - please review manually."
      ∈ requests_since w w'
    ∧ generation_prompts (requests_since w w')
      = [Prompt.underwrite text;
         Prompt.kiq "Analysis generation failed - please review manually."].
Proof.
  intros Hdrive Hdocs Hopen Hfresh n text Hfails.
  destruct (process_submission_fresh_at env self submission document_path w
              Hdrive Hdocs Hopen Hfresh)
    as (rs & k & w' & Hrun & Hlen & Hrs & Htrace & Hk & _).
  cbn zeta in *. fold n in Hrun, Hlen, Htrace. fold text in Htrace.
  rewrite <- Hlen in Hfails. rewrite Hfails in Htrace.
  cbn [generated_or] in Htrace.
  eexists _, w'. split; [exact Hrun|].
  rewrite (requests_since_app _ _ _ Htrace).
  cbn [underwrite_doc_id]. split_and!.
  - do 2 (apply elem_of_app; right). apply elem_of_app; left.
    repeat constructor.
  - do 2 (apply elem_of_app; right). apply elem_of_app; left.
    repeat constructor.
  - rewrite !generation_prompts_app, generation_prompts_mails.
    by destruct Hrs as [->|[url ->]].
Qed.

(** The generation service fails once, at the underwriting request, which
    is request 8 of the run, and answers the KIQ request. *)
Lemma underwrite_failure_feeds_placeholder_witness :
  ∃ r w',
    process_submission (Faults.env_generation_fails_at 8) Sample.processor
      Sample.submission "/tmp/deck.pdf" Sample.empty = (inr r, w')
    ∧ DocsBatchUpdate (underwrite_doc_id r)
        "Analysis generation failed - please review manually."
      ∈ requests_since Sample.empty w'
    ∧ generation_prompts (requests_since Sample.empty w')
      = [Prompt.underwrite "Seed round, 2M ask";
         Prompt.kiq "Analysis generation failed - please review manually."].
Proof.
  destruct (underwrite_failure_feeds_placeholder
              (Faults.env_generation_fails_at 8) Sample.processor
              Sample.submission "/tmp/deck.pdf" Sample.empty Sample.boom)
    as (r & w' & Hrun & _ & Hbody & Hprompts);
    try (intros n; reflexivity).
  - reflexivity.
  - vm_compute. reflexivity.
  - exists r, w'. split; [exact Hrun|]. split; [exact Hbody|exact Hprompts].
Defined.

(** * Further properties of the code *)

(** ** [_clean_text_for_search] *)

Lemma clean_text_of_spelling lead parts :
  is_separator_run lead → well_separated parts →
  _clean_text_for_search (lead +:+ spell parts) = Text.join "," parts.*1.
Proof.
  intros Hlead Hparts.
  unfold _clean_text_for_search, Text.re_split. f_equal.
  destruct lead as [|c lead].
  - by apply words_of_spelling.
  - rewrite re_split_go_run by done. rewrite filter_cons_False by (cbn; tauto).
    by apply words_of_spelling.
Qed.

Lemma well_separated_words parts :
  well_separated parts → Forall is_word parts.*1.
Proof.
  induction parts as [|[word sep] rest IH]; cbn; [constructor|].
  intros (Hword & _ & _ & Hrest). constructor; auto.
Qed.

(** Words joined by commas are a spelling of these words. *)
Lemma join_is_spelling words :
  Forall is_word words →
  ∃ parts, well_separated parts ∧ parts.*1 = words
           ∧ spell parts = Text.join "," words.
Proof.
  induction 1 as [|word rest Hword Hrest (parts & Hparts & Hfst & Hspell)].
  - by exists [].
  - destruct rest as [|next rest].
    + exists [(word, "")]. cbn. split_and!; try done.
      by rewrite append_empty_r.
    + exists ((word, ",") :: parts). cbn [well_separated spell fmap list_fmap fst].
      split_and!; try done.
      * by rewrite Hfst.
      * rewrite Hspell. reflexivity.
Qed.

(** X1. The key of a name is a list of words joined by single commas, each
    word non-empty and free of separators, and normalizing a key gives the
    key back. *)
Theorem clean_text_normal_form text :
  ∃ words,
    _clean_text_for_search text = Text.join "," words
    ∧ Forall is_word words
    ∧ _clean_text_for_search (_clean_text_for_search text)
      = _clean_text_for_search text.
Proof.
  destruct (spelling_exists text) as (lead & parts & -> & Hlead & Hparts).
  exists parts.*1. rewrite clean_text_of_spelling by done.
  pose proof (well_separated_words _ Hparts) as Hwords.
  split_and!; try done.
  destruct (join_is_spelling _ Hwords) as (parts' & Hparts' & Hfst & Hspell).
  rewrite <- Hspell.
  change (spell parts') with ("" +:+ spell parts').
  rewrite clean_text_of_spelling by done. by rewrite Hfst.
Qed.

(** X2. The duplicate check does not tell apart two names made of the same
    words: for the same email it asks the same question and gives the same
    answer, whatever separates the words. *)
Theorem duplicate_check_ignores_separators env ws email lead parts lead' parts' w :
  is_separator_run lead → well_separated parts →
  is_separator_run lead' → well_separated parts' →
  parts.*1 = parts'.*1 →
  check_duplicate_project env ws email (lead +:+ spell parts) w
  = check_duplicate_project env ws email (lead' +:+ spell parts') w.
Proof.
  intros Hlead Hparts Hlead' Hparts' Hwords.
  unfold check_duplicate_project.
  by rewrite !clean_text_of_spelling, Hwords by done.
Qed.

Lemma duplicate_check_ignores_separators_witness :
  check_duplicate_project Sample.env (workspace Sample.processor) "a@b.com"
    ("" +:+ spell [("Foo", " "); ("Bar", "")]) Sample.seen
  = check_duplicate_project Sample.env (workspace Sample.processor) "a@b.com"
      ("- " +:+ spell [("Foo", "_._"); ("Bar", ";")]) Sample.seen.
Proof.
  apply duplicate_check_ignores_separators;
    try reflexivity; repeat split; try discriminate; try reflexivity;
    intros H; by destruct H.
Defined.

(** ** The text [extract_document_text] returns *)

Section Tidy.
#[local] Arguments String.append !_ _ / : simpl nomatch.

Lemma all_chars_impl (P Q : ascii → bool) s :
  (∀ c, P c = true → Q c = true) → all_chars P s = true → all_chars Q s = true.
Proof.
  intros HPQ. induction s as [|c s IH]; cbn; [done|].
  intros [Hc Hs]%andb_true_iff. by rewrite (HPQ c Hc), IH.
Qed.

Lemma re_sub_go_chars (cls P Q : ascii → bool) text in_run :
  Q " "%char = true →
  (∀ c, P c = true → cls c = false → Q c = true) →
  all_chars P text = true →
  all_chars Q (Text.re_sub_go cls " " text in_run) = true.
Proof.
  intros Hspace Hkeep. revert in_run.
  induction text as [|c text IH]; intros in_run; cbn; [done|].
  intros [Hc Htext]%andb_true_iff.
  destruct (cls c) eqn:Hcls.
  - destruct in_run; cbn; rewrite ?Hspace; by apply IH.
  - cbn. by rewrite (Hkeep c Hc Hcls), IH.
Qed.

Lemma all_chars_true s : all_chars (λ _, true) s = true.
Proof. by induction s. Qed.

Lemma re_sub_go_no_space_run text in_run :
  no_space_run (Text.re_sub_go Text.is_space " " text in_run) = true
  ∧ (in_run = true →
     first_is_space (Text.re_sub_go Text.is_space " " text in_run) = false).
Proof.
  revert in_run. induction text as [|c text IH]; intros in_run; cbn; [done|].
  destruct (Text.is_space c) eqn:Hc.
  - destruct in_run; [apply IH|]. cbn.
    destruct (IH true) as [-> ->]; done.
  - cbn. rewrite Hc. destruct (IH false) as [-> _]. done.
Qed.

Lemma lstrip_keeps (P : ascii → bool) s :
  (all_chars P s = true → all_chars P (Text.lstrip s) = true)
  ∧ (no_space_run s = true → no_space_run (Text.lstrip s) = true)
  ∧ first_is_space (Text.lstrip s) = false.
Proof.
  induction s as [|c s (IH1 & IH2 & IH3)]; cbn; [done|].
  destruct (Text.is_space c) eqn:Hc.
  - split_and!; [|by intros [_ ?]%andb_true_iff; auto|done].
    intros [_ ?]%andb_true_iff. auto.
  - cbn. by rewrite Hc.
Qed.

Lemma rstrip_first s c r :
  Text.rstrip s = String c r → ∃ rest, s = String c rest.
Proof.
  destruct s as [|d s]; cbn; [done|].
  destruct (Text.rstrip s); [destruct (Text.is_space d)|]; intros [= -> _]; eauto.
Qed.

Lemma rstrip_keeps (P : ascii → bool) s :
  (all_chars P s = true → all_chars P (Text.rstrip s) = true)
  ∧ (no_space_run s = true → no_space_run (Text.rstrip s) = true)
  ∧ last_is_space (Text.rstrip s) = false
  ∧ (first_is_space s = false → first_is_space (Text.rstrip s) = false).
Proof.
  induction s as [|c s (IH1 & IH2 & IH3 & IH4)]; cbn; [done|].
  destruct (Text.rstrip s) as [|d r] eqn:Hr.
  - destruct (Text.is_space c) eqn:Hc; cbn; rewrite ?Hc; split_and!; try done.
    intros [-> _]%andb_true_iff. done.
  - destruct (rstrip_first _ _ _ Hr) as [rest ->]. cbn in *.
    split_and!; try done.
    + intros [-> ?]%andb_true_iff. auto.
    + intros [-> ?]%andb_true_iff. auto.
Qed.

Lemma cleaned_tidy text : tidy (cleaned text) = true.
Proof.
  unfold tidy, cleaned, Text.strip, Text.re_sub.
  set (t1 := Text.re_sub_go extract_noise " " text false).
  set (t2 := Text.re_sub_go Text.is_space " " t1 false).
  assert (H1 : all_chars (λ c, negb (extract_noise c)) t1 = true).
  { apply (re_sub_go_chars _ (λ _, true)); [done| |apply all_chars_true].
    by intros c _ ->. }
  assert (H2 : all_chars plain t2 = true).
  { apply (re_sub_go_chars Text.is_space (λ c, negb (extract_noise c)) plain
             t1 false eq_refl); [|exact H1].
    intros c Hc Hs. unfold plain. by rewrite Hc, Hs. }
  destruct (re_sub_go_no_space_run t1 false) as [H3 _]. fold t2 in H3.
  destruct (lstrip_keeps plain t2) as (L1 & L2 & L3).
  destruct (rstrip_keeps plain (Text.lstrip t2)) as (R1 & R2 & R3 & R4).
  by rewrite R1, R2, R3, R4 by auto.
Qed.

End Tidy.

(** X3. [extract_document_text] never raises, and what it returns is
    settled by the answers of Drive and of the download: the text of the
    export cleaned up when both succeed, ["Document text extraction
    failed"] when Drive answers without a link, and ["Text extraction
    error"] when either request fails. In every case the text is tidy: no
    newline, carriage return, tab, backslash or double quote, no
    whitespace but single spaces between words, none at either end. *)
Theorem extract_document_text_tidy env ws id w :
  let n := length (trace w) in
  let text :=
    match drive_raises env n with
    | Some _ => "Text extraction error"
    | None =>
        match export_link env n with
        | Some (String c l) =>
            match http_get env (S n) (String c l) with
            | inr raw => cleaned raw
            | inl _ => "Text extraction error"
            end
        | _ => "Document text extraction failed"
        end
    end in
  (∃ w', extract_document_text env ws id w = (inr text, w'))
  ∧ tidy text = true.
Proof.
  cbn zeta. split.
  - destruct (extract_document_text_exact env ws id w) as (rs & w' & H & _).
    by exists w'.
  - destruct (drive_raises env _); [reflexivity|].
    destruct (export_link env _) as [[|c l]|]; try reflexivity.
    destruct (http_get env _ _); [reflexivity|apply cleaned_tidy].
Qed.

(** ** The file name [upload_document] reads the extension from *)

Section Extension.
#[local] Arguments String.append !_ _ / : simpl nomatch.

Lemma length_append (a b : string) :
  String.length (a +:+ b) = String.length a + String.length b.
Proof. induction a as [|c a IH]; simpl; [done|by rewrite IH]. Qed.

Lemma length_lower s : String.length (Path.lower s) = String.length s.
Proof. induction s as [|c s IH]; simpl; [done|by rewrite IH]. Qed.

Lemma basename_go_tail p cur tail :
  all_chars (λ c, negb (Ascii.eqb c "/")) tail = true →
  Path.basename_go (p +:+ tail) cur = Path.basename_go p cur +:+ tail.
Proof.
  intros Htail. revert cur. induction p as [|c p IH]; intros cur; cbn.
  - revert cur. induction tail as [|c tail IH]; intros cur; cbn.
    + by rewrite append_empty_r.
    + cbn in Htail. apply andb_true_iff in Htail as [Hc Htail].
      apply negb_true_iff in Hc. rewrite Hc, IH by done.
      by rewrite append_assoc.
  - by destruct (Ascii.eqb c "/").
Qed.

Lemma ext_go_tail b seen tail :
  all_chars (λ c, negb (Ascii.eqb c ".")) tail = true →
  Path.ext_go (b +:+ tail) seen = (λ ext, ext +:+ tail) <$> Path.ext_go b seen.
Proof.
  intros Htail. revert seen. induction b as [|c b IH]; intros seen; cbn.
  - revert seen. induction tail as [|c tail IH]; intros seen; cbn; [done|].
    cbn in Htail. apply andb_true_iff in Htail as [Hc Htail].
    apply negb_true_iff in Hc. by rewrite Hc, IH.
  - rewrite IH. destruct (Path.ext_go b _); cbn; [done|].
    by destruct (Ascii.eqb c "." && seen).
Qed.

(** The extension of a name that ends in [" - Original"] ends in it too,
    or is empty. *)
Lemma splitext_ext_original name :
  Path.splitext_ext (name +:+ " - Original") = ""
  ∨ ∃ ext, Path.splitext_ext (name +:+ " - Original") = ext +:+ " - Original".
Proof.
  unfold Path.splitext_ext, Path.basename.
  rewrite basename_go_tail, ext_go_tail by done.
  destruct (Path.ext_go _ _); cbn; eauto.
Qed.

Lemma upload_convert_false submission : upload_convert submission = false.
Proof.
  unfold upload_convert, upload_name.
  rewrite <- !append_assoc, (append_assoc (email submission)).
  apply bool_decide_eq_false.
  pose proof (splitext_ext_original
                (email submission +:+ " - " +:+ project_name submission))
    as Hext.
  pose proof (length_lower
                (Path.splitext_ext
                   ((email submission +:+ " - " +:+ project_name submission)
                    +:+ " - Original"))) as Hlen.
  revert Hext Hlen. generalize (Path.splitext_ext
    ((email submission +:+ " - " +:+ project_name submission)
     +:+ " - Original")).
  intros ext Hext Hlen Hin.
  assert (String.length ext = 5 ∨ String.length ext = 4) as Hlen'.
  { rewrite <- Hlen. apply list_elem_of_In in Hin.
    destruct Hin as [H|[H|[]]]; rewrite <- H; auto. }
  destruct Hext as [->|[ext' ->]].
  - cbn in Hlen'. lia.
  - rewrite length_append in Hlen'. cbn in Hlen'. lia.
Qed.

End Extension.

(** X4. The upload of the pipeline never asks Drive to convert the file:
    [upload_document] reads the extension off the name it is given, and
    the name [process_submission] gives, ["<email> - <project> - Original"],
    never ends in [.doc] or [.docx], whatever the source file is. Its only
    requests are opening the source file and creating the Drive file under
    that name, unconverted. *)
Theorem upload_never_converts env ws path folder_id submission w :
  let name :=
    email submission +:+ " - " +:+ project_name submission +:+ " - Original" in
  let run := upload_document env ws path folder_id (Some name) w in
  ∃ rs,
    trace run.2 = trace w ++ rs
    ∧ (rs = [FileOpen path]
       ∨ rs = [FileOpen path; DriveCreateFile name folder_id false]).
Proof.
  cbn zeta. unfold upload_document, file_open, drive_files_create.
  pose proof (upload_name_nonempty submission) as Hname.
  pose proof (upload_convert_false submission) as Hconvert.
  unfold upload_name in Hname. unfold upload_convert, upload_name in Hconvert.
  rewrite Hname, Hconvert. unfold_m. cbn.
  destruct (open_raises env _); cbn; [eauto|].
  destruct (drive_raises env _); cbn; rewrite <- app_assoc; eauto.
Qed.

(** ** What a failing stage leaves behind *)

(** X5. [create_project_structure] does not undo what it did: when Drive
    fails at the second or third folder, the folders created before stay
    in the store, and the error raised is Drive's answer to the first
    request that failed. It returns the three new ids exactly when the
    three requests succeed. *)
Theorem create_project_structure_keeps_partial env ws submission w :
  let n := length (trace w) in
  let folders :=
    [folder (new_id env n) (project_folder_name submission)
       (gw_base_folder_id ws);
     folder (new_id env (S n)) "PRE-UNDERWRITE" (new_id env n);
     folder (new_id env (S (S n))) "KIQ SUBMISSIONS" (new_id env n)] in
  let run := create_project_structure env ws submission w in
  ∃ k,
    drive run.2 = drive w ++ take k folders
    ∧ Forall (λ i, drive_raises env (n + i) = None) (seq 0 k)
    ∧ match run.1 with
      | inr ids =>
          k = 3
          ∧ ids = (new_id env n, new_id env (S n), new_id env (S (S n)))
      | inl e => k < 3 ∧ drive_raises env (n + k) = Some e
      end.
Proof.
  cbn zeta. unfold create_project_structure, drive_files_create. unfold_m. cbn.
  replace (S (length (trace w))) with (length (trace w) + 1) by lia.
  replace (S (length (trace w) + 1)) with (length (trace w) + 2) by lia.
  destruct (drive_raises env (length (trace w))) as [e|] eqn:H0; cbn.
  { exists 0. cbn. rewrite app_nil_r, Nat.add_0_r.
    split_and!; [done|constructor|lia|done]. }
  rewrite length_app. cbn [length].
  destruct (drive_raises env (length (trace w) + 1)) as [e|] eqn:H1; cbn.
  { exists 1. cbn. split_and!; [done| |lia|done].
    repeat constructor. by rewrite Nat.add_0_r. }
  rewrite !length_app. cbn [length]. rewrite <- Nat.add_assoc. cbn [Nat.add].
  destruct (drive_raises env (length (trace w) + 2)) as [e|] eqn:H2; cbn.
  { exists 2. cbn. rewrite <- app_assoc.
    split_and!; [done| |lia|done].
    repeat constructor; [by rewrite Nat.add_0_r|done]. }
  exists 3. cbn. rewrite <- !app_assoc. split_and!; [done| |done|done].
  repeat constructor; [by rewrite Nat.add_0_r|done|done].
Qed.

Lemma map_unless_fresh (f : DriveFile → DriveFile) id (files : list DriveFile) :
  (∀ x, x ∈ files → file_id x ≠ id) →
  map (λ x, if String.eqb (file_id x) id then f x else x) files = files.
Proof.
  induction files as [|x files IH]; intros Hfresh; cbn; [done|].
  rewrite IH by (intros y Hy; apply Hfresh; by right).
  assert (file_id x ≠ id) as Hx by (apply Hfresh; by left).
  apply String.eqb_neq in Hx. by rewrite Hx.
Qed.

(** X6. [create_document] creates the document in the root folder, writes
    its body, and moves it; it does not clean up when a later step fails.
    When the store hands out an id no file has yet: on success the store
    gained exactly the document, with [content] as body and [folder_id] as
    only parent; when the body update fails, an empty document stays in the
    root folder; when the move fails, the written document stays in the
    root folder. Nothing else in the store changes. *)
Theorem create_document_leaves_orphan env ws title content folder_id w :
  let n := length (trace w) in
  let id := new_id env n in
  (∀ f, f ∈ drive w → file_id f ≠ id) →
  let run := create_document env ws title content folder_id w in
  match run.1 with
  | inr doc_id =>
      doc_id = id
      ∧ drive run.2 = drive w ++ [document id title [folder_id] content]
  | inl e =>
      (docs_raises env n = Some e ∧ drive run.2 = drive w)
      ∨ (docs_raises env (S n) = Some e
         ∧ drive run.2 = drive w ++ [document id title ["root"] ""])
      ∨ (drive_raises env (S (S n)) = Some e
         ∧ drive run.2 = drive w ++ [document id title ["root"] content])
  end.
Proof.
  cbn zeta. intros Hfresh.
  unfold create_document, docs_documents_create, docs_documents_batchUpdate,
    drive_files_update.
  unfold_m. cbn.
  destruct (docs_raises env (length (trace w))) as [e|] eqn:H0; cbn; [auto|].
  rewrite length_app. cbn [length]. rewrite Nat.add_1_r.
  destruct (docs_raises env (S (length (trace w)))) as [e|] eqn:H1; cbn; [auto|].
  rewrite !length_app. cbn [length]. rewrite !Nat.add_1_r.
  rewrite !map_app, !map_unless_fresh by done. cbn.
  rewrite !String.eqb_refl, append_empty_r.
  destruct (drive_raises env (S (S (length (trace w))))) as [e|] eqn:H2; cbn;
    [auto|].
  split; [done|].
  rewrite !map_app, !map_unless_fresh by done. cbn.
  rewrite String.eqb_refl. unfold document. repeat f_equal.
Qed.

(** A store with one folder: a body update that fails leaves the empty
    document next to it, in the root folder. *)
Lemma create_document_leaves_orphan_witness :
  (∀ f, f ∈ drive Sample.seen → file_id f ≠ "id0")
  ∧ match
      (create_document (Faults.env_docs_fail_at 1) (workspace Sample.processor)
         "Report" "Body" "P" Sample.seen).1
    with
    | inr _ => False
    | inl e =>
        e = Sample.boom
        ∧ drive
            (create_document (Faults.env_docs_fail_at 1)
               (workspace Sample.processor) "Report" "Body" "P" Sample.seen).2
          = drive Sample.seen ++ [document "id0" "Report" ["root"] ""]
    end.
Proof.
  assert (∀ f, f ∈ drive Sample.seen → file_id f ≠ "id0") as Hfresh.
  { intros f Hf. apply list_elem_of_In in Hf. cbn in Hf.
    destruct Hf as [<-|[]]. discriminate. }
  split; [exact Hfresh|].
  pose proof (create_document_leaves_orphan (Faults.env_docs_fail_at 1)
                (workspace Sample.processor) "Report" "Body" "P" Sample.seen
                Hfresh) as H.
  cbn zeta in H.
  destruct (create_document _ _ _ _ _ _).1 as [e|doc] eqn:Hres;
    [|discriminate Hres].
  injection Hres as <-. split; [reflexivity|].
  destruct H as [[H _]|[[_ H]|[H _]]]; [discriminate H|exact H|discriminate H].
Defined.

(** ** What a run asks for *)

Lemma footprint_refl P w : footprint P w w.
Proof. exists [], []. by rewrite !app_nil_r. Qed.

Lemma footprint_trans P w w1 w2 :
  footprint P w w1 → footprint P w1 w2 → footprint P w w2.
Proof.
  intros (rs1 & ms1 & Ht1 & Hrs1 & Ho1 & Hms1) (rs2 & ms2 & Ht2 & Hrs2 & Ho2 & Hms2).
  exists (rs1 ++ rs2), (ms1 ++ ms2).
  rewrite Ht2, Ht1, Ho2, Ho1, <- !app_assoc.
  split_and!; try done; by apply Forall_app.
Qed.

Lemma footprint_impl (P Q : Request → Prop) w w' :
  (∀ r, P r → Q r) → footprint P w w' → footprint Q w w'.
Proof.
  intros HPQ (rs & ms & Ht & Hrs & Ho & Hms). exists rs, ms.
  split_and!; try done; eapply Forall_impl; eauto.
Qed.

Lemma footprint_loud P w w' : footprint (quiet P) w w' → footprint P w w'.
Proof. apply footprint_impl. by intros r [H _]. Qed.

Lemma footprint_logged P w w' lv msg :
  footprint P w w' → footprint P w (logged lv msg w').
Proof. done. Qed.

Lemma footprint_logged_l P w w' lv msg :
  footprint P (logged lv msg w) w' → footprint P w w'.
Proof. done. Qed.

Lemma footprint_quiet P w w' :
  footprint (quiet P) w w' →
  outbox w' = outbox w ∧ Forall (quiet P) (requests_since w w').
Proof.
  intros (rs & ms & Ht & Hrs & Ho & Hms).
  rewrite (requests_since_app _ _ _ Ht). split; [|done].
  destruct ms as [|m ms]; [by rewrite app_nil_r in Ho|].
  apply Forall_cons in Hms as [[_ []] _].
Qed.

Section Footprint.
Context (env : Env) (self : DealProcessor) (submission : DealSubmission)
        (document_path : string).

Ltac as_expected :=
  repeat first [apply Forall_nil | apply Forall_cons_2];
  try (unfold quiet; split; [|exact I]); cbn; eauto 6.

Ltac requests_only :=
  intros [= <- <-]; unfold footprint; cbn; rewrite <- ?app_assoc; cbn;
  eexists _, []; split_and!;
    [reflexivity
    |as_expected
    |by rewrite app_nil_r
    |constructor].

Lemma check_duplicate_project_footprint w res w' :
  check_duplicate_project env (workspace self) (email submission)
    (project_name submission) w = (res, w') →
  footprint (quiet (expected env self submission document_path)) w w'.
Proof.
  rewrite check_duplicate_project_run.
  destruct (drive_raises env _); requests_only.
Qed.

Lemma create_project_structure_footprint w res w' :
  create_project_structure env (workspace self) submission w = (res, w') →
  footprint (quiet (expected env self submission document_path)) w w'.
Proof.
  unfold create_project_structure, drive_files_create. unfold_m. cbn.
  repeat (destruct (drive_raises env _); cbn); requests_only.
Qed.

(** The first thing [create_project_structure] asks for is the project
    folder. *)
Lemma create_project_structure_first w res w' :
  create_project_structure env (workspace self) submission w = (res, w') →
  ∃ rs, trace w' = trace w ++
          DriveCreateFolder (project_folder_name submission)
            (gw_base_folder_id (workspace self)) :: rs.
Proof.
  unfold create_project_structure, drive_files_create. unfold_m. cbn.
  repeat (destruct (drive_raises env _); cbn);
    intros [= <- <-]; cbn; rewrite <- ?app_assoc; cbn; eauto.
Qed.

Lemma upload_document_footprint folder_id w res w' :
  upload_document env (workspace self) document_path folder_id
    (Some (upload_name submission)) w = (res, w') →
  footprint (quiet (expected env self submission document_path)) w w'.
Proof.
  unfold upload_document, file_open, drive_files_create.
  rewrite upload_name_nonempty.
  pose proof (upload_convert_false submission) as Hconvert.
  unfold upload_convert in Hconvert. rewrite Hconvert. unfold_m. cbn.
  destruct (open_raises env _); cbn; [requests_only|].
  destruct (drive_raises env _); cbn; requests_only.
Qed.

Lemma extract_document_text_footprint id w res w' :
  extract_document_text env (workspace self) id w = (res, w') →
  footprint (quiet (expected env self submission document_path)) w w'.
Proof.
  unfold extract_document_text, drive_files_get, requests_get. unfold_m. cbn.
  destruct (drive_raises env _); [requests_only|]. cbn.
  destruct (export_link env _) as [[|c l]|] eqn:Hlink; try requests_only.
  cbn. destruct (http_get env _ _); requests_only.
Qed.

Lemma generate_underwrite_analysis_footprint text w res w' :
  generate_underwrite_analysis env (anthropic self) text w = (res, w') →
  footprint (quiet (expected env self submission document_path)) w w'.
Proof.
  rewrite generate_underwrite_analysis_run. cbn zeta.
  destruct (anthropic_post env _ _); requests_only.
Qed.

Lemma generate_kiq_questions_footprint text w res w' :
  generate_kiq_questions env (anthropic self) text w = (res, w') →
  footprint (quiet (expected env self submission document_path)) w w'.
Proof.
  rewrite generate_kiq_questions_run. cbn zeta.
  destruct (anthropic_post env _ _); requests_only.
Qed.

Lemma create_document_footprint title content folder_id w res w' :
  title = underwrite_title self submission ∨ title = kiq_title submission →
  create_document env (workspace self) title content folder_id w = (res, w') →
  footprint (quiet (expected env self submission document_path)) w w'.
Proof.
  intros Htitle.
  unfold create_document, docs_documents_create, docs_documents_batchUpdate,
    drive_files_update.
  unfold_m. cbn.
  destruct (docs_raises env _); cbn; [requests_only|].
  destruct (docs_raises env _); cbn; [requests_only|].
  destruct (drive_raises env _); cbn; requests_only.
Qed.

Ltac one_mail :=
  intros [= <- <-]; unfold footprint; cbn;
  first
    [ eexists [_], [];
      split_and!; [reflexivity|as_expected
                  |by rewrite app_nil_r|constructor]
    | eexists [_], [_];
      split_and!; [reflexivity|as_expected
                  |reflexivity|as_expected] ].

Lemma send_client_email_footprint ul kl w res w' :
  send_client_email env (workspace self) submission ul kl w = (res, w') →
  footprint (expected env self submission document_path) w w'.
Proof.
  rewrite send_client_email_run. cbn zeta.
  destruct (gmail_raises env _); one_mail.
Qed.

Lemma send_duplicate_notification_footprint w res w' :
  send_duplicate_notification env (workspace self) submission w = (res, w') →
  footprint (expected env self submission document_path) w w'.
Proof.
  rewrite send_duplicate_notification_run. cbn zeta.
  destruct (gmail_raises env _); one_mail.
Qed.

Lemma send_each_footprint subject body tos w :
  tos ⊆ internal_notification_emails (config (workspace self)) →
  footprint (expected env self submission document_path) w
    (send_each env (from_email (config (workspace self))) subject body tos w).2.
Proof.
  revert w. induction tos as [|to tos IH]; intros w Htos;
    [apply footprint_refl|].
  cbn [send_each]. unfold gmail_send at 1. unfold_m. cbn.
  assert (to ∈ internal_notification_emails (config (workspace self)))
    as Hto by (apply Htos; by left).
  destruct (gmail_raises env (length (trace w))) as [e|].
  - cbn. eexists [_], []. cbn.
    split_and!; [reflexivity|as_expected
                |by rewrite app_nil_r|constructor].
  - match goal with |- context [send_each _ _ _ _ _ ?w1] =>
      specialize (IH w1); destruct (send_each _ _ _ _ _ w1) as [res w2] end.
    eapply footprint_trans; [|destruct res; apply IH; intros x Hx; apply Htos; by right].
    eexists [_], [_]. cbn.
    split_and!; [reflexivity|as_expected
                |reflexivity|as_expected].
Qed.

Lemma send_internal_notification_footprint pl ul kl w res w' :
  send_internal_notification env (workspace self) submission pl ul kl w
    = (res, w') →
  footprint (expected env self submission document_path) w w'.
Proof.
  unfold send_internal_notification. unfold_m.
  pose proof (send_each_footprint "NEW DEAL SUBMITTED"
                (Body.internal submission pl ul kl)
                (internal_notification_emails (config (workspace self))) w) as H.
  destruct (send_each _ _ _ _ _ w) as [[e|[]] w1]; intros [= <- <-];
    apply footprint_logged, H; done.
Qed.

Lemma Run_footprint w res w' :
  Run env self submission document_path w res w' →
  footprint (match res with inl _ => quiet (expected env self submission document_path)
     | inr _ => expected env self submission document_path
     end) w w'.
Proof.
  destruct 1 as
    [w1 w2 Hc Hd
    |w1 e w2 Hc Hs
    |w1 F P K w2 e w3 Hc Hs Hu
    |w1 F P K w2 up w3 text w4 analysis w5 e w6 Hc Hs Hu Hx Hg1 Hd1
    |w1 F P K w2 up w3 text w4 analysis w5 U w6 questions w7 e w8
       Hc Hs Hu Hx Hg1 Hd1 Hg2 Hd2
    |w1 F P K w2 up w3 text w4 analysis w5 U w6 questions w7 Q w8 w9 w10
       Hc Hs Hu Hx Hg1 Hd1 Hg2 Hd2 Hm1 Hm2];
    apply check_duplicate_project_footprint, footprint_logged_l in Hc;
    try apply create_project_structure_footprint in Hs;
    try apply upload_document_footprint in Hu;
    try (apply extract_document_text_footprint, footprint_logged_l in Hx);
    try (apply generate_underwrite_analysis_footprint, footprint_logged_l in Hg1);
    try (apply create_document_footprint in Hd1; [|by left]);
    try (apply generate_kiq_questions_footprint, footprint_logged_l in Hg2);
    try (apply create_document_footprint in Hd2; [|by right]).
  - apply send_duplicate_notification_footprint, footprint_logged_l in Hd.
    eauto using footprint_trans, footprint_loud.
  - apply footprint_logged. eauto using footprint_trans.
  - apply footprint_logged. eauto using footprint_trans.
  - apply footprint_logged. eauto 10 using footprint_trans.
  - apply footprint_logged. eauto 10 using footprint_trans.
  - apply send_client_email_footprint in Hm1.
    apply send_internal_notification_footprint in Hm2.
    apply footprint_logged.
    repeat (eapply footprint_trans; [|eassumption || (apply footprint_loud; eassumption)]).
    apply footprint_refl.
Qed.

End Footprint.

(** X7. What a run of [process_submission] asks of its collaborators,
    whatever they answer: it searches the base folder for the one term,
    opens no file but [document_path], uploads under the one name and
    never converted, fetches nothing but an export link Drive answered,
    creates documents only under the two titles, sends the processor's own
    key to the generation service, and mails, from the configured sender,
    nobody but the submitter and the configured internal addressees. *)
Theorem process_submission_footprint env self submission document_path w :
  footprint (expected env self submission document_path) w
    (process_submission env self submission document_path w).2.
Proof.
  pose proof (process_submission_Run env self submission document_path w) as H.
  apply Run_footprint in H.
  destruct (process_submission _ _ _ _ _).1; [by apply footprint_loud|done].
Qed.

(** X8. A run of [process_submission] that raises has mailed nobody: no
    send was attempted and the outbox is as it was. Notifications are the
    last step of the pipeline, after every step that can stop it. *)
Theorem failed_run_sends_no_mail env self submission document_path w e :
  (process_submission env self submission document_path w).1 = inl e →
  let w' := (process_submission env self submission document_path w).2 in
  outbox w' = outbox w ∧ ∀ m, GmailSend m ∉ requests_since w w'.
Proof.
  intros Hraise. cbn zeta.
  pose proof (process_submission_Run env self submission document_path w) as H.
  apply Run_footprint in H. rewrite Hraise in H.
  apply footprint_quiet in H as [Ho Hrs]. split; [done|].
  intros m Hm. rewrite Forall_forall in Hrs. by destruct (Hrs _ Hm) as [_ []].
Qed.

(** The pipeline stops at the body of the KIQ document: both documents
    exist by then, and nobody is told. *)
Lemma failed_run_sends_no_mail_witness :
  let run :=
    process_submission (Faults.env_docs_fail_at 14) Sample.processor
      Sample.submission "/tmp/deck.pdf" Sample.empty in
  run.1 = inl Sample.boom
  ∧ outbox run.2 = []
  ∧ ∀ m, GmailSend m ∉ requests_since Sample.empty run.2.
Proof.
  cbn zeta. split; [vm_compute; reflexivity|].
  apply (failed_run_sends_no_mail (Faults.env_docs_fail_at 14) Sample.processor
           Sample.submission "/tmp/deck.pdf" Sample.empty Sample.boom).
  vm_compute. reflexivity.
Defined.

(** ** The loop over the internal addressees *)

(** While Gmail answers, the loop delivers and goes on. *)
Lemma send_each_delivers env from subject body tos rest w :
  (∀ i, i < length tos → gmail_raises env (length (trace w) + i) = None) →
  let mail to := {| mail_to := to; mail_from := from;
                    mail_subject := subject; mail_body := body |} in
  ∃ w1,
    send_each env from subject body (tos ++ rest) w
      = send_each env from subject body rest w1
    ∧ trace w1 = trace w ++ map (λ to, GmailSend (mail to)) tos
    ∧ outbox w1 = outbox w ++ map mail tos
    ∧ drive w1 = drive w ∧ log w1 = log w.
Proof.
  cbn zeta. revert w. induction tos as [|to tos IH]; intros w Hg.
  - exists w. cbn. by rewrite !app_nil_r.
  - cbn [app send_each]. unfold gmail_send at 1. unfold_m. cbn.
    pose proof (Hg 0 ltac:(cbn; lia)) as Hfirst.
    rewrite Nat.add_0_r in Hfirst. rewrite Hfirst.
    match goal with |- context [send_each _ _ _ _ (tos ++ rest) ?w1] =>
      destruct (IH w1) as (w2 & -> & Ht & Ho & Hd & Hl) end.
    { intros i Hi. cbn. rewrite length_app. cbn.
      rewrite <- Nat.add_assoc. apply Hg. cbn. lia. }
    exists w2. cbn in *. rewrite Ht, Ho, <- !app_assoc. done.
Qed.

(** X9. [send_internal_notification] stops at the first addressee whose
    send fails: the addressees before got the notification, the failing
    send is the last request made, the addressees after it are never
    tried, and the method returns normally with the failure logged. *)
Theorem internal_notification_stops_at_first_failure
    env ws submission pl ul kl w tos to rest e :
  internal_notification_emails (config ws) = tos ++ to :: rest →
  (∀ i, i < length tos → gmail_raises env (length (trace w) + i) = None) →
  gmail_raises env (length (trace w) + length tos) = Some e →
  let run := send_internal_notification env ws submission pl ul kl w in
  run.1 = inr ()
  ∧ outbox run.2
    = outbox w ++ map (internal_mail ws submission pl ul kl) tos
  ∧ requests_since w run.2
    = map (λ to, GmailSend (internal_mail ws submission pl ul kl to))
          (tos ++ [to])
  ∧ log run.2
    = log w ++ [{| level := ERROR;
                   message := "Failed to send internal notification: "
                              +:+ exn_text e |}].
Proof.
  intros Hemails Hbefore Hfails. cbn zeta.
  unfold send_internal_notification. unfold_m. rewrite Hemails.
  destruct (send_each_delivers env (from_email (config ws))
              "NEW DEAL SUBMITTED" (Body.internal submission pl ul kl)
              tos (to :: rest) w Hbefore)
    as (w1 & -> & Ht & Ho & Hd & Hl).
  cbn [send_each]. unfold gmail_send. unfold_m. cbn.
  rewrite Ht, length_app, length_map, Hfails. cbn.
  split_and!; [done|done| |by rewrite Hl].
  unfold requests_since. cbn.
  rewrite <- app_assoc, drop_app_length, map_app. done.
Qed.

(** Two internal addressees, and Gmail failing at the second request: the
    first addressee is notified, the second is not. *)
Lemma internal_notification_stops_at_first_failure_witness :
  let run :=
    send_internal_notification (Faults.env_gmail_fails_at 1)
      (workspace Sample.processor) Sample.submission "p" "u" "k" Sample.empty in
  run.1 = inr ()
  ∧ outbox run.2
    = [internal_mail (workspace Sample.processor) Sample.submission
         "p" "u" "k" "team@acme.example"].
Proof.
  cbn zeta.
  destruct (internal_notification_stops_at_first_failure
              (Faults.env_gmail_fails_at 1) (workspace Sample.processor)
              Sample.submission "p" "u" "k" Sample.empty
              ["team@acme.example"] "manager@acme.example" [] Sample.boom)
    as (Hres & Hout & _).
  - reflexivity.
  - intros [|i] Hi; [reflexivity|cbn in Hi; lia].
  - reflexivity.
  - split; [exact Hres|exact Hout].
Defined.

(** ** The course of a run *)

Section Course.
Context (env : Env) (self : DealProcessor) (submission : DealSubmission)
        (document_path : string).

Ltac footprints :=
  repeat match goal with
         | H : create_project_structure _ _ _ _ = _ |- _ =>
             apply (create_project_structure_footprint env self submission
                      document_path) in H
         | H : upload_document _ _ _ _ _ _ = _ |- _ =>
             apply (upload_document_footprint env self submission
                      document_path) in H
         | H : extract_document_text _ _ _ _ = _ |- _ =>
             apply (extract_document_text_footprint env self submission
                      document_path) in H
         | H : generate_underwrite_analysis _ _ _ _ = _ |- _ =>
             apply (generate_underwrite_analysis_footprint env self submission
                      document_path) in H
         | H : generate_kiq_questions _ _ _ _ = _ |- _ =>
             apply (generate_kiq_questions_footprint env self submission
                      document_path) in H
         | H : create_document _ _ _ _ _ _ = _ |- _ =>
             apply (create_document_footprint env self submission
                      document_path) in H; [|(by left) || (by right)]
         | H : send_duplicate_notification _ _ _ _ = _ |- _ =>
             apply (send_duplicate_notification_footprint env self submission
                      document_path) in H
         | H : send_client_email _ _ _ _ _ _ = _ |- _ =>
             apply (send_client_email_footprint env self submission
                      document_path) in H
         | H : send_internal_notification _ _ _ _ _ _ _ = _ |- _ =>
             apply (send_internal_notification_footprint env self submission
                      document_path) in H
         end.

Ltac traces :=
  repeat match goal with
         | H : footprint _ _ _ |- _ =>
             destruct H as (? & _ & H & _); cbn [trace logged with_log] in H
         end;
  cbn [trace failed logged with_log];
  repeat match goal with
         | H : trace _ = _ |- _ => rewrite H; clear H
         end;
  rewrite <- ?app_assoc; cbn [app]; eauto.


(** When the duplicate query fails, the run goes on to create the project
    folder. *)
Lemma Run_unchecked w res w' e :
  drive_raises env (length (trace w)) = Some e →
  Run env self submission document_path w res w' →
  (∀ r, res = inr r → duplicate_detected r = false)
  ∧ ∃ rs, trace w' = trace w ++
            DriveList (search_term submission)
              (gw_base_folder_id (workspace self))
            :: DriveCreateFolder (project_folder_name submission)
                 (gw_base_folder_id (workspace self)) :: rs.
Proof.
  intros Hraise HR.
  assert (∀ b w1,
    check_duplicate_project env (workspace self) (email submission)
      (project_name submission) (started submission w) = (inr b, w1) →
    b = false
    ∧ trace w1 = trace w ++
        [DriveList (search_term submission)
           (gw_base_folder_id (workspace self))]) as Hcheck.
  { intros b w1. rewrite check_duplicate_project_run.
    change (trace (started submission w)) with (trace w). rewrite Hraise.
    by intros [= <- <-]. }
  destruct HR as
    [w1 w2 Hc Hd
    |w1 e' w2 Hc Hs
    |w1 F P K w2 e' w3 Hc Hs Hu
    |w1 F P K w2 up w3 text w4 analysis w5 e' w6 Hc Hs Hu Hx Hg1 Hd1
    |w1 F P K w2 up w3 text w4 analysis w5 U w6 questions w7 e' w8
       Hc Hs Hu Hx Hg1 Hd1 Hg2 Hd2
    |w1 F P K w2 up w3 text w4 analysis w5 U w6 questions w7 Q w8 w9 w10
       Hc Hs Hu Hx Hg1 Hd1 Hg2 Hd2 Hm1 Hm2];
    apply Hcheck in Hc as [? Hfirst]; [done|..];
    (split; [by intros r [= <-]|]);
    apply create_project_structure_first in Hs as [rs0 Hs];
    footprints; traces.
Qed.

End Course.

(** X10. When the duplicate query itself fails, [process_submission] goes
    on as if the project were new, whatever the store holds: the next
    request creates the project folder, and a run that returns is not
    flagged as a duplicate. *)
Theorem failed_duplicate_check_is_no_duplicate
    env self submission document_path w e :
  drive_raises env (length (trace w)) = Some e →
  let run := process_submission env self submission document_path w in
  (∀ r, run.1 = inr r → duplicate_detected r = false)
  ∧ ∃ rs,
      requests_since w run.2
      = DriveList (search_term submission) (gw_base_folder_id (workspace self))
        :: DriveCreateFolder (project_folder_name submission)
             (gw_base_folder_id (workspace self)) :: rs.
Proof.
  intros Hraise. cbn zeta.
  pose proof (process_submission_Run env self submission document_path w) as HR.
  destruct (Run_unchecked _ _ _ _ _ _ _ _ Hraise HR) as [Hflag [rs Ht]].
  split; [exact Hflag|]. exists rs. by apply requests_since_app.
Qed.

(** The store holds a folder the query would match; Drive fails at the
    query only, and the run returns a result that is not flagged. *)
Lemma failed_duplicate_check_is_no_duplicate_witness :
  ∃ r,
    (process_submission (Sample.env_drive_fails_at 0) Sample.processor
       Sample.submission "/tmp/deck.pdf" Sample.seen).1 = inr r
    ∧ duplicate_detected r = false.
Proof.
  destruct (failed_duplicate_check_is_no_duplicate
              (Sample.env_drive_fails_at 0) Sample.processor Sample.submission
              "/tmp/deck.pdf" Sample.seen Sample.boom eq_refl)
    as [Hflag _].
  assert (∃ r, (process_submission (Sample.env_drive_fails_at 0)
                  Sample.processor Sample.submission "/tmp/deck.pdf"
                  Sample.seen).1 = inr r) as [r Hres]
    by (vm_compute; eexists; reflexivity).
  exists r. split; [exact Hres|exact (Hflag r Hres)].
Defined.

(** ** The webhook *)



(** ** A run that fails after the folders exist *)

Lemma upload_document_open_fails env ws path folder_id submission w e :
  open_raises env (length (trace w)) = Some e →
  upload_document env ws path folder_id (Some (upload_name submission)) w
  = (inl e,
     logged ERROR ("Failed to upload document: " +:+ exn_text e)
       (requested (FileOpen path) w)).
Proof.
  intros Hopen. unfold upload_document, file_open.
  rewrite upload_name_nonempty. unfold_m. cbn. by rewrite Hopen.
Qed.

(** X12. Nothing is undone when a run fails, and that blocks the retry.
    With Drive answering and a store that matches the duplicate query
    against the name of the project folder: when the first run for a new
    project cannot open the file, it raises after creating the three
    folders, and the next run for the same submission, whatever file it
    is given, is reported as a duplicate. It creates nothing and only
    sends the duplicate notice, although no document was ever made. *)
Theorem failed_upload_blocks_retry
    env self submission document_path retry_path w e :
  (∀ n, drive_raises env n = None) →
  open_raises env (length (trace w) + 4) = Some e →
  matching_files env (workspace self) submission w = [] →
  name_contains env (project_folder_name submission) (search_term submission)
    = true →
  let n := length (trace w) in
  let first := process_submission env self submission document_path w in
  let second := process_submission env self submission retry_path first.2 in
  first.1 = inl e
  ∧ second.1 = inr duplicate_result
  ∧ drive second.2
    = drive w ++
        [folder (new_id env (S n)) (project_folder_name submission)
           (gw_base_folder_id (workspace self));
         folder (new_id env (S (S n))) "PRE-UNDERWRITE" (new_id env (S n));
         folder (new_id env (S (S (S n)))) "KIQ SUBMISSIONS" (new_id env (S n))]
  ∧ requests_since first.2 second.2
    = [DriveList (search_term submission) (gw_base_folder_id (workspace self));
       GmailSend (duplicate_mail (workspace self) submission)].
Proof.
  intros Hdrive Hopen Hfresh Hmatch. cbn zeta.
  pose proof (check_duplicate_project_run env (workspace self) submission
                (started submission w)) as Hc.
  rewrite Hdrive in Hc.
  change (matching_files env (workspace self) submission (started submission w))
    with (matching_files env (workspace self) submission w) in Hc.
  rewrite Hfresh in Hc. cbn [length] in Hc.
  destruct (create_project_structure_ok env (workspace self) Hdrive submission
              (requested (DriveList (search_term submission)
                            (gw_base_folder_id (workspace self)))
                 (started submission w)))
    as (w2 & Hs & Ht2 & Hd2).
  cbn [trace requested started logged with_trace with_log] in Hs, Ht2, Hd2.
  rewrite length_app in Hs, Ht2, Hd2. cbn [length] in Hs, Ht2, Hd2.
  rewrite Nat.add_1_r in Hs, Ht2, Hd2.
  cbn [drive requested started logged with_trace with_log] in Hd2.
  assert (length (trace w2) = length (trace w) + 4) as Hlen
    by (rewrite Ht2, !length_app; cbn; lia).
  rewrite <- Hlen in Hopen.
  pose proof (upload_document_open_fails env (workspace self) document_path
                (new_id env (S (S (length (trace w))))) submission w2 e Hopen)
    as Hu.
  pose proof (Run_process_submission _ _ _ _ _ _ _
                (Run_upload_failed env self submission document_path w
                   _ _ _ _ _ _ _ Hc Hs Hu)) as Hfirst.
  rewrite Hfirst. cbn [fst snd].
  match goal with |- context [process_submission _ _ _ retry_path ?w3] =>
    destruct (duplicate_run env self submission retry_path w3)
      as (w4 & Hsecond & Hrs & Hsame & _) end.
  { rewrite check_duplicate_project_run, Hdrive. cbn [fst]. f_equal.
    apply Nat.ltb_lt.
    assert (folder (new_id env (S (length (trace w))))
              (project_folder_name submission)
              (gw_base_folder_id (workspace self))
            ∈ matching_files env (workspace self) submission w2) as Hin.
    { apply list_elem_of_filter. split.
      - cbn. rewrite Hmatch. split; [done|]. apply list_elem_of_here.
      - rewrite Hd2. apply elem_of_app; right. apply list_elem_of_here. }
    change (matching_files env (workspace self) submission
              (failed e (logged ERROR
                 ("Failed to upload document: " +:+ exn_text e)
                 (requested (FileOpen document_path) w2))))
      with (matching_files env (workspace self) submission w2).
    destruct (matching_files env (workspace self) submission w2);
      [by apply elem_of_nil in Hin|cbn; lia]. }
  rewrite Hsecond. cbn [fst snd].
  split_and!; [done|done| |exact Hrs].
  rewrite Hsame. exact Hd2.
Qed.

(** A store that matches by words, and a file that cannot be opened: the
    first run raises, the retry is turned away as a duplicate. *)
Lemma failed_upload_blocks_retry_witness :
  (process_submission
     (Faults.with_open_raises (Faults.only_at 4) Sample.env_words)
     Sample.processor Sample.submission "/tmp/deck.pdf" Sample.empty).1
  = inl Sample.boom
  ∧ (process_submission
       (Faults.with_open_raises (Faults.only_at 4) Sample.env_words)
       Sample.processor Sample.submission "/tmp/deck-2.pdf"
       (process_submission
          (Faults.with_open_raises (Faults.only_at 4) Sample.env_words)
          Sample.processor Sample.submission "/tmp/deck.pdf" Sample.empty).2).1
    = inr duplicate_result.
Proof.
  destruct (failed_upload_blocks_retry
              (Faults.with_open_raises (Faults.only_at 4) Sample.env_words)
              Sample.processor Sample.submission "/tmp/deck.pdf"
              "/tmp/deck-2.pdf" Sample.empty Sample.boom)
    as (Hfirst & Hsecond & _).
  - intros n. reflexivity.
  - reflexivity.
  - reflexivity.
  - vm_compute. reflexivity.
  - split; [exact Hfirst|exact Hsecond].
Defined.

(** ** Loading a configuration twice *)

Lemma getenv_getenv environ name default :
  getenv environ name (getenv environ name default)
  = getenv environ name default.
Proof. unfold getenv. by destruct (environ !! name). Qed.

Lemma final_config_of_idempotent config environ :
  final_config_of (final_config_of config environ) environ
  = final_config_of config environ.
Proof.
  set (loaded := final_config_of config environ).
  assert (dict_get loaded "anthropic_api_key" JNull
          = getenv environ "ANTHROPIC_API_KEY"
              (dict_get config "anthropic_api_key" JNull)) as H1
    by reflexivity.
  assert (dict_get loaded "google_credentials_path" (JStr "credentials.json")
          = getenv environ "GOOGLE_CREDENTIALS_PATH"
              (dict_get config "google_credentials_path"
                 (JStr "credentials.json"))) as H2
    by reflexivity.
  assert (dict_get loaded "base_folder_id" JNull
          = getenv environ "BASE_FOLDER_ID"
              (dict_get config "base_folder_id" JNull)) as H3
    by reflexivity.
  assert (dict_get loaded "from_email" JNull
          = getenv environ "FROM_EMAIL" (dict_get config "from_email" JNull))
    as H4 by reflexivity.
  assert (dict_get loaded "internal_notification_emails" (JArr [])
          = dict_get config "internal_notification_emails" (JArr [])) as H5
    by reflexivity.
  assert (dict_get loaded "company_name" (JStr "Your Company")
          = dict_get config "company_name" (JStr "Your Company")) as H6
    by reflexivity.
  assert (dict_get loaded "signature_name" (JStr "Your Name")
          = dict_get config "signature_name" (JStr "Your Name")) as H7
    by reflexivity.
  assert (dict_get loaded "signature_title" (JStr "Your Title")
          = dict_get config "signature_title" (JStr "Your Title")) as H8
    by reflexivity.
  assert (dict_get loaded "phone_number" (JStr "Your Phone Number")
          = dict_get config "phone_number" (JStr "Your Phone Number")) as H9
    by reflexivity.
  assert (dict_get loaded "support_url" (JStr "https://your-website.com/contact")
          = dict_get config "support_url"
              (JStr "https://your-website.com/contact")) as H10
    by reflexivity.
  unfold final_config_of.
  rewrite H1, H2, H3, H4, H5, H6, H7, H8, H9, H10, !getenv_getenv.
  reflexivity.
Qed.

(** X13. A configuration that loads has exactly the ten keys of the
    program, whatever else the file holds, and is a fixed point of
    loading: written back as the file and loaded under the same
    environment, it is returned unchanged. *)
Theorem load_config_idempotent file environ final_config :
  _load_config file environ = inr final_config →
  dom final_config
  = list_to_set
      ["anthropic_api_key"; "google_credentials_path"; "base_folder_id";
       "from_email"; "internal_notification_emails"; "company_name";
       "signature_name"; "signature_title"; "phone_number"; "support_url"]
  ∧ _load_config (JsonObject final_config) environ = inr final_config.
Proof.
  intros Hload.
  assert (∃ config,
    final_config = final_config_of config environ
    ∧ filter (λ key, Is_true (negb (truthy (dict_get final_config key JNull))))
             required_fields = []) as (config & -> & Hnone).
  { unfold _load_config in Hload.
    destruct file as [|e|members]; [exists ∅|discriminate Hload|exists members];
      cbn zeta in Hload;
      destruct (filter _ required_fields) eqn:Hmissing;
      first [discriminate Hload | by injection Hload as <-]. }
  split.
  - unfold final_config_of. rewrite dom_list_to_map_L. reflexivity.
  - unfold _load_config. cbn zeta.
    rewrite final_config_of_idempotent, Hnone. reflexivity.
Qed.

(** The configuration [create_sample_config] writes loads as it is. *)
Lemma load_config_idempotent_witness :
  _load_config (JsonObject sample_config) ∅ = inr sample_config
  ∧ _load_config (JsonObject sample_config) ∅
    = _load_config (JsonObject (final_config_of sample_config ∅)) ∅.
Proof.
  assert (_load_config (JsonObject sample_config) ∅
          = inr (final_config_of sample_config ∅)) as Hload
    by reflexivity.
  destruct (load_config_idempotent (JsonObject sample_config) ∅
              (final_config_of sample_config ∅) Hload) as [_ Hagain].
  split; [reflexivity|].
  rewrite Hagain. exact Hload.
Defined.

(** ** From extraction to the analysis *)

Lemma extract_document_text_extracted env ws id w :
  (extract_document_text env ws id w).1
  = inr (extracted env (length (trace w))).
Proof.
  unfold extract_document_text, extracted, cleaned, drive_files_get,
    requests_get.
  unfold_m. cbn.
  destruct (drive_raises env _); [done|]. cbn.
  destruct (export_link env _) as [[|c l]|]; try done.
  cbn. rewrite length_app. cbn [length]. rewrite Nat.add_1_r.
  by destruct (http_get env _ _).
Qed.

Section Analysis.
Context (env : Env) (self : DealProcessor) (submission : DealSubmission)
        (document_path : string).

Ltac footprints :=
  repeat match goal with
         | H : create_document _ _ _ _ _ _ = _ |- _ =>
             apply (create_document_footprint env self submission
                      document_path) in H; [|(by left) || (by right)]
         | H : generate_kiq_questions _ _ _ _ = _ |- _ =>
             apply (generate_kiq_questions_footprint env self submission
                      document_path) in H
         | H : send_client_email _ _ _ _ _ _ = _ |- _ =>
             apply (send_client_email_footprint env self submission
                      document_path) in H
         | H : send_internal_notification _ _ _ _ _ _ _ = _ |- _ =>
             apply (send_internal_notification_footprint env self submission
                      document_path) in H
         end;
  repeat match goal with
         | H : footprint _ _ _ |- _ =>
             destruct H as (? & _ & H & _); cbn [trace logged with_log] in H
         end;
  cbn [trace failed logged with_log];
  repeat match goal with
         | H : trace _ = _ |- _ => rewrite H; clear H
         end;
  rewrite <- ?app_assoc; eauto.

(** A run is the continuation of its first five steps. *)
Lemma Run_past_analysis w res w' w1 F P K w2 up w3 text w4 analysis w5 :
  check_duplicate_project env (workspace self) (email submission)
    (project_name submission) (started submission w) = (inr false, w1) →
  create_project_structure env (workspace self) submission w1
    = (inr (F, P, K), w2) →
  upload_document env (workspace self) document_path P
    (Some (upload_name submission)) w2 = (inr up, w3) →
  extract_document_text env (workspace self) up
    (logged INFO "Extracting document text..." w3) = (inr text, w4) →
  generate_underwrite_analysis env (anthropic self) text
    (logged INFO "Generating underwriting analysis..." w4)
    = (inr analysis, w5) →
  Run env self submission document_path w res w' →
  ∃ rs, trace w' = trace w5 ++ rs.
Proof.
  intros Hc Hs Hu Hx Hg HR.
  destruct HR as
    [w1' w2' Hc' Hd'
    |w1' e' w2' Hc' Hs'
    |w1' F' P' K' w2' e' w3' Hc' Hs' Hu'
    |w1' F' P' K' w2' up' w3' text' w4' analysis' w5' e' w6
       Hc' Hs' Hu' Hx' Hg' Hd1
    |w1' F' P' K' w2' up' w3' text' w4' analysis' w5' U w6 questions w7 e' w8
       Hc' Hs' Hu' Hx' Hg' Hd1 Hg2 Hd2
    |w1' F' P' K' w2' up' w3' text' w4' analysis' w5' U w6 questions w7 Q w8
       w9 w10 Hc' Hs' Hu' Hx' Hg' Hd1 Hg2 Hd2 Hm1 Hm2];
    [congruence|congruence|congruence|..];
    assert (w5' = w5) as -> by congruence;
    clear Hc Hs Hu Hx Hg Hc' Hs' Hu' Hx' Hg';
    footprints.
Qed.

End Analysis.

(** X14. Extraction never stops a run, and what it returns is what gets
    analysed. In a run for a new project with Drive and the file system
    answering, the underwriting prompt sent to the generation service is
    built from the text [extract_document_text] returned: the cleaned
    export when there is one, and otherwise the notice
    ["Document text extraction failed"] (no export link) or
    ["Text extraction error"] (the download failed), which is analysed
    as if it were the document. *)
Theorem extraction_notice_is_analysed env self submission document_path w :
  (∀ n, drive_raises env n = None) →
  (∀ n, open_raises env n = None) →
  matching_files env (workspace self) submission w = [] →
  let text := extracted env (length (trace w) + 6) in
  AnthropicPost (api_key (anthropic self)) (Prompt.underwrite text)
  ∈ requests_since w
      (process_submission env self submission document_path w).2.
Proof.
  intros Hdrive Hopen Hfresh. cbn zeta.
  pose proof (check_duplicate_project_run env (workspace self) submission
                (started submission w)) as Hc.
  rewrite Hdrive in Hc.
  change (matching_files env (workspace self) submission (started submission w))
    with (matching_files env (workspace self) submission w) in Hc.
  rewrite Hfresh in Hc. cbn [length] in Hc.
  destruct (create_project_structure_ok env (workspace self) Hdrive submission
              (requested (DriveList (search_term submission)
                            (gw_base_folder_id (workspace self)))
                 (started submission w)))
    as (w2 & Hs & Ht2 & _).
  cbn [trace requested started logged with_trace with_log] in Hs, Ht2.
  destruct (upload_document_ok env (workspace self) Hdrive Hopen document_path
              (new_id env (S (length (trace w ++
                 [DriveList (search_term submission)
                    (gw_base_folder_id (workspace self))]))))
              submission w2)
    as (w3 & Hu & Ht3 & _).
  pose proof (extract_document_text_extracted env (workspace self)
                (new_id env (S (length (trace w2))))
                (logged INFO "Extracting document text..." w3)) as Hres.
  destruct (extract_document_text_run env (workspace self)
              (new_id env (S (length (trace w2))))
              (logged INFO "Extracting document text..." w3))
    as (text & rs & w4 & Hx & Ht4 & _).
  rewrite Hx in Hres. cbn [fst] in Hres. injection Hres as ->.
  cbn [trace logged with_log] in Hx, Ht4.
  pose proof (generate_underwrite_analysis_run env (anthropic self)
                (extracted env (length (trace w3)))
                (logged INFO "Generating underwriting analysis..." w4)) as Hg.
  cbn zeta in Hg.
  destruct (Run_past_analysis env self submission document_path w _ _
              _ _ _ _ _ _ _ _ _ _ _ Hc Hs Hu Hx Hg
              (process_submission_Run env self submission document_path w))
    as [rs' Ht].
  assert (length (trace w3) = length (trace w) + 6) as Hlen
    by (rewrite Ht3, Ht2, !length_app; cbn; lia).
  rewrite Hlen in Ht.
  unfold requests_since. rewrite Ht.
  match goal with
  | |- context [trace ?w5 ++ rs'] =>
      assert (trace w5 = trace w4 ++
                [AnthropicPost (api_key (anthropic self))
                   (Prompt.underwrite (extracted env (length (trace w) + 6)))])
        as -> by (by case_match)
  end.
  rewrite Ht4, Ht3, Ht2, <- !app_assoc, drop_app_length.
  apply elem_of_app; right. cbn [app].
  do 6 apply list_elem_of_further.
  apply elem_of_app; right. apply list_elem_of_here.
Qed.

(** Drive offers no text export: the notice is what the generation
    service is asked to analyse. *)
Lemma extraction_notice_is_analysed_witness :
  AnthropicPost "sk-test" (Prompt.underwrite "Document text extraction failed")
  ∈ requests_since Sample.empty
      (process_submission (Faults.env_no_export) Sample.processor
         Sample.submission "/tmp/deck.pdf" Sample.empty).2.
Proof.
  apply (extraction_notice_is_analysed Faults.env_no_export Sample.processor
           Sample.submission "/tmp/deck.pdf" Sample.empty).
  - intros n. reflexivity.
  - intros n. reflexivity.
  - reflexivity.
Defined.

(** ** Where the files of a run end up *)

Section Returns.
Context (env : Env) (ws : GoogleWorkspaceManager).

Lemma create_project_structure_returns submission w F P K w' :
  create_project_structure env ws submission w = (inr (F, P, K), w') →
  F = new_id env (length (trace w))
  ∧ P = new_id env (length (trace w) + 1)
  ∧ K = new_id env (length (trace w) + 2)
  ∧ length (trace w') = length (trace w) + 3
  ∧ drive w' = drive w ++
      [folder F (project_folder_name submission) (gw_base_folder_id ws);
       folder P "PRE-UNDERWRITE" F; folder K "KIQ SUBMISSIONS" F].
Proof.
  unfold create_project_structure, drive_files_create. unfold_m. cbn.
  destruct (drive_raises env _); cbn; [by intros [=]|].
  destruct (drive_raises env _); cbn; [by intros [=]|].
  destruct (drive_raises env _); cbn; [by intros [=]|].
  rewrite !length_app. cbn [length]. rewrite <- Nat.add_assoc. cbn [Nat.add].
  intros [= <- <- <- <-]. cbn. rewrite !length_app, <- !app_assoc. cbn.
  split_and!; try done. lia.
Qed.

Lemma upload_document_returns path folder_id submission w up w' :
  upload_document env ws path folder_id (Some (upload_name submission)) w
    = (inr up, w') →
  up = new_id env (length (trace w) + 1)
  ∧ length (trace w') = length (trace w) + 2
  ∧ drive w' = drive w ++ [uploaded up (upload_name submission) folder_id].
Proof.
  unfold upload_document, file_open, drive_files_create.
  rewrite upload_name_nonempty.
  pose proof (upload_convert_false submission) as Hconvert.
  unfold upload_convert in Hconvert. rewrite Hconvert. unfold_m. cbn.
  destruct (open_raises env _); cbn; [by intros [=]|].
  destruct (drive_raises env _); cbn; [by intros [=]|].
  rewrite !length_app. cbn [length].
  intros [= <- <-]. cbn. rewrite !length_app. cbn.
  split_and!; try done. lia.
Qed.

Lemma create_document_returns title content folder_id w doc_id w' :
  create_document env ws title content folder_id w = (inr doc_id, w') →
  (∀ f, f ∈ drive w → file_id f ≠ new_id env (length (trace w))) →
  doc_id = new_id env (length (trace w))
  ∧ length (trace w') = length (trace w) + 3
  ∧ drive w' = drive w ++ [document doc_id title [folder_id] content].
Proof.
  intros Hrun Hfresh. revert Hrun.
  unfold create_document, docs_documents_create, docs_documents_batchUpdate,
    drive_files_update.
  unfold_m. cbn.
  destruct (docs_raises env _); cbn; [by intros [=]|].
  destruct (docs_raises env _); cbn; [by intros [=]|].
  rewrite !map_app, !map_unless_fresh by done. cbn.
  rewrite !String.eqb_refl, append_empty_r.
  destruct (drive_raises env _); cbn; [by intros [=]|].
  rewrite !map_app, !map_unless_fresh by done. cbn.
  rewrite String.eqb_refl.
  intros [= <- <-]. cbn. rewrite !length_app. cbn.
  split_and!; [done|lia|]. unfold document. repeat f_equal.
Qed.

Lemma extract_document_text_keeps id w res w' :
  extract_document_text env ws id w = (res, w') →
  length (trace w) < length (trace w') ∧ drive w' = drive w.
Proof.
  destruct (extract_document_text_run env ws id w)
    as (text & rs & w1 & -> & Ht & _ & Hd & _).
  intros [= <- <-]. split; [|done]. rewrite Ht, length_app. cbn. lia.
Qed.

Lemma generate_underwrite_analysis_keeps api text w res w' :
  generate_underwrite_analysis env api text w = (res, w') →
  length (trace w') = length (trace w) + 1 ∧ drive w' = drive w.
Proof.
  rewrite generate_underwrite_analysis_run. cbn zeta. intros [= <- <-].
  case_match; cbn; rewrite length_app; done.
Qed.

Lemma generate_kiq_questions_keeps api text w res w' :
  generate_kiq_questions env api text w = (res, w') →
  length (trace w') = length (trace w) + 1 ∧ drive w' = drive w.
Proof.
  rewrite generate_kiq_questions_run. cbn zeta. intros [= <- <-].
  case_match; cbn; rewrite length_app; done.
Qed.

End Returns.

Section Layout.
Context (env : Env) (self : DealProcessor) (submission : DealSubmission)
        (document_path : string).

Lemma Run_layout w res w' :
  Run env self submission document_path w res w' →
  ∀ r, res = inr r → duplicate_detected r = false →
  (∀ n m, new_id env n = new_id env m → n = m) →
  (∀ f n, f ∈ drive w → file_id f ≠ new_id env n) →
  ∃ P K up analysis questions,
    drive w' = drive w ++
      [folder (project_folder_id r) (project_folder_name submission)
         (gw_base_folder_id (workspace self));
       folder P "PRE-UNDERWRITE" (project_folder_id r);
       folder K "KIQ SUBMISSIONS" (project_folder_id r);
       uploaded up (upload_name submission) P;
       document (underwrite_doc_id r) (underwrite_title self submission)
         [P] analysis;
       document (kiq_doc_id r) (kiq_title submission) [K] questions].
Proof.
  destruct 1 as
    [w1 w2 Hc Hd
    |w1 e w2 Hc Hs
    |w1 F P K w2 e w3 Hc Hs Hu
    |w1 F P K w2 up w3 text w4 analysis w5 e w6 Hc Hs Hu Hx Hg1 Hd1
    |w1 F P K w2 up w3 text w4 analysis w5 U w6 questions w7 e w8
       Hc Hs Hu Hx Hg1 Hd1 Hg2 Hd2
    |w1 F P K w2 up w3 text w4 analysis w5 U w6 questions w7 Q w8 w9 w10
       Hc Hs Hu Hx Hg1 Hd1 Hg2 Hd2 Hm1 Hm2];
    intros r Hr Hflag Hinj Hfresh; try discriminate Hr;
    injection Hr as <-; [discriminate Hflag|]. clear Hflag.
  assert (length (trace w1) = length (trace w) + 1 ∧ drive w1 = drive w)
    as [Hl1 Hk1].
  { rewrite check_duplicate_project_run in Hc.
    apply (f_equal snd) in Hc. cbn [snd] in Hc. subst w1.
    case_match; cbn; rewrite length_app; done. }
  apply create_project_structure_returns in Hs as (HF & HP & HK & Hl2 & Hk2).
  apply upload_document_returns in Hu as (Hup & Hl3 & Hk3).
  apply extract_document_text_keeps in Hx as [Hl4 Hk4].
  apply generate_underwrite_analysis_keeps in Hg1 as [Hl5 Hk5].
  cbn [trace drive logged with_log] in Hl4, Hk4, Hl5, Hk5.
  rewrite Hk1 in Hk2. rewrite Hk2, <- app_assoc in Hk3. cbn [app] in Hk3.
  rewrite Hk3 in Hk4. rewrite Hk4 in Hk5.
  apply create_document_returns in Hd1 as (HU & Hl6 & Hk6).
  2:{ intros f Hf. rewrite Hk5 in Hf.
      apply elem_of_app in Hf as [Hf|Hf]; [by apply Hfresh|].
      apply list_elem_of_In in Hf. cbn in Hf.
      destruct Hf as [<-|[<-|[<-|[<-|[]]]]]; cbn; subst F P K up;
        intros Heq%Hinj; lia. }
  rewrite Hk5, <- app_assoc in Hk6. cbn [app] in Hk6.
  apply generate_kiq_questions_keeps in Hg2 as [Hl7 Hk7].
  cbn [trace drive logged with_log] in Hl7, Hk7.
  rewrite Hk6 in Hk7.
  apply create_document_returns in Hd2 as (HQ & Hl8 & Hk8).
  2:{ intros f Hf. rewrite Hk7 in Hf.
      apply elem_of_app in Hf as [Hf|Hf]; [by apply Hfresh|].
      apply list_elem_of_In in Hf. cbn in Hf.
      destruct Hf as [<-|[<-|[<-|[<-|[<-|[]]]]]]; cbn; subst F P K up U;
        intros Heq%Hinj; lia. }
  rewrite Hk7, <- app_assoc in Hk8. cbn [app] in Hk8.
  destruct (send_client_email_drive env (workspace self) submission
              ("https://docs.google.com/document/d/" +:+ U)
              ("https://docs.google.com/document/d/" +:+ Q) w8)
    as (w9' & Hm1' & Hk9).
  rewrite Hm1' in Hm1. injection Hm1 as <-.
  destruct (send_internal_notification_drive env (workspace self) submission
              ("https://drive.google.com/drive/folders/" +:+ F)
              ("https://docs.google.com/document/d/" +:+ U)
              ("https://docs.google.com/document/d/" +:+ Q) w9')
    as (w10' & Hm2' & Hk10).
  rewrite Hm2' in Hm2. injection Hm2 as <-.
  exists P, K, up, analysis, questions. cbn [drive logged with_log].
  cbn [project_folder_id underwrite_doc_id kiq_doc_id].
  by rewrite Hk10, Hk9, Hk8.
Qed.

End Layout.

(** X15. Where the files of a run end up. When the store hands out ids
    that are new, a run that returns a result that is not a duplicate has
    added exactly six files to the store and changed nothing else: the
    project folder under the base folder, named after email and project;
    its two subfolders; the upload, unconverted, and the underwrite
    document in PRE-UNDERWRITE; the KIQ document in KIQ SUBMISSIONS. The
    ids of the result are those of the project folder and of the two
    documents, and no document is left in the root folder. *)
Theorem successful_run_layout env self submission document_path w r :
  (∀ n m, new_id env n = new_id env m → n = m) →
  (∀ f n, f ∈ drive w → file_id f ≠ new_id env n) →
  (process_submission env self submission document_path w).1 = inr r →
  duplicate_detected r = false →
  ∃ P K up analysis questions,
    drive (process_submission env self submission document_path w).2
    = drive w ++
      [folder (project_folder_id r) (project_folder_name submission)
         (gw_base_folder_id (workspace self));
       folder P "PRE-UNDERWRITE" (project_folder_id r);
       folder K "KIQ SUBMISSIONS" (project_folder_id r);
       uploaded up (upload_name submission) P;
       document (underwrite_doc_id r) (underwrite_title self submission)
         [P] analysis;
       document (kiq_doc_id r) (kiq_title submission) [K] questions].
Proof.
  intros Hinj Hfresh Hres Hflag.
  pose proof (process_submission_Run env self submission document_path w) as HR.
  by apply (Run_layout _ _ _ _ _ _ _ HR r).
Qed.

(** A first run against a store that numbers its files and holds another
    project: six files are added behind the folder that was there. *)
Lemma successful_run_layout_witness :
  ∃ P K up analysis questions,
    drive (process_submission Faults.env_numbered Sample.processor
             Sample.submission "/tmp/deck.pdf" Faults.archive).2
    = [folder "old" "z@y.com - Archive" "ROOT";
       folder "id1" "a@b.com - Foo Bar" "ROOT";
       folder P "PRE-UNDERWRITE" "id1";
       folder K "KIQ SUBMISSIONS" "id1";
       uploaded up "a@b.com - Foo Bar - Original" P;
       document "id8" "a@b.com - Foo Bar - ACME Underwrite" [P] analysis;
       document "id12" "a@b.com - Foo Bar - KIQ_1" [K] questions].
Proof.
  apply (successful_run_layout Faults.env_numbered Sample.processor
           Sample.submission "/tmp/deck.pdf" Faults.archive
           {| project_folder_id := "id1"; underwrite_doc_id := "id8";
              kiq_doc_id := "id12"; duplicate_detected := false |}).
  - intros n m H.
    change (String "i" (String "d" (pretty n))
            = String "i" (String "d" (pretty m))) in H.
    injection H as H. by apply (inj pretty) in H.
  - intros f n Hf. apply list_elem_of_In in Hf. cbn in Hf.
    destruct Hf as [<-|[]].
    change ("old" ≠ String "i" (String "d" (pretty n))). discriminate.
  - vm_compute. reflexivity.
  - reflexivity.
Defined.
